(** * direct_send: the direct on-chain payment pipeline of jmclient

    A shallow embedding of [direct_send] (src/jmclient/example.py) and the
    properties of its output plan, locktime rule, rejection paths and
    collaborator call order.

    Python integers are unbounded, so satoshi amounts, heights and
    timestamps are [Z].  Dictionaries are [gmap]s.  The wallet service and
    the module-level helpers the function calls are collected in one record
    of collaborators, [Env]; every call that touches the wallet, the user or
    the network is recorded in a trace of [event]s, in program order. *)

From Stdlib Require Import ZArith Lia Ascii String.
From stdpp Require Import gmap strings list fin_maps pretty.

Local Open Scope string_scope.
Local Open Scope list_scope.
Local Open Scope Z_scope.

(** ** Data *)

Definition script_type := string.
Definition outpoint := (string * Z)%type.
Definition path := list Z.

(** A value of the utxo dictionaries returned by the wallet. *)
Record utxo := { value : Z; script : string }.

(** An entry of [outs]: a dict with keys "value" and "address". *)
Record tx_out := { out_value : Z; out_address : string }.

Record txin := { prevout_hash : string; prevout_n : Z; nSequence : Z }.

(** CMutableTransaction, as far as [direct_send] looks into it. *)
Record tx := {
  vin : list txin;
  vout : list tx_out;
  nVersion : Z;
  nLockTime : Z;
  wit : list string
}.

(** CMutableTxOut(value, script). *)
Record CMutableTxOut := { nValue : Z; scriptPubKey : string }.

Definition psbt := string.

(** [estimate_tx_fee] is called with [txtype] either one script type or the
    list of the inputs' script types, and with [outtype] either one
    (possibly unrecognized) type or the list of output types. *)
Inductive txtype_arg :=
| TxType (t : script_type)
| TxTypes (ts : list script_type).

Inductive outtype_arg :=
| OutType (t : option script_type)
| OutTypes (ts : list (option script_type)).

Inductive label_result := LabelSet | UnknownAddressForLabel.

Definition accept_fn := string → string → Z → Z → option string → bool.

(** ** Outcomes and effects *)

Inductive exn := AssertionError | KeyError | IndexError | UnboundLocalError.

(** What a call of [direct_send] gives its caller: one of the Python return
    values [None], [False], a txid, the transaction, the PSBT; or an
    exception that leaves the function. *)
Inductive outcome :=
| RetNone
| RetFalse
| RetTxid (txid : string)
| RetTx (t : tx)
| RetPsbt (p : psbt)
| Raised (e : exn).

Inductive event :=
| LogError (msg : string)
| LogInfo (msg : string)
| PrintLine (msg : string)
| InfoCallback (msg : string)
| ErrorCallback (msg : string)
| GetUtxosByMixdepth
| SelectUtxos (mixdepth : Z) (amount : Z)
| GetInternalAddr (mixdepth : Z)
| MakeShuffledTx (ins : list outpoint) (outs : list tx_out) (version locktime : Z)
| CreatePsbtFromTx (t : tx) (spent_outs : list CMutableTxOut)
| SignPsbt (raw : string)
| SignTx (t : tx) (inscripts : gmap nat (string * Z))
| CliPromptUserYesNo (question : string)
| AcceptCallback (txt destination : string) (amount fee : Z) (change : option string)
| SetAddressLabel (addr label : string)
| PushTx (raw : string).

(** The collaborators: [wallet_service], its wallet, and the helpers of
    other modules.  Each is called at most once with given arguments during
    one run, so a function of the arguments describes its answer. *)
Record Env := {
  validate_address : string → bool;
  is_burn_destination : string → bool;
  wallet_is_BaseWallet : bool;
  wallet_is_FidelityBondMixin : bool;
  FIDELITY_BOND_MIXDEPTH : Z;
  get_outtype : string → option script_type;
  get_txtype : script_type;
  get_utxos_by_mixdepth : gmap Z (gmap outpoint utxo);
  select_utxos : Z → Z → gmap outpoint utxo;
  get_utxo_scripts : gmap outpoint utxo → list script_type;
  estimate_tx_fee : Z → Z → txtype_arg → outtype_arg → Z;
  get_internal_addr : Z → string;
  compute_tx_locktime : Z;
  script_to_path : string → path;
  is_timelocked_path : path → bool;
  make_shuffled_tx : list outpoint → list tx_out → Z → Z → tx;
  amount_to_str : Z → string;
  human_readable_transaction : tx → string;
  create_psbt_from_tx : tx → list CMutableTxOut → psbt;
  psbt_serialize : psbt → string;
  sign_psbt : string → string * option string;
  psbt_deserialize : string → psbt;
  human_readable_psbt : psbt → string;
  sign_tx : tx → gmap nat (string * Z) → bool * string * tx;
  cli_prompt_user_yesno : string → bool;
  set_address_label : string → string → label_result;
  tx_serialize : tx → string;
  pushtx : string → bool;
  GetTxid : tx → string;
  bintohex : string → string
}.

(** ** The monad of the function body

    A computation either goes on with a value or leaves the function with
    an outcome ([return] or an exception); in both cases it has emitted a
    list of events. *)
Inductive step (A : Type) :=
| Next (a : A)
| Stop (o : outcome).
Arguments Next {A} a.
Arguments Stop {A} o.

Definition M (A : Type) : Type := (step A * list event)%type.

Definition ret {A} (a : A) : M A := (Next a, []).

Definition bind {A B} (m : M A) (f : A → M B) : M B :=
  match m with
  | (Next a, t) => let '(r, t') := f a in (r, t ++ t')
  | (Stop o, t) => (Stop o, t)
  end.

Declare Scope py_scope.
Delimit Scope py_scope with py.
Notation "x <- m ;; k" := (bind m (fun x => k))
  (at level 100, m at next level, right associativity) : py_scope.
Notation "m ;; k" := (bind m (fun _ => k))
  (at level 100, right associativity) : py_scope.
Local Open Scope py_scope.

Definition emit (e : event) : M unit := (Next tt, [e]).
Definition return_ {A} (o : outcome) : M A := (Stop o, []).
Definition raise {A} (e : exn) : M A := (Stop (Raised e), []).
Definition assert_ (b : bool) : M unit :=
  if b then ret tt else raise AssertionError.

(** The value and trace a whole body yields. *)
Definition finish (m : M outcome) : outcome * list event :=
  match m with
  | (Next o, t) => (o, t)
  | (Stop o, t) => (o, t)
  end.

(** Python's left-to-right loop over a list, threading the loop variables. *)
Fixpoint for_each {A S} (body : S → A → M S) (l : list A) (s : S) : M S :=
  match l with
  | [] => ret s
  | a :: l' => s' <- body s a ;; for_each body l' s'
  end.

(** Truthiness of an optional string ([if custom_change_addr:]). *)
Definition truthy (s : option string) : bool :=
  match s with
  | Some s => negb (String.eqb s EmptyString)
  | None => false
  end.

Definition is_none {A} (o : option A) : bool :=
  match o with Some _ => false | None => true end.

(** Python's [sum] of a list of integers. *)
Definition sum (l : list Z) : Z := fold_left Z.add l 0.

(** [[va['value'] for u, va in utxos.items()]] *)
Definition input_values (utxos : gmap outpoint utxo) : list Z :=
  (λ item, value item.2) <$> map_to_list utxos.

(** ** The function

    The section variables are the parameters of [direct_send], in the order
    of its signature.  The body is cut at the comments of the source: the
    sanity checks and the loop over the targets, the two planning branches,
    the locktime, the construction of the transaction, and the signing and
    broadcast. *)

(** The variables the loop over [dest_and_amounts] assigns.  [target] holds
    [destination] and [amount], unbound before the first iteration. *)
Record loop_vars := {
  is_sweep : bool;
  outtypes : list (option script_type);
  total_outputs_val : Z;
  target : option (string * Z)
}.

(** The local variables alive after the planning branches.  [changeval] and
    [change_addr] are assigned in the payment branch only. *)
Record locals := {
  destination : string;
  amount : Z;
  utxos : gmap outpoint utxo;
  fee_est : Z;
  total_inputs_val : Z;
  outs : list tx_out;
  changeval : option Z;
  change_addr : option string
}.

Definition newline : string := String "010"%char EmptyString.

Section direct_send.
Variable wallet_service : Env.
Variable mixdepth : Z.
Variable dest_and_amounts : list (string * Z).
Variable answeryes : bool.
Variable accept_callback : option accept_fn.
Variables info_callback error_callback : option (string → unit).
Variables return_transaction with_final_psbt optin_rbf : bool.
Variables custom_change_addr change_label : option string.

Let env := wallet_service.

(** Lines 63-79: the additional checks on a burn destination. *)
Definition burn_checks (amount : Z) : M unit :=
  if negb (wallet_is_FidelityBondMixin env) then
    emit (LogError "Only fidelity bond wallets can burn coins");;
    return_ RetNone
  else if answeryes then
    emit (LogError "Burning coins not allowed without asking for confirmation");;
    return_ RetNone
  else if negb (mixdepth =? FIDELITY_BOND_MIXDEPTH env) then
    emit (LogError ("Burning coins only allowed from mixdepth " +:+
                    pretty (FIDELITY_BOND_MIXDEPTH env)));;
    return_ RetNone
  else if negb (amount =? 0) then
    emit (LogError ("Only sweeping allowed when burning coins, to keep " +:+
                    "the tx small. Tip: use the coin control feature to " +:+
                    "freeze utxos"));;
    return_ RetNone
  else ret tt.

(** Lines 53-87: one iteration of the loop over the targets. *)
Definition check_target (vars : loop_vars) (tgt : string * Z) : M loop_vars :=
  let destination := tgt.1 in
  let amount := tgt.2 in
  assert_ (validate_address env destination || is_burn_destination env destination);;
  sweep <- (if amount =? 0 then
              assert_ (is_none custom_change_addr &&
                       (length dest_and_amounts =? 1)%nat);;
              ret true
            else ret (is_sweep vars));;
  assert_ (0 <=? amount);;
  (if is_burn_destination env destination then burn_checks amount else ret tt);;
  ret {| is_sweep := sweep;
         outtypes := outtypes vars ++ [get_outtype env destination];
         total_outputs_val := total_outputs_val vars + amount;
         target := Some (destination, amount) |}.

(** Lines 40-87. *)
Definition sanity_checks : M loop_vars :=
  assert_ (0 <? length dest_and_amounts)%nat;;
  assert_ (match custom_change_addr with
           | None => true
           | Some a => validate_address env a
           end);;
  assert_ (0 <=? mixdepth);;
  assert_ (wallet_is_BaseWallet env);;
  for_each check_target dest_and_amounts
    {| is_sweep := false; outtypes := []; total_outputs_val := 0; target := None |}.

(** Lines 92-106: doing a sweep. *)
Definition plan_sweep (vars : loop_vars) (txtype : script_type) : M locals :=
  tgt <- match dest_and_amounts with
         | [] => raise IndexError
         | t :: _ => ret t
         end;;
  emit GetUtxosByMixdepth;;
  utxos <- match get_utxos_by_mixdepth env !! mixdepth with
           | None => raise KeyError
           | Some u => ret u
           end;;
  if decide (utxos = ∅) then
    emit (LogError ("There are no available utxos in mixdepth " +:+
                    pretty mixdepth +:+ ", quitting."));;
    return_ RetNone
  else
    let total_inputs_val := sum (input_values utxos) in
    let script_types := get_utxo_scripts env utxos in
    outtype0 <- match outtypes vars with
                | [] => raise IndexError
                | o :: _ => ret o
                end;;
    let fee_est := estimate_tx_fee env (Z.of_nat (size utxos)) 1
                     (TxTypes script_types) (OutType outtype0) in
    ret {| destination := tgt.1;
           amount := tgt.2;
           utxos := utxos;
           fee_est := fee_est;
           total_inputs_val := total_inputs_val;
           outs := [{| out_value := total_inputs_val - fee_est;
                       out_address := tgt.1 |}];
           changeval := None;
           change_addr := None |}.

(** Lines 108-144: not doing a sweep; there will be change. *)
Definition plan_payment (vars : loop_vars) (txtype : script_type) : M locals :=
  tgt <- match target vars with
         | None => raise UnboundLocalError
         | Some t => ret t
         end;;
  let change_type :=
    match custom_change_addr with
    | Some a =>
        if truthy custom_change_addr then
          match get_outtype env a with
          | None => txtype
          | Some ty => ty
          end
        else txtype
    | None => txtype
    end in
  outtype0 <- match outtypes vars with
              | [] => raise IndexError
              | o :: _ => ret o
              end;;
  let outtypes1 :=
    if is_none outtype0 then <[0%nat := Some change_type]> (outtypes vars)
    else outtypes vars in
  let outtypes2 := outtypes1 ++ [Some change_type] in
  let n_outs := Z.of_nat (length dest_and_amounts) + 1 in
  let initial_fee_est :=
    estimate_tx_fee env 8 n_outs (TxType txtype) (OutTypes outtypes2) in
  emit (SelectUtxos mixdepth (tgt.2 + initial_fee_est));;
  let utxos := select_utxos env mixdepth (tgt.2 + initial_fee_est) in
  let script_types := get_utxo_scripts env utxos in
  let fee_est :=
    if Z.of_nat (size utxos) <? 8 then
      estimate_tx_fee env (Z.of_nat (size utxos)) n_outs
        (TxTypes script_types) (OutTypes outtypes2)
    else initial_fee_est in
  let total_inputs_val := sum (input_values utxos) in
  let changeval := total_inputs_val - fee_est - total_outputs_val vars in
  let outs := (λ out, {| out_value := out.2; out_address := out.1 |})
                <$> dest_and_amounts in
  change_addr <- match custom_change_addr with
                 | None => emit (GetInternalAddr mixdepth);;
                           ret (get_internal_addr env mixdepth)
                 | Some a => ret a
                 end;;
  ret {| destination := tgt.1;
         amount := tgt.2;
         utxos := utxos;
         fee_est := fee_est;
         total_inputs_val := total_inputs_val;
         outs := outs ++ [{| out_value := changeval; out_address := change_addr |}];
         changeval := Some changeval;
         change_addr := Some change_addr |}.

(** Lines 89-144. *)
Definition plan (vars : loop_vars) : M locals :=
  let txtype := get_txtype env in
  if is_sweep vars then plan_sweep vars txtype else plan_payment vars txtype.

(** Lines 150-155: one iteration of the loop over the selected inputs. *)
Definition raise_locktime (tx_locktime : Z) (item : outpoint * utxo) : M Z :=
  let path := script_to_path env (script item.2) in
  if negb (is_timelocked_path env path) then ret tx_locktime
  else
    match last path with
    | None => raise IndexError
    | Some path_locktime => ret (Z.max tx_locktime (path_locktime + 1))
    end.

(** Lines 147-155. *)
Definition locktime (utxos : gmap outpoint utxo) : M Z :=
  let tx_locktime := compute_tx_locktime env in
  if (mixdepth =? FIDELITY_BOND_MIXDEPTH env) && wallet_is_FidelityBondMixin env
  then for_each raise_locktime (map_to_list utxos) tx_locktime
  else ret tx_locktime.

(** Lines 175-178: one iteration of the loop over [enumerate(tx.vin)]. *)
Definition collect_input (utxos : gmap outpoint utxo)
    (acc : gmap nat (string * Z) * list CMutableTxOut) (itxinp : nat * txin)
    : M (gmap nat (string * Z) * list CMutableTxOut) :=
  let i := itxinp.1 in
  let txinp := itxinp.2 in
  let u := (String.rev (prevout_hash txinp), prevout_n txinp) in
  match utxos !! u with
  | None => raise KeyError
  | Some va =>
      ret (<[i := (script va, value va)]> acc.1,
           acc.2 ++ [{| nValue := value va; scriptPubKey := script va |}])
  end.

(** Lines 162-178: the transaction, its sequence numbers and the data the
    signers need. *)
Definition assemble (l : locals) (tx_locktime : Z)
    : M (tx * gmap nat (string * Z) * list CMutableTxOut) :=
  emit (LogInfo ("Using a fee of: " +:+ amount_to_str env (fee_est l) +:+ "."));;
  match changeval l with
  | Some cv =>
      emit (LogInfo ("Using a change value of: " +:+ amount_to_str env cv +:+ "."))
  | None => ret tt
  end;;
  let ins := (map_to_list (utxos l)).*1 in
  emit (MakeShuffledTx ins (outs l) 2 tx_locktime);;
  let tx0 := make_shuffled_tx env ins (outs l) 2 tx_locktime in
  let tx1 :=
    if optin_rbf then
      {| vin := (λ inp, {| prevout_hash := prevout_hash inp;
                           prevout_n := prevout_n inp;
                           nSequence := 0xffffffff - 2 |}) <$> vin tx0;
         vout := vout tx0; nVersion := nVersion tx0;
         nLockTime := nLockTime tx0; wit := wit tx0 |}
    else tx0 in
  acc <- for_each (collect_input (utxos l))
           (zip (seq 0 (length (vin tx1))) (vin tx1)) (∅, []);;
  ret (tx1, acc.1, acc.2).

(** Lines 180-190: the wallet signs a PSBT made from the transaction. *)
Definition finalize_psbt (t : tx) (spent_outs : list CMutableTxOut) : M outcome :=
  emit (CreatePsbtFromTx t spent_outs);;
  let new_psbt := create_psbt_from_tx env t spent_outs in
  emit (SignPsbt (psbt_serialize env new_psbt));;
  let signed := sign_psbt env (psbt_serialize env new_psbt) in
  let serialized_psbt := signed.1 in
  let err := signed.2 in
  if truthy err then
    emit (LogError ("Failed to sign PSBT, quitting. Error message: " +:+
                    default EmptyString err));;
    return_ RetFalse
  else
    let new_psbt_signed := psbt_deserialize env serialized_psbt in
    emit (PrintLine "Completed PSBT created: ");;
    emit (PrintLine (human_readable_psbt env new_psbt_signed));;
    return_ (RetPsbt new_psbt_signed).

(** Lines 204-214: ask for confirmation unless [answeryes]. *)
Definition confirm (t : tx) (l : locals) (actual_amount : Z) : M unit :=
  if negb answeryes then
    match accept_callback with
    | None =>
        emit (CliPromptUserYesNo "Would you like to push to the network?");;
        if negb (cli_prompt_user_yesno env "Would you like to push to the network?")
        then
          emit (LogInfo "You chose not to broadcast the transaction, quitting.");;
          return_ RetFalse
        else ret tt
    | Some cb =>
        emit (AcceptCallback (human_readable_transaction env t) (destination l)
                actual_amount (fee_est l) custom_change_addr);;
        let accepted := cb (human_readable_transaction env t) (destination l)
                          actual_amount (fee_est l) custom_change_addr in
        if negb accepted then return_ RetFalse else ret tt
    end
  else ret tt.

(** Lines 215-220: label the change address; an unknown address is
    ignored. *)
Definition label_change (l : locals) : M unit :=
  match change_label with
  | Some lbl =>
      if truthy change_label then
        match change_addr l with
        | None => raise UnboundLocalError
        | Some addr =>
            emit (SetAddressLabel addr lbl);;
            match set_address_label env addr lbl with
            | LabelSet => ret tt
            | UnknownAddressForLabel => ret tt
            end
        end
      else ret tt
  | None => ret tt
  end.

(** Lines 221-232: push the transaction and report. *)
Definition broadcast (t : tx) : M outcome :=
  emit (PushTx (tx_serialize env t));;
  if pushtx env (tx_serialize env t) then
    let txid := bintohex env (String.rev (GetTxid env t)) in
    let successmsg := "Transaction sent: " +:+ txid in
    emit (match info_callback with
          | None => LogInfo successmsg
          | Some _ => InfoCallback successmsg
          end);;
    let txinfo := if negb return_transaction then RetTxid txid else RetTx t in
    return_ txinfo
  else
    let errormsg := "Transaction broadcast failed!" in
    emit (match error_callback with
          | None => LogError errormsg
          | Some _ => ErrorCallback errormsg
          end);;
    return_ RetFalse.

(** Lines 192-232: the wallet signs the transaction in place. *)
Definition finalize_tx (t : tx) (inscripts : gmap nat (string * Z)) (l : locals)
    : M outcome :=
  emit (SignTx t inscripts);;
  let signed := sign_tx env t inscripts in
  let success := signed.1.1 in
  let msg := signed.1.2 in
  let t := signed.2 in
  if negb success then
    emit (LogError ("Failed to sign transaction, quitting. Error msg: " +:+ msg));;
    return_ RetNone
  else
    emit (LogInfo ("Got signed transaction:" +:+ newline));;
    emit (LogInfo (human_readable_transaction env t));;
    let actual_amount :=
      if negb (amount l =? 0) then amount l
      else total_inputs_val l - fee_est l in
    let sending_info :=
      "Sends: " +:+ amount_to_str env actual_amount +:+
      " to destination: " +:+ destination l in
    let sending_info :=
      if truthy custom_change_addr then
        sending_info +:+ ", custom change to: " +:+ default EmptyString custom_change_addr
      else sending_info in
    emit (LogInfo sending_info);;
    confirm t l actual_amount;;
    label_change l;;
    broadcast t.

(** Lines 179-232. *)
Definition finalize (l : locals)
    (a : tx * gmap nat (string * Z) * list CMutableTxOut) : M outcome :=
  if with_final_psbt then finalize_psbt a.1.1 a.2
  else finalize_tx a.1.1 a.1.2 l.

Definition direct_send_body : M outcome :=
  vars <- sanity_checks;;
  l <- plan vars;;
  tx_locktime <- locktime (utxos l);;
  a <- assemble l tx_locktime;;
  finalize l a.

(** The value [direct_send] gives its caller and the calls it made. *)
Definition direct_send : outcome * list event := finish direct_send_body.
End direct_send.

(** [plan_request]: the sanity checks followed by the planning branch. *)
Definition plan_request (wallet_service : Env) (mixdepth : Z)
    (dest_and_amounts : list (string * Z)) (answeryes : bool)
    (custom_change_addr : option string) : M locals :=
  vars <- sanity_checks wallet_service mixdepth dest_and_amounts answeryes
            custom_change_addr;;
  plan wallet_service mixdepth dest_and_amounts custom_change_addr vars.

(** ** Vocabulary of the statements *)

(** [list(utxos.keys())] *)
Definition keys (utxos : gmap outpoint utxo) : list outpoint :=
  (map_to_list utxos).*1.

(** The [outs] entries of the requested destinations (lines 140-141). *)
Definition requested_outs (dest_and_amounts : list (string * Z)) : list tx_out :=
  (λ out, {| out_value := out.2; out_address := out.1 |}) <$> dest_and_amounts.

Definition is_log_error (e : event) : bool :=
  match e with LogError _ => true | _ => false end.

(** Calls that retrieve or select inputs. *)
Definition is_input_selection (e : event) : bool :=
  match e with GetUtxosByMixdepth | SelectUtxos _ _ => true | _ => false end.

Definition is_make_tx (e : event) : bool :=
  match e with MakeShuffledTx _ _ _ _ => true | _ => false end.

Definition is_push (e : event) : bool :=
  match e with PushTx _ => true | _ => false end.

(** Events of the planning branches. *)
Definition is_plan_event (e : event) : bool :=
  match e with
  | LogError _ | GetUtxosByMixdepth | SelectUtxos _ _ | GetInternalAddr _ => true
  | _ => false
  end.

(** The selected inputs whose path is time-locked. *)
Definition timelocked_inputs (env : Env) (utxos : gmap outpoint utxo)
    : list (outpoint * utxo) :=
  filter (λ item, is_timelocked_path env (script_to_path env (script item.2)) = true)
         (map_to_list utxos).

(** [path[-1]] of an input. *)
Definition unlock_time (env : Env) (item : outpoint * utxo) : option Z :=
  last (script_to_path env (script item.2)).

(** Every time-locked path has a last component to read. *)
Definition timelocked_paths_ok (env : Env) (utxos : gmap outpoint utxo) : bool :=
  forallb (λ item, bool_decide (is_Some (unlock_time env item)))
          (timelocked_inputs env utxos).

(** The sanity assertions on one target (lines 55-62), without the burn
    checks. *)
Definition target_asserts (env : Env) (dest_and_amounts : list (string * Z))
    (custom_change_addr : option string) (tgt : string * Z) : bool :=
  (validate_address env tgt.1 || is_burn_destination env tgt.1)
  && (if tgt.2 =? 0
      then is_none custom_change_addr && (length dest_and_amounts =? 1)%nat
      else true)
  && (0 <=? tgt.2).

(** All sanity assertions of lines 45-62. *)
Definition asserts_hold (env : Env) (mixdepth : Z)
    (dest_and_amounts : list (string * Z)) (custom_change_addr : option string)
    : bool :=
  (0 <? length dest_and_amounts)%nat
  && match custom_change_addr with
     | None => true
     | Some a => validate_address env a
     end
  && (0 <=? mixdepth)
  && wallet_is_BaseWallet env
  && forallb (target_asserts env dest_and_amounts custom_change_addr)
       dest_and_amounts.

(** The burn preconditions of lines 65-79. *)
Definition burn_permitted (env : Env) (mixdepth : Z) (answeryes : bool)
    (amount : Z) : bool :=
  wallet_is_FidelityBondMixin env && negb answeryes
  && (mixdepth =? FIDELITY_BOND_MIXDEPTH env) && (amount =? 0).

(** The request passes the sanity checks: the assertions hold and every
    burn destination meets the burn preconditions. *)
Definition request_accepted (env : Env) (mixdepth : Z)
    (dest_and_amounts : list (string * Z)) (answeryes : bool)
    (custom_change_addr : option string) : bool :=
  asserts_hold env mixdepth dest_and_amounts custom_change_addr
  && forallb (λ tgt, if is_burn_destination env tgt.1
                     then burn_permitted env mixdepth answeryes tgt.2
                     else true)
       dest_and_amounts.

(** The confirmation was declined in a run with the given trace: the prompt
    is answered no, or the supplied callback returned [False] on the call
    recorded in the trace. *)
Definition declined (env : Env) (accept_callback : option accept_fn)
    (trace : list event) : Prop :=
  match accept_callback with
  | None => cli_prompt_user_yesno env "Would you like to push to the network?" = false
  | Some cb =>
      ∀ txt dest amt fee change,
        AcceptCallback txt dest amt fee change ∈ trace →
        cb txt dest amt fee change = false
  end.

Definition is_label (e : event) : bool :=
  match e with SetAddressLabel _ _ => true | _ => false end.

(** The loop variables after one passed iteration on [tgt]. *)
Definition after_target (env : Env) (vars : loop_vars) (tgt : string * Z)
    : loop_vars :=
  {| is_sweep := (tgt.2 =? 0) || is_sweep vars;
     outtypes := outtypes vars ++ [get_outtype env tgt.1];
     total_outputs_val := total_outputs_val vars + tgt.2;
     target := Some (tgt.1, tgt.2) |}.

(** ** Scenarios

    A small wallet used to run the function on concrete requests.  Addresses
    starting with bc1 are valid, those starting with bc1q have a recognized
    script type, and BURN is the burn marker.  The fee estimate charges 100
    per input and 50 per output; the chain height gives the locktime
    800000; scripts starting with tl belong to time-locked paths. *)

(** A transaction with the inputs and outputs in the given order, one of
    the orders the shuffle can produce. *)
Definition ordered_tx (ins : list outpoint) (outs : list tx_out)
    (version locktime : Z) : tx :=
  {| vin := (λ u, {| prevout_hash := String.rev u.1; prevout_n := u.2;
                     nSequence := 0xffffffff |}) <$> ins;
     vout := outs; nVersion := version; nLockTime := locktime; wit := [] |}.

Definition demo_wallet (bond : bool) (held : gmap outpoint utxo)
    (signs accepts pushes : bool) : Env :=
  {| validate_address := String.prefix "bc1";
     is_burn_destination := String.eqb "BURN";
     wallet_is_BaseWallet := true;
     wallet_is_FidelityBondMixin := bond;
     FIDELITY_BOND_MIXDEPTH := 0;
     get_outtype := λ a, if String.prefix "bc1q" a then Some "p2wpkh" else None;
     get_txtype := "p2wpkh";
     get_utxos_by_mixdepth := {[ 0 := held ]};
     select_utxos := λ _ _, held;
     get_utxo_scripts := λ u, (λ _, "p2wpkh") <$> map_to_list u;
     estimate_tx_fee := λ n_in n_out _ _, 100 * n_in + 50 * n_out;
     get_internal_addr := λ _, "bc1qchange";
     compute_tx_locktime := 800000;
     script_to_path := λ s, if String.prefix "tl" s
                            then [84; 0; 0; 2; 1700000000] else [84; 0; 0; 0; 7];
     is_timelocked_path := λ p, bool_decide (p !! 3%nat = Some 2);
     make_shuffled_tx := ordered_tx;
     amount_to_str := pretty;
     human_readable_transaction := λ _, "tx";
     create_psbt_from_tx := λ _ _, "psbt";
     psbt_serialize := id;
     sign_psbt := λ raw, (raw, if signs then None else Some "no key");
     psbt_deserialize := id;
     human_readable_psbt := id;
     sign_tx := λ t _, (signs, "no key", t);
     cli_prompt_user_yesno := λ _, accepts;
     set_address_label := λ _ _, UnknownAddressForLabel;
     tx_serialize := λ _, "raw";
     pushtx := λ _, pushes;
     GetTxid := λ _, "dc";
     bintohex := id |}.

Definition one_coin : gmap outpoint utxo :=
  {[ ("ab", 0) := {| value := 100000; script := "s1" |} ]}.

Definition dust_coin : gmap outpoint utxo :=
  {[ ("ab", 1) := {| value := 100; script := "s1" |} ]}.

Definition bond_coins : gmap outpoint utxo :=
  {[ ("ab", 0) := {| value := 100000; script := "tl1" |};
     ("cd", 1) := {| value := 5000; script := "s2" |} ]}.

(** [direct_send] with the keyword arguments left at their defaults, except
    [answeryes] and [change_label]. *)
Definition send (env : Env) (dest_and_amounts : list (string * Z))
    (answeryes : bool) (change_label : option string) : outcome * list event :=
  direct_send env 0 dest_and_amounts answeryes None None None false false true
    None change_label.

(** ** Vocabulary of the further properties *)

(** Python results that tell the caller the payment was not made. *)
Definition is_failure (o : outcome) : bool :=
  match o with
  | RetNone | RetFalse | Raised _ => true
  | RetTxid _ | RetTx _ | RetPsbt _ => false
  end.

(** Requests for confirmation, at the prompt or through the callback. *)
Definition is_confirmation (e : event) : bool :=
  match e with
  | CliPromptUserYesNo _ | AcceptCallback _ _ _ _ _ => true
  | _ => false
  end.

Definition is_get_internal_addr (e : event) : bool :=
  match e with GetInternalAddr _ => true | _ => false end.

(** Calls that hand the transaction to a signer. *)
Definition is_signing (e : event) : bool :=
  match e with
  | SignTx _ _ | SignPsbt _ | CreatePsbtFromTx _ _ => true
  | _ => false
  end.

(** How many events of a trace satisfy [p]. *)
Definition count (p : event → bool) (t : list event) : nat :=
  length (filter (λ e, p e = true) t).

(** The outpoint an input spends (line 175). *)
Definition spent_outpoint (txinp : txin) : outpoint :=
  (String.rev (prevout_hash txinp), prevout_n txinp).

(** The final report of a broadcast (lines 224-225 and 230-231). *)
Definition report (callback : option (string → unit)) (level : string → event)
    (channel : string → event) (msg : string) : event :=
  match callback with
  | None => level msg
  | Some _ => channel msg
  end.

(** The transaction after lines 168-170: with [optin_rbf] every input gets
    the sequence number 0xffffffff - 2. *)
Definition with_sequences (optin_rbf : bool) (t : tx) : tx :=
  if optin_rbf then
    {| vin := (λ inp, {| prevout_hash := prevout_hash inp;
                         prevout_n := prevout_n inp;
                         nSequence := 0xffffffff - 2 |}) <$> vin t;
       vout := vout t; nVersion := nVersion t;
       nLockTime := nLockTime t; wit := wit t |}
  else t.

(** [CMutableTxOut(utxos[u]["value"], utxos[u]["script"])] *)
Definition spent_out (va : utxo) : CMutableTxOut :=
  {| nValue := value va; scriptPubKey := script va |}.

(** The plans of two scenarios: a payment of 50000 from the one coin, and a
    sweep of it. *)
Definition demo_payment_plan : locals :=
  {| destination := "bc1qalice"; amount := 50000; utxos := one_coin;
     fee_est := 200; total_inputs_val := 100000;
     outs := [{| out_value := 50000; out_address := "bc1qalice" |};
              {| out_value := 49800; out_address := "bc1qchange" |}];
     changeval := Some 49800; change_addr := Some "bc1qchange" |}.

Definition demo_sweep_plan : locals :=
  {| destination := "bc1qalice"; amount := 0; utxos := one_coin;
     fee_est := 150; total_inputs_val := 100000;
     outs := [{| out_value := 99850; out_address := "bc1qalice" |}];
     changeval := None; change_addr := None |}.

(** A wallet like [env] whose transaction builder is [f]. *)
Definition with_make_shuffled_tx
    (f : list outpoint → list tx_out → Z → Z → tx) (env : Env) : Env :=
  {| validate_address := validate_address env;
     is_burn_destination := is_burn_destination env;
     wallet_is_BaseWallet := wallet_is_BaseWallet env;
     wallet_is_FidelityBondMixin := wallet_is_FidelityBondMixin env;
     FIDELITY_BOND_MIXDEPTH := FIDELITY_BOND_MIXDEPTH env;
     get_outtype := get_outtype env;
     get_txtype := get_txtype env;
     get_utxos_by_mixdepth := get_utxos_by_mixdepth env;
     select_utxos := select_utxos env;
     get_utxo_scripts := get_utxo_scripts env;
     estimate_tx_fee := estimate_tx_fee env;
     get_internal_addr := get_internal_addr env;
     compute_tx_locktime := compute_tx_locktime env;
     script_to_path := script_to_path env;
     is_timelocked_path := is_timelocked_path env;
     make_shuffled_tx := f;
     amount_to_str := amount_to_str env;
     human_readable_transaction := human_readable_transaction env;
     create_psbt_from_tx := create_psbt_from_tx env;
     psbt_serialize := psbt_serialize env;
     sign_psbt := sign_psbt env;
     psbt_deserialize := psbt_deserialize env;
     human_readable_psbt := human_readable_psbt env;
     sign_tx := sign_tx env;
     cli_prompt_user_yesno := cli_prompt_user_yesno env;
     set_address_label := set_address_label env;
     tx_serialize := tx_serialize env;
     pushtx := pushtx env;
     GetTxid := GetTxid env;
     bintohex := bintohex env |}.

(** A builder that adds an input nobody planned. *)
Definition stray_tx (ins : list outpoint) (outs : list tx_out)
    (version locktime : Z) : tx :=
  ordered_tx (ins ++ [("ff", 9)]) outs version locktime.

(** The transaction of the payment scenario as the signers get it. *)
Definition demo_payment_tx : tx :=
  {| vin := [{| prevout_hash := "ba"; prevout_n := 0; nSequence := 4294967293 |}];
     vout := outs demo_payment_plan; nVersion := 2; nLockTime := 800000;
     wit := [] |}.

(** ** The monad: inversion and traces *)

Lemma bind_Next {A B} (m : M A) (f : A → M B) b t :
  bind m f = (Next b, t) →
  ∃ a t1 t2, m = (Next a, t1) ∧ f a = (Next b, t2) ∧ t = t1 ++ t2.
Proof.
  unfold bind. destruct m as [[a|o] t1]; [|discriminate].
  destruct (f a) as [r t2] eqn:Hf. intros [= -> <-]. eauto 6.
Qed.

Lemma bind_Stop {A B} (m : M A) (f : A → M B) o t :
  bind m f = (Stop o, t) →
  m = (Stop o, t) ∨
  ∃ a t1 t2, m = (Next a, t1) ∧ f a = (Stop o, t2) ∧ t = t1 ++ t2.
Proof.
  unfold bind. destruct m as [[a|o'] t1].
  - destruct (f a) as [r t2] eqn:Hf. intros [= -> <-]. right. eauto 6.
  - intros [= -> ->]. by left.
Qed.

Lemma bind_of_Next {A B} (m : M A) (f : A → M B) a t1 :
  m = (Next a, t1) → bind m f = ((f a).1, t1 ++ (f a).2).
Proof. intros ->. unfold bind. by destruct (f a). Qed.

Lemma bind_of_Stop {A B} (m : M A) (f : A → M B) o t1 :
  m = (Stop o, t1) → bind m f = (Stop o, t1).
Proof. by intros ->. Qed.

Lemma bind_assoc {A B C} (m : M A) (f : A → M B) (g : B → M C) :
  bind (bind m f) g = bind m (λ a, bind (f a) g).
Proof.
  unfold bind. destruct m as [[a|o] t1]; [|done].
  destruct (f a) as [[b|o] t2]; [|done].
  destruct (g b) as [r t3]. by rewrite app_assoc.
Qed.

Lemma bind_trace {A B} (P : event → Prop) (m : M A) (f : A → M B) :
  Forall P m.2 → (∀ a, Forall P (f a).2) → Forall P (bind m f).2.
Proof.
  intros Hm Hf. unfold bind. destruct m as [[a|o] t1]; [|done].
  specialize (Hf a). destruct (f a) as [r t2]. simpl in *.
  by apply Forall_app.
Qed.

Lemma for_each_trace {A S} (P : event → Prop) (body : S → A → M S) l s :
  (∀ s a, Forall P (body s a).2) → Forall P (for_each body l s).2.
Proof.
  intros Hbody. revert s. induction l as [|a l IH]; intros s; simpl.
  - constructor.
  - apply bind_trace; auto.
Qed.

Lemma finish_trace (m : M outcome) : (finish m).2 = m.2.
Proof. by destruct m as [[o|o] t]. Qed.

Lemma assert_Next b u t : assert_ b = (Next u, t) → b = true ∧ t = [].
Proof. destruct b; simpl; [by intros [= _ <-]|discriminate]. Qed.

Lemma assert_Stop b o t :
  assert_ b = (Stop o, t) → b = false ∧ o = Raised AssertionError ∧ t = [].
Proof. destruct b; simpl; [discriminate|by intros [= <- <-]]. Qed.

(** Splits a goal about the trace of a body along its binds, branches and
    primitive actions. *)
Ltac trace_step :=
  match goal with
  | |- Forall _ (bind _ _).2 => apply bind_trace; [|intros]
  | |- Forall _ (for_each _ _ _).2 => apply for_each_trace; intros
  | |- Forall _ (ret _).2 => by constructor
  | |- Forall _ (return_ _).2 => by constructor
  | |- Forall _ (raise _).2 => by constructor
  | |- Forall _ (emit (match ?x with _ => _ end)).2 => destruct x
  | |- Forall _ (emit _).2 => by repeat constructor
  | |- Forall _ (assert_ ?b).2 => destruct b; by constructor
  | |- Forall _ (if ?b then _ else _).2 => destruct b
  | |- Forall _ (match ?x with _ => _ end).2 => destruct x
  | |- Forall _ (let _ := _ in _).2 => cbv zeta
  end.
Ltac trace_solve := repeat trace_step.

(** ** Sums *)

Lemma fold_left_add_acc (l : list Z) (a : Z) :
  fold_left Z.add l a = a + fold_left Z.add l 0.
Proof.
  revert a. induction l as [|x l IH]; intros a; simpl; [lia|].
  rewrite (IH (a + x)), (IH (0 + x)). lia.
Qed.

Lemma sum_nil : sum [] = 0.
Proof. done. Qed.

Lemma sum_cons x l : sum (x :: l) = x + sum l.
Proof. unfold sum. simpl. by rewrite fold_left_add_acc. Qed.

Lemma sum_app l1 l2 : sum (l1 ++ l2) = sum l1 + sum l2.
Proof.
  induction l1 as [|x l1 IH]; simpl; [by rewrite sum_nil|].
  rewrite !sum_cons, IH. lia.
Qed.

Lemma sum_requested_outs daa :
  sum (out_value <$> requested_outs daa) = sum daa.*2.
Proof. unfold requested_outs. by rewrite <- list_fmap_compose. Qed.

(** ** The sanity checks *)

Section sanity.
Variable env : Env.
Variable mixdepth : Z.
Variable daa : list (string * Z).
Variable answeryes : bool.
Variable cca : option string.

Local Abbreviation check := (check_target env mixdepth daa answeryes cca).

(** One iteration ends in exactly one of three ways: a failed assertion,
    a refused burn (error logged, [None] returned), or the updated loop
    variables. *)
Lemma check_target_cases vars tgt :
  (target_asserts env daa cca tgt = false ∧
   check vars tgt = (Stop (Raised AssertionError), []))
  ∨ (target_asserts env daa cca tgt = true ∧
     is_burn_destination env tgt.1 = true ∧
     burn_permitted env mixdepth answeryes tgt.2 = false ∧
     ∃ msg, check vars tgt = (Stop RetNone, [LogError msg]))
  ∨ (target_asserts env daa cca tgt = true ∧
     (is_burn_destination env tgt.1 = true →
      burn_permitted env mixdepth answeryes tgt.2 = true) ∧
     check vars tgt = (Next (after_target env vars tgt), [])).
Proof.
  unfold check_target, target_asserts, burn_permitted, burn_checks, after_target.
  destruct tgt as [d a]; simpl.
  destruct (validate_address env d), (is_burn_destination env d),
    (a =? 0), (is_none cca), (length daa =? 1)%nat, (0 <=? a);
    try destruct (wallet_is_FidelityBondMixin env);
    try destruct answeryes;
    try destruct (mixdepth =? FIDELITY_BOND_MIXDEPTH env);
    cbn [andb orb negb bind assert_ ret raise return_ emit fst snd app];
    first [ by left
          | right; left; repeat split; by eexists
          | right; right; repeat split; done ].
Qed.

Lemma check_targets_Next tgts vars0 vars t :
  for_each check tgts vars0 = (Next vars, t) →
  t = []
  ∧ forallb (target_asserts env daa cca) tgts = true
  ∧ (∀ tgt, tgt ∈ tgts → is_burn_destination env tgt.1 = true →
       burn_permitted env mixdepth answeryes tgt.2 = true)
  ∧ is_sweep vars = existsb (λ tgt, tgt.2 =? 0) tgts || is_sweep vars0
  ∧ outtypes vars = outtypes vars0 ++ (get_outtype env <$> tgts.*1)
  ∧ total_outputs_val vars = total_outputs_val vars0 + sum tgts.*2
  ∧ target vars = from_option Some (target vars0) (last tgts).
Proof.
  revert vars0 t. induction tgts as [|tgt tgts IH]; intros vars0 t; simpl.
  - intros [= <- <-]. rewrite app_nil_r, sum_nil, Z.add_0_r.
    repeat split; auto. intros ? Hin. by apply elem_of_nil in Hin.
  - intros H. apply bind_Next in H as (v1 & t1 & t2 & Hc & Hrest & ->).
    destruct (check_target_cases vars0 tgt)
      as [[_ Hs]|[(_ & _ & _ & msg & Hs)|(Ha & Hb & Hs)]];
      rewrite Hc in Hs; try discriminate.
    injection Hs as -> ->.
    apply IH in Hrest as (-> & Hall & Hburn & Hsw & Hot & Htot & Htgt).
    rewrite Ha, Hall, Hsw, Hot, Htot, Htgt. simpl.
    rewrite sum_cons, <- app_assoc. simpl.
    repeat split; auto.
    + intros x [->|Hin]%elem_of_cons; auto.
    + by destruct (tgt.2 =? 0), (existsb _ tgts), (is_sweep vars0).
    + unfold fmap. lia.
    + destruct tgts as [|x tgts']; [by destruct tgt|].
      rewrite last_cons_cons.
      by destruct (last (x :: tgts')) eqn:E; [|apply last_None in E].
Qed.

Lemma check_targets_Stop tgts vars0 o t :
  for_each check tgts vars0 = (Stop o, t) →
  (o = Raised AssertionError ∧ t = []) ∨
  (o = RetNone ∧ ∃ msg tgt,
     t = [LogError msg] ∧ tgt ∈ tgts ∧ is_burn_destination env tgt.1 = true).
Proof.
  revert vars0 t. induction tgts as [|tgt tgts IH]; intros vars0 t; simpl.
  - discriminate.
  - intros H.
    destruct (check_target_cases vars0 tgt)
      as [[_ Hs]|[(_ & Hb & _ & msg & Hs)|(_ & _ & Hn)]].
    + rewrite (bind_of_Stop _ _ _ _ Hs) in H. injection H as <- <-. by left.
    + rewrite (bind_of_Stop _ _ _ _ Hs) in H. injection H as <- <-.
      right. split; [done|]. exists msg, tgt. repeat split; auto.
      by apply elem_of_cons; left.
    + rewrite (bind_of_Next _ _ _ _ Hn) in H. simpl in H.
      destruct (for_each check tgts (after_target env vars0 tgt)) as [r t'] eqn:Hr.
      simpl in H. injection H as -> ->.
      apply IH in Hr as [?|(-> & msg & x & -> & Hin & Hb)]; [by left|].
      right. split; [done|]. exists msg, x. repeat split; auto.
      by apply elem_of_cons; right.
Qed.

(** The loop goes through when every target passes the assertions and
    every burn target is permitted. *)
Lemma check_targets_pass tgts vars0 :
  forallb (target_asserts env daa cca) tgts = true →
  (∀ tgt, tgt ∈ tgts → is_burn_destination env tgt.1 = true →
     burn_permitted env mixdepth answeryes tgt.2 = true) →
  ∃ vars, for_each check tgts vars0 = (Next vars, []).
Proof.
  revert vars0. induction tgts as [|x tgts IH]; intros vars0 Hall Hburn; simpl.
  - by eexists.
  - simpl in Hall. apply andb_prop in Hall as [Hx Hall].
    destruct (check_target_cases vars0 x)
      as [[Ha _]|[(_ & Hb & Hp & _)|(_ & _ & Hn)]].
    + congruence.
    + rewrite Hburn in Hp; [done| |done]. by apply elem_of_cons; left.
    + destruct (IH (after_target env vars0 x) Hall) as [vars Hr].
      { intros tgt Hin. apply Hburn. by apply elem_of_cons; right. }
      exists vars. by rewrite (bind_of_Next _ _ _ _ Hn), Hr.
Qed.

(** With all assertions true, a burn target that is not permitted ends the
    loop by the logged refusal. *)
Lemma check_targets_burn_refused tgts vars0 tgt :
  forallb (target_asserts env daa cca) tgts = true →
  tgt ∈ tgts →
  is_burn_destination env tgt.1 = true →
  burn_permitted env mixdepth answeryes tgt.2 = false →
  ∃ msg, for_each check tgts vars0 = (Stop RetNone, [LogError msg]).
Proof.
  revert vars0. induction tgts as [|x tgts IH]; intros vars0 Hall Hin Hb Hp.
  - by apply elem_of_nil in Hin.
  - simpl in Hall. apply andb_prop in Hall as [Hx Hall]. simpl.
    destruct (check_target_cases vars0 x)
      as [[Ha _]|[(_ & _ & _ & msg & Hs)|(_ & Hok & Hn)]].
    + congruence.
    + exists msg. by rewrite (bind_of_Stop _ _ _ _ Hs).
    + apply elem_of_cons in Hin as [->|Hin]; [rewrite Hok in Hp; done|].
      destruct (IH (after_target env vars0 x) Hall Hin Hb Hp) as [msg Hr].
      exists msg. by rewrite (bind_of_Next _ _ _ _ Hn), Hr.
Qed.

Local Abbreviation checks := (sanity_checks env mixdepth daa answeryes cca).

Lemma sanity_checks_Next vars t :
  checks = (Next vars, t) →
  t = []
  ∧ asserts_hold env mixdepth daa cca = true
  ∧ (∀ tgt, tgt ∈ daa → is_burn_destination env tgt.1 = true →
       burn_permitted env mixdepth answeryes tgt.2 = true)
  ∧ is_sweep vars = existsb (λ tgt, tgt.2 =? 0) daa
  ∧ outtypes vars = get_outtype env <$> daa.*1
  ∧ total_outputs_val vars = sum daa.*2
  ∧ target vars = last daa.
Proof.
  unfold sanity_checks, asserts_hold. intros H.
  apply bind_Next in H as (? & ? & ? & [-> ->]%assert_Next & H & ->).
  apply bind_Next in H as (? & ? & ? & [-> ->]%assert_Next & H & ->).
  apply bind_Next in H as (? & ? & ? & [-> ->]%assert_Next & H & ->).
  apply bind_Next in H as (? & ? & ? & [-> ->]%assert_Next & H & ->).
  apply check_targets_Next in H as (-> & -> & Hburn & -> & -> & -> & ->).
  simpl. rewrite orb_false_r. repeat split; auto.
  by destruct (last daa).
Qed.

Lemma sanity_checks_Stop o t :
  checks = (Stop o, t) →
  (o = Raised AssertionError ∧ t = []) ∨
  (o = RetNone ∧ ∃ msg tgt,
     t = [LogError msg] ∧ tgt ∈ daa ∧ is_burn_destination env tgt.1 = true).
Proof.
  unfold sanity_checks. intros H.
  repeat (apply bind_Stop in H
            as [(_ & -> & ->)%assert_Stop|
                (? & ? & ? & [_ ->]%assert_Next & H & ->)]; [by left|]).
  simpl. by apply check_targets_Stop in H.
Qed.

Lemma sanity_checks_burn_refused tgt :
  asserts_hold env mixdepth daa cca = true →
  tgt ∈ daa →
  is_burn_destination env tgt.1 = true →
  burn_permitted env mixdepth answeryes tgt.2 = false →
  ∃ msg, checks = (Stop RetNone, [LogError msg]).
Proof.
  unfold asserts_hold, sanity_checks. intros Ha Hin Hb Hp.
  repeat (apply andb_prop in Ha as [Ha ?]).
  rewrite Ha. simpl.
  destruct (check_targets_burn_refused daa
              {| is_sweep := false; outtypes := []; total_outputs_val := 0;
                 target := None |} tgt) as [msg Hr]; auto.
  exists msg.
  repeat match goal with H : ?b = true |- context [assert_ ?b] => rewrite H end.
  simpl. by rewrite Hr.
Qed.

Lemma sanity_checks_trace : Forall (λ e, is_log_error e = true) checks.2.
Proof.
  destruct checks as [[vars|o] t] eqn:H; simpl.
  - apply sanity_checks_Next in H as [-> _]. constructor.
  - apply sanity_checks_Stop in H as [[_ ->]|[_ (msg & ? & -> & _)]];
      by repeat constructor.
Qed.

Lemma sanity_checks_pass :
  request_accepted env mixdepth daa answeryes cca = true →
  ∃ vars, checks = (Next vars, []).
Proof.
  unfold request_accepted, asserts_hold, sanity_checks. intros Ha.
  apply andb_prop in Ha as [Ha Hburn].
  repeat (apply andb_prop in Ha as [Ha ?]).
  rewrite Ha.
  repeat match goal with H : ?b = true |- context [assert_ ?b] => rewrite H end.
  simpl.
  destruct (check_targets_pass daa
              {| is_sweep := false; outtypes := []; total_outputs_val := 0;
                 target := None |}) as [vars Hr]; auto.
  - intros tgt Hin Hb. rewrite forallb_forall in Hburn.
    apply list_elem_of_In, Hburn in Hin. by rewrite Hb in Hin.
  - exists vars. by rewrite Hr.
Qed.
End sanity.

(** ** The planning branches *)

Section planning.
Variable env : Env.
Variable mixdepth : Z.
Variable daa : list (string * Z).
Variable cca : option string.

Lemma plan_sweep_Next vars txtype l t :
  plan_sweep env mixdepth daa vars txtype = (Next l, t) →
  ∃ tgt u outtype0,
    head daa = Some tgt
    ∧ get_utxos_by_mixdepth env !! mixdepth = Some u
    ∧ u ≠ ∅
    ∧ head (outtypes vars) = Some outtype0
    ∧ t = [GetUtxosByMixdepth]
    ∧ l = {| destination := tgt.1;
             amount := tgt.2;
             utxos := u;
             fee_est := estimate_tx_fee env (Z.of_nat (size u)) 1
                          (TxTypes (get_utxo_scripts env u)) (OutType outtype0);
             total_inputs_val := sum (input_values u);
             outs := [{| out_value :=
                           sum (input_values u) -
                           estimate_tx_fee env (Z.of_nat (size u)) 1
                             (TxTypes (get_utxo_scripts env u))
                             (OutType outtype0);
                         out_address := tgt.1 |}];
             changeval := None;
             change_addr := None |}.
Proof.
  unfold plan_sweep. destruct daa as [|tgt rest]; [discriminate|].
  destruct (get_utxos_by_mixdepth env !! mixdepth) as [u|]; [|discriminate].
  cbn [bind ret emit app].
  destruct (decide (u = ∅)); [discriminate|].
  destruct (outtypes vars) as [|o os]; [discriminate|].
  cbn [bind ret emit app]. intros [= <- <-]. by exists tgt, u, o.
Qed.

Lemma plan_payment_Next vars txtype l t :
  plan_payment env mixdepth daa cca vars txtype = (Next l, t) →
  ∃ tgt fee_outtypes cv ca,
    let n_outs := Z.of_nat (length daa) + 1 in
    let initial_fee_est :=
      estimate_tx_fee env 8 n_outs (TxType txtype) (OutTypes fee_outtypes) in
    target vars = Some tgt
    ∧ destination l = tgt.1
    ∧ amount l = tgt.2
    ∧ utxos l = select_utxos env mixdepth (tgt.2 + initial_fee_est)
    ∧ fee_est l =
        (if Z.of_nat (size (utxos l)) <? 8 then
           estimate_tx_fee env (Z.of_nat (size (utxos l))) n_outs
             (TxTypes (get_utxo_scripts env (utxos l))) (OutTypes fee_outtypes)
         else initial_fee_est)
    ∧ total_inputs_val l = sum (input_values (utxos l))
    ∧ cv = total_inputs_val l - fee_est l - total_outputs_val vars
    ∧ changeval l = Some cv
    ∧ change_addr l = Some ca
    ∧ ca = from_option id (get_internal_addr env mixdepth) cca
    ∧ outs l = requested_outs daa ++ [{| out_value := cv; out_address := ca |}]
    ∧ SelectUtxos mixdepth (tgt.2 + initial_fee_est) ∈ t
    ∧ Forall (λ e, is_input_selection e = true →
                   e = SelectUtxos mixdepth (tgt.2 + initial_fee_est)) t.
Proof.
  unfold plan_payment. destruct (target vars) as [tgt|]; [|discriminate].
  destruct (outtypes vars) as [|o os]; [discriminate|].
  cbn [bind ret emit app]. intros H.
  destruct cca as [a|]; cbn [bind ret emit app] in H; injection H as <- <-;
    eexists tgt, _, _, _;
    cbn [destination amount utxos fee_est total_inputs_val outs changeval
         change_addr from_option id];
    (repeat split; try reflexivity;
     [apply elem_of_cons; by left|by repeat constructor]).
Qed.

Lemma plan_sweep_trace vars txtype :
  Forall (λ e, is_plan_event e = true) (plan_sweep env mixdepth daa vars txtype).2.
Proof. unfold plan_sweep. trace_solve. Qed.

Lemma plan_payment_trace vars txtype :
  Forall (λ e, is_plan_event e = true)
         (plan_payment env mixdepth daa cca vars txtype).2.
Proof. unfold plan_payment. trace_solve. Qed.

Lemma plan_request_trace answeryes :
  Forall (λ e, is_plan_event e = true)
         (plan_request env mixdepth daa answeryes cca).2.
Proof.
  unfold plan_request. apply bind_trace.
  - eapply Forall_impl; [apply sanity_checks_trace|].
    by intros [] ?.
  - intros vars. unfold plan.
    destruct (is_sweep vars); [apply plan_sweep_trace|apply plan_payment_trace].
Qed.

(** A plan comes from passed sanity checks, which emit nothing. *)
Lemma plan_request_Next answeryes l t :
  plan_request env mixdepth daa answeryes cca = (Next l, t) →
  ∃ vars t1,
    sanity_checks env mixdepth daa answeryes cca = (Next vars, [])
    ∧ plan env mixdepth daa cca vars = (Next l, t1)
    ∧ t = t1.
Proof.
  unfold plan_request. intros H.
  apply bind_Next in H as (vars & t0 & t1 & Hs & Hp & ->).
  destruct (sanity_checks_Next _ _ _ _ _ _ _ Hs) as [-> _].
  by exists vars, t1.
Qed.
End planning.

(** ** The locktime *)

Section locktime.
Variable env : Env.

Local Abbreviation timelocked item :=
  (is_timelocked_path env (script_to_path env (script item.2))).

Lemma raise_locktime_cases acc item :
  (timelocked item = false ∧ raise_locktime env acc item = (Next acc, []))
  ∨ (timelocked item = true ∧ unlock_time env item = None ∧
     raise_locktime env acc item = (Stop (Raised IndexError), []))
  ∨ (∃ u, timelocked item = true ∧ unlock_time env item = Some u ∧
          raise_locktime env acc item = (Next (Z.max acc (u + 1)), [])).
Proof.
  unfold raise_locktime, unlock_time.
  destruct (timelocked item); simpl; [|by left].
  destruct (last _) as [u|]; simpl; [|by right; left].
  right; right. by exists u.
Qed.

(** The loop keeps the maximum of the base value and every
    [path_locktime + 1]. *)
Lemma raise_locktimes_Next items acc lt t :
  for_each (raise_locktime env) items acc = (Next lt, t) →
  t = [] ∧
  ((Forall (λ item, timelocked item = false) items ∧ lt = acc)
   ∨ (∃ item m,
        item ∈ items ∧ timelocked item = true ∧ unlock_time env item = Some m
        ∧ (∀ item' u, item' ∈ items → timelocked item' = true →
             unlock_time env item' = Some u → u ≤ m)
        ∧ lt = Z.max acc (m + 1))).
Proof.
  revert acc t. induction items as [|x items IH]; intros acc t; simpl.
  - intros [= <- <-]. split; [done|]. left. by split.
  - intros H. apply bind_Next in H as (acc' & t1 & t2 & Hx & Hrest & ->).
    apply IH in Hrest as [-> Hrest].
    destruct (raise_locktime_cases acc x)
      as [[Hf Hr]|[(_ & _ & Hr)|(u & Ht & Hu & Hr)]];
      rewrite Hx in Hr; try discriminate; injection Hr as -> ->.
    + split; [done|].
      destruct Hrest as [[Hall ->]|(item & m & Hin & Hti & Hm & Hmax & ->)].
      * left. split; [by constructor|done].
      * right. exists item, m. repeat split; auto.
        -- by apply elem_of_cons; right.
        -- intros item' u' [->|Hin']%elem_of_cons Ht' Hu'; [congruence|eauto].
    + split; [done|]. right.
      destruct Hrest as [[Hall ->]|(item & m & Hin & Hti & Hm & Hmax & ->)].
      * exists x, u. repeat split; auto.
        -- by apply elem_of_cons; left.
        -- intros item' u' [->|Hin']%elem_of_cons Ht' Hu'; [by simplify_eq|].
           rewrite Forall_forall in Hall. apply Hall in Hin'. congruence.
      * destruct (Z.le_gt_cases u m) as [Hle|Hgt].
        -- exists item, m. repeat split; auto; [by apply elem_of_cons; right| |lia].
           intros item' u' [->|Hin']%elem_of_cons Ht' Hu'; [by simplify_eq|eauto].
        -- exists x, u. repeat split; auto; [by apply elem_of_cons; left| |lia].
           intros item' u' [->|Hin']%elem_of_cons Ht' Hu'; [by simplify_eq|].
           specialize (Hmax _ _ Hin' Ht' Hu'). lia.
Qed.

Lemma raise_locktimes_total items acc :
  Forall (λ item, timelocked item = true → is_Some (unlock_time env item)) items →
  ∃ lt, for_each (raise_locktime env) items acc = (Next lt, []).
Proof.
  revert acc. induction items as [|x items IH]; intros acc Hall; simpl.
  - by exists acc.
  - apply Forall_cons in Hall as [Hx Hall].
    destruct (raise_locktime_cases acc x)
      as [[_ Hr]|[(Ht & Hu & _)|(u & _ & _ & Hr)]].
    + destruct (IH acc Hall) as [lt Hlt]. exists lt.
      by rewrite (bind_of_Next _ _ _ _ Hr), Hlt.
    + apply Hx in Ht as [? ?]. congruence.
    + destruct (IH (Z.max acc (u + 1)) Hall) as [lt Hlt]. exists lt.
      by rewrite (bind_of_Next _ _ _ _ Hr), Hlt.
Qed.

Lemma locktime_silent mixdepth utxos : (locktime env mixdepth utxos).2 = [].
Proof.
  assert (Forall (λ _, False) (locktime env mixdepth utxos).2) as H.
  { unfold locktime, raise_locktime. trace_solve. }
  by destruct H.
Qed.

Lemma timelocked_paths_ok_Forall utxos :
  timelocked_paths_ok env utxos = true →
  Forall (λ item, timelocked item = true → is_Some (unlock_time env item))
         (map_to_list utxos).
Proof.
  unfold timelocked_paths_ok, timelocked_inputs. intros H.
  rewrite forallb_forall in H. apply Forall_forall. intros item Hin Ht.
  assert (In item (filter (λ item, timelocked item = true) (map_to_list utxos)))
    as Hf by (apply list_elem_of_In, list_elem_of_filter; auto).
  apply H in Hf. by apply bool_decide_eq_true in Hf.
Qed.

Lemma locktime_total mixdepth utxos :
  timelocked_paths_ok env utxos = true →
  ∃ lt, locktime env mixdepth utxos = (Next lt, []).
Proof.
  intros H. unfold locktime.
  destruct (_ && _); [|by eexists].
  by apply raise_locktimes_total, timelocked_paths_ok_Forall.
Qed.

(** The rule of lines 147-155 on the value the locktime stage yields. *)
Lemma locktime_Next mixdepth utxos lt t :
  locktime env mixdepth utxos = (Next lt, t) →
  (timelocked_inputs env utxos = [] → lt = compute_tx_locktime env)
  ∧ (mixdepth = FIDELITY_BOND_MIXDEPTH env →
     wallet_is_FidelityBondMixin env = true →
     timelocked_inputs env utxos ≠ [] →
     (∃ item m,
        item ∈ timelocked_inputs env utxos ∧ unlock_time env item = Some m
        ∧ (∀ item' u, item' ∈ timelocked_inputs env utxos →
             unlock_time env item' = Some u → u ≤ m)
        ∧ lt = Z.max (compute_tx_locktime env) (m + 1))
     ∧ (∀ item u, item ∈ timelocked_inputs env utxos →
          unlock_time env item = Some u → u < lt)).
Proof.
  unfold locktime, timelocked_inputs. intros H.
  destruct ((mixdepth =? FIDELITY_BOND_MIXDEPTH env)
            && wallet_is_FidelityBondMixin env) eqn:Hfb.
  - apply raise_locktimes_Next in H
      as [-> [[Hall ->]|(item & m & Hin & Hti & Hm & Hmax & ->)]].
    + split; [done|]. intros _ _ Hne. exfalso. apply Hne.
      destruct (filter _ _) as [|x l'] eqn:E; [done|].
      assert (x ∈ filter (λ item, timelocked item = true) (map_to_list utxos))
        as Hf by (rewrite E; by left).
      apply list_elem_of_filter in Hf as [Ht Hin].
      rewrite Forall_forall in Hall. apply Hall in Hin. congruence.
    + split.
      * intros Hnil.
        assert (item ∈ filter (λ item, timelocked item = true) (map_to_list utxos))
          as Hf by (apply list_elem_of_filter; auto).
        rewrite Hnil in Hf. by apply elem_of_nil in Hf.
      * intros _ _ _. split.
        -- exists item, m. repeat split; auto.
           ++ apply list_elem_of_filter; auto.
           ++ intros item' u [Ht' Hin']%list_elem_of_filter Hu. eauto.
        -- intros item' u [Ht' Hin']%list_elem_of_filter Hu.
           specialize (Hmax _ _ Hin' Ht' Hu). lia.
  - injection H as <- <-. split; [done|].
    intros -> Hw. rewrite Z.eqb_refl, Hw in Hfb. discriminate.
Qed.
End locktime.

(** ** Construction, signing and broadcast *)

Lemma bind_trace_prefix {A B} (m : M A) (f : A → M B) :
  ∃ rest, (bind m f).2 = m.2 ++ rest.
Proof.
  unfold bind. destruct m as [[a|o] t]; simpl.
  - destruct (f a) as [r t']. by exists t'.
  - exists []. by rewrite app_nil_r.
Qed.

Lemma silent_nil (t : list event) : Forall (λ _, False) t → t = [].
Proof. by destruct 1. Qed.

Section finalizer.
Variable env : Env.
Variable answeryes : bool.
Variable accept_callback : option accept_fn.
Variables info_callback error_callback : option (string → unit).
Variables return_transaction with_final_psbt optin_rbf : bool.
Variables cca change_label : option string.

(** The construction logs the fee (and the change), then calls
    [make_shuffled_tx] once, on the planned inputs and outputs. *)
Lemma assemble_trace l lt :
  ∃ pre,
    (assemble env optin_rbf l lt).2 =
      pre ++ [MakeShuffledTx (keys (utxos l)) (outs l) 2 lt]
    ∧ Forall (λ e, ∃ msg, e = LogInfo msg) pre.
Proof.
  unfold assemble.
  set (tx1 := if optin_rbf then _ else _).
  assert ((for_each (collect_input (utxos l))
             (zip (seq 0 (length (vin tx1))) (vin tx1)) (∅, [])).2 = []) as Hloop.
  { apply silent_nil. unfold collect_input. trace_solve. }
  destruct (for_each _ _ _) as [[acc|o] t] eqn:Hfe; simpl in Hloop; subst t;
    destruct (changeval l) as [cv|]; cbn [bind emit ret app];
    rewrite ?Hfe; cbn [bind emit ret app];
    first [ eexists [_; _]; split; [reflexivity|]
          | eexists [_]; split; [reflexivity|] ];
    repeat constructor; by eexists.
Qed.

Lemma finalize_psbt_no_push t spent_outs :
  Forall (λ e, is_push e = false) (finalize_psbt env t spent_outs).2.
Proof. unfold finalize_psbt. trace_solve. Qed.

(** Nothing after the construction builds another transaction or selects
    inputs. *)
Lemma finalize_trace l a :
  Forall (λ e, is_make_tx e = false ∧ is_input_selection e = false)
    (finalize env answeryes accept_callback info_callback error_callback
       return_transaction with_final_psbt cca change_label l a).2.
Proof.
  unfold finalize, finalize_psbt, finalize_tx, confirm, label_change, broadcast.
  trace_solve.
Qed.

End finalizer.

(** ** The whole function *)

Section whole.
Variable env : Env.
Variable mixdepth : Z.
Variable daa : list (string * Z).
Variable answeryes : bool.
Variable accept_callback : option accept_fn.
Variables info_callback error_callback : option (string → unit).
Variables return_transaction with_final_psbt optin_rbf : bool.
Variables cca change_label : option string.

Local Abbreviation run :=
  (direct_send env mixdepth daa answeryes accept_callback info_callback
     error_callback return_transaction with_final_psbt optin_rbf cca change_label).

Local Abbreviation after_plan l :=
  (bind (locktime env mixdepth (utxos l)) (λ tx_locktime,
   bind (assemble env optin_rbf l tx_locktime) (λ a,
     finalize env answeryes accept_callback info_callback error_callback
       return_transaction with_final_psbt cca change_label l a))).

Lemma direct_send_eq :
  run = finish (bind (plan_request env mixdepth daa answeryes cca)
                     (λ l, after_plan l)).
Proof.
  unfold direct_send, direct_send_body, plan_request. by rewrite bind_assoc.
Qed.

(** A call that stops in the checks or the planning. *)
Lemma direct_send_rejected o t :
  plan_request env mixdepth daa answeryes cca = (Stop o, t) → run = (o, t).
Proof. intros H. by rewrite direct_send_eq, (bind_of_Stop _ _ _ _ H). Qed.

Lemma direct_send_planned l t :
  plan_request env mixdepth daa answeryes cca = (Next l, t) →
  run.2 = t ++ (after_plan l).2.
Proof.
  intros H. by rewrite direct_send_eq, finish_trace, (bind_of_Next _ _ _ _ H).
Qed.

(** Once the plan and the locktime are there, the transaction is built
    from them. *)
Lemma direct_send_makes_tx l t lt t' :
  plan_request env mixdepth daa answeryes cca = (Next l, t) →
  locktime env mixdepth (utxos l) = (Next lt, t') →
  MakeShuffledTx (keys (utxos l)) (outs l) 2 lt ∈ run.2.
Proof.
  intros Hp Hl. rewrite (direct_send_planned _ _ Hp).
  rewrite (bind_of_Next _ _ _ _ Hl). cbn [snd].
  destruct (bind_trace_prefix (assemble env optin_rbf l lt)
              (λ a, finalize env answeryes accept_callback info_callback
                      error_callback return_transaction with_final_psbt cca
                      change_label l a)) as [rest ->].
  destruct (assemble_trace env optin_rbf l lt) as (pre & -> & _).
  rewrite !elem_of_app. right; right; left; right. by apply list_elem_of_singleton.
Qed.

(** Conversely, a built transaction comes from a plan and its locktime. *)
Lemma direct_send_make_tx_inv ins os version lt :
  MakeShuffledTx ins os version lt ∈ run.2 →
  ∃ l t,
    plan_request env mixdepth daa answeryes cca = (Next l, t)
    ∧ locktime env mixdepth (utxos l) = (Next lt, [])
    ∧ ins = keys (utxos l) ∧ os = outs l ∧ version = 2.
Proof.
  intros Hin.
  destruct (plan_request env mixdepth daa answeryes cca) as [[l|o] t] eqn:Hp.
  - exists l, t. split; [done|].
    rewrite (direct_send_planned _ _ Hp) in Hin.
    apply elem_of_app in Hin as [Hin|Hin].
    { pose proof (plan_request_trace env mixdepth daa cca answeryes) as Hall.
      rewrite Hp in Hall. rewrite Forall_forall in Hall. by apply Hall in Hin. }
    pose proof (locktime_silent env mixdepth (utxos l)) as Hsil.
    destruct (locktime env mixdepth (utxos l)) as [[lt'|o] t'] eqn:Hl;
      simpl in Hsil; subst t'.
    2:{ rewrite (bind_of_Stop _ _ _ _ eq_refl) in Hin. by apply elem_of_nil in Hin. }
    rewrite (bind_of_Next _ _ _ _ eq_refl) in Hin. cbn [snd app] in Hin.
    destruct (assemble_trace env optin_rbf l lt') as (pre & Hpre & Hlog).
    destruct (assemble env optin_rbf l lt') as [[a|o] ta] eqn:Ha;
      cbn [snd] in Hpre; subst ta.
    + rewrite (bind_of_Next _ _ _ _ eq_refl) in Hin. cbn [snd] in Hin.
      rewrite !elem_of_app in Hin. destruct Hin as [[Hin|Hin]|Hin].
      * rewrite Forall_forall in Hlog. apply Hlog in Hin as [? ?]. done.
      * apply list_elem_of_singleton in Hin. by simplify_eq.
      * pose proof (finalize_trace env answeryes accept_callback info_callback
                      error_callback return_transaction with_final_psbt cca
                      change_label l a) as Hall.
        rewrite Forall_forall in Hall. by apply Hall in Hin as [? ?].
    + rewrite (bind_of_Stop _ _ _ _ eq_refl) in Hin. cbn [snd] in Hin.
      rewrite !elem_of_app in Hin. destruct Hin as [Hin|Hin].
      * rewrite Forall_forall in Hlog. apply Hlog in Hin as [? ?]. done.
      * apply list_elem_of_singleton in Hin. by simplify_eq.
  - rewrite (direct_send_rejected _ _ Hp) in Hin.
    pose proof (plan_request_trace env mixdepth daa cca answeryes) as Hall.
    rewrite Hp in Hall. rewrite Forall_forall in Hall. by apply Hall in Hin.
Qed.

End whole.

(** ** The output plan *)

(** Evaluates a concrete trace and finds the event in it. *)
Ltac in_trace :=
  vm_compute;
  repeat first [apply list_elem_of_here | apply list_elem_of_further].

(** C1: in payment mode (no target has amount 0), whenever the call reaches
    the construction of the transaction, the outputs handed to
    [make_shuffled_tx] are the requested outputs followed by one change
    output, the inputs are the utxos that [select_utxos] returned, and the
    sum of all output values plus the fee [fee_est] equals the sum of the
    values of those inputs. *)
Theorem payment_outputs_plus_fee_equal_inputs
    env mixdepth daa answeryes accept_callback info_callback error_callback
    return_transaction with_final_psbt optin_rbf cca change_label
    ins os version lt :
  Forall (λ tgt : string * Z, tgt.2 ≠ 0) daa →
  MakeShuffledTx ins os version lt ∈
    (direct_send env mixdepth daa answeryes accept_callback info_callback
       error_callback return_transaction with_final_psbt optin_rbf cca
       change_label).2 →
  ∃ l t change minimum,
    plan_request env mixdepth daa answeryes cca = (Next l, t)
    ∧ utxos l = select_utxos env mixdepth minimum
    ∧ ins = keys (utxos l)
    ∧ os = requested_outs daa ++ [change]
    ∧ sum (out_value <$> os) + fee_est l = sum (input_values (utxos l)).
Proof.
  intros Hpay Hin.
  apply direct_send_make_tx_inv in Hin as (l & t & Hp & _ & -> & -> & _).
  destruct (plan_request_Next _ _ _ _ _ _ _ Hp) as (vars & t1 & Hs & Hpl & _).
  apply sanity_checks_Next in Hs as (_ & _ & _ & Hsw & _ & Htot & _).
  assert (is_sweep vars = false) as Hns.
  { rewrite Hsw. apply not_true_is_false. intros Hex.
    apply existsb_exists in Hex as (tgt & Hin & Hz).
    rewrite Forall_forall in Hpay. apply list_elem_of_In, Hpay in Hin.
    apply Z.eqb_eq in Hz. done. }
  unfold plan in Hpl. rewrite Hns in Hpl.
  apply plan_payment_Next in Hpl
    as (tgt & fo & cv & ca & _ & _ & _ & Hsel & _ & Hti & Hcv & _ & _ & _ & Houts & _).
  exists l, t, {| out_value := cv; out_address := ca |}. eexists.
  split; [done|]. split; [exact Hsel|]. repeat split; auto.
  rewrite Houts, fmap_app, sum_app, sum_requested_outs. simpl.
  rewrite sum_cons, sum_nil, Hcv, Htot, Hti. lia.
Qed.

Lemma payment_outputs_plus_fee_equal_inputs_witness :
  ∃ l t change minimum,
    plan_request (demo_wallet false one_coin true true true) 0
      [("bc1qalice", 50000)] false None = (Next l, t)
    ∧ utxos l = select_utxos (demo_wallet false one_coin true true true) 0 minimum
    ∧ [("ab", 0)] = keys (utxos l)
    ∧ [{| out_value := 50000; out_address := "bc1qalice" |};
       {| out_value := 49800; out_address := "bc1qchange" |}] =
      requested_outs [("bc1qalice", 50000)] ++ [change]
    ∧ sum (out_value <$>
             [{| out_value := 50000; out_address := "bc1qalice" |};
              {| out_value := 49800; out_address := "bc1qchange" |}]) + fee_est l =
      sum (input_values (utxos l)).
Proof.
  apply (payment_outputs_plus_fee_equal_inputs
           (demo_wallet false one_coin true true true) 0 [("bc1qalice", 50000)]
           false None None None false false true None None
           [("ab", 0)] _ 2 800000).
  - repeat constructor. simpl. lia.
  - in_trace.
Defined.

Section sweep.
Variable env : Env.
Variable mixdepth : Z.
Variable dest : string.
Variable answeryes : bool.
Variable cca : option string.
Variable u : gmap outpoint utxo.

(** The plan of an accepted sweep over the non-empty utxo set [u]. *)
Lemma plan_request_sweep :
  request_accepted env mixdepth [(dest, 0)] answeryes cca = true →
  get_utxos_by_mixdepth env !! mixdepth = Some u →
  u ≠ ∅ →
  let fee := estimate_tx_fee env (Z.of_nat (size u)) 1
               (TxTypes (get_utxo_scripts env u)) (OutType (get_outtype env dest)) in
  plan_request env mixdepth [(dest, 0)] answeryes cca =
    (Next {| destination := dest;
             amount := 0;
             utxos := u;
             fee_est := fee;
             total_inputs_val := sum (input_values u);
             outs := [{| out_value := sum (input_values u) - fee;
                         out_address := dest |}];
             changeval := None;
             change_addr := None |},
     [GetUtxosByMixdepth]).
Proof.
  intros Hacc Hu Hne fee. unfold plan_request.
  destruct (sanity_checks_pass _ _ _ _ _ Hacc) as [vars Hs].
  rewrite (bind_of_Next _ _ _ _ Hs).
  apply sanity_checks_Next in Hs as (_ & _ & _ & Hsw & Hot & _ & _).
  simpl in Hsw, Hot. unfold plan, plan_sweep. rewrite Hsw, Hu, Hot.
  cbn [bind ret emit app fst snd].
  destruct (decide (u = ∅)); [done|]. reflexivity.
Qed.
End sweep.

(** C2: an accepted sweep request [[(dest, 0)]] over a non-empty utxo set
    makes the call build a transaction with exactly one output, to [dest],
    whose value is the sum of all the utxo values minus the fee; the fee is
    the estimate for the true number of utxos, [size u], and their script
    types, with one output of the destination's type. *)
Theorem sweep_single_output
    env mixdepth dest answeryes accept_callback info_callback error_callback
    return_transaction with_final_psbt optin_rbf cca change_label u :
  request_accepted env mixdepth [(dest, 0)] answeryes cca = true →
  get_utxos_by_mixdepth env !! mixdepth = Some u →
  u ≠ ∅ →
  timelocked_paths_ok env u = true →
  let fee := estimate_tx_fee env (Z.of_nat (size u)) 1
               (TxTypes (get_utxo_scripts env u)) (OutType (get_outtype env dest)) in
  let sole := {| out_value := sum (input_values u) - fee; out_address := dest |} in
  let trace :=
    (direct_send env mixdepth [(dest, 0)] answeryes accept_callback info_callback
       error_callback return_transaction with_final_psbt optin_rbf cca
       change_label).2 in
  (∃ lt, MakeShuffledTx (keys u) [sole] 2 lt ∈ trace)
  ∧ (∀ ins os version lt, MakeShuffledTx ins os version lt ∈ trace →
       ins = keys u ∧ os = [sole]).
Proof.
  intros Hacc Hu Hne Hpaths fee sole trace.
  pose proof (plan_request_sweep _ _ _ _ _ _ Hacc Hu Hne) as Hp.
  cbv zeta in Hp. fold fee in Hp. split.
  - destruct (locktime_total env mixdepth u Hpaths) as [lt Hl].
    exists lt. subst trace.
    by apply (direct_send_makes_tx _ _ _ _ _ _ _ _ _ _ _ _ _ _ _ _ Hp Hl).
  - intros ins os version lt Hin. subst trace.
    apply direct_send_make_tx_inv in Hin as (l & t & Hp' & _ & -> & -> & _).
    rewrite Hp in Hp'. by injection Hp' as <- _.
Qed.

Lemma one_coin_non_empty : one_coin ≠ ∅.
Proof. intros H. vm_compute in H. discriminate H. Defined.

Lemma sweep_single_output_witness :
  let env := demo_wallet false one_coin true true true in
  let trace := (send env [("bc1qalice", 0)] true None).2 in
  (∃ lt, MakeShuffledTx [("ab", 0)]
           [{| out_value := 100000 - (100 * 1 + 50 * 1);
               out_address := "bc1qalice" |}] 2 lt ∈ trace)
  ∧ (∀ ins os version lt, MakeShuffledTx ins os version lt ∈ trace →
       ins = [("ab", 0)] ∧
       os = [{| out_value := 100000 - (100 * 1 + 50 * 1);
                out_address := "bc1qalice" |}]).
Proof.
  apply (sweep_single_output (demo_wallet false one_coin true true true) 0
           "bc1qalice" true None None None false false true None None one_coin).
  - vm_compute. reflexivity.
  - vm_compute. reflexivity.
  - apply one_coin_non_empty.
  - vm_compute. reflexivity.
Defined.

(** Evaluates a concrete trace and shows that the event is not in it. *)
Ltac not_in_trace :=
  match goal with
  | |- ?e ∉ ?t =>
      let t' := eval vm_compute in t in
      change (e ∉ t');
      repeat (apply not_elem_of_cons; split; [discriminate|]);
      apply not_elem_of_nil
  end.

(** In payment mode the selector is asked for the amount of the last target
    plus the conservative fee estimate (8 inputs): the variable [amount] of
    line 129 is the loop variable left by the last iteration. *)
Lemma payment_selects_for_last_amount env mixdepth daa answeryes cca l t :
  Forall (λ tgt : string * Z, tgt.2 ≠ 0) daa →
  plan_request env mixdepth daa answeryes cca = (Next l, t) →
  ∃ tgt fee_outtypes,
    last daa = Some tgt
    ∧ SelectUtxos mixdepth
        (tgt.2 + estimate_tx_fee env 8 (Z.of_nat (length daa) + 1)
                   (TxType (get_txtype env)) (OutTypes fee_outtypes)) ∈ t.
Proof.
  intros Hpay Hp.
  apply plan_request_Next in Hp as (vars & t1 & Hs & Hpl & ->).
  apply sanity_checks_Next in Hs as (_ & _ & _ & Hsw & _ & _ & Htgt).
  assert (is_sweep vars = false) as Hns.
  { rewrite Hsw. apply not_true_is_false. intros Hex.
    apply existsb_exists in Hex as (tgt & Hin & Hz).
    rewrite Forall_forall in Hpay. apply list_elem_of_In, Hpay in Hin.
    apply Z.eqb_eq in Hz. done. }
  unfold plan in Hpl. rewrite Hns in Hpl.
  apply plan_payment_Next in Hpl
    as (tgt & fo & cv & ca & Ht & _ & _ & _ & _ & _ & _ & _ & _ & _ & _ & Hsel & _).
  exists tgt, fo. split; [congruence|done].
Qed.

(** C3: with the two targets 1000 and 2000 the total requested amount is
    3000 and the conservative fee estimate is 950, yet the selector is
    called for 2000 + 950: only the amount of the last target enters the
    selection target. *)
Theorem selector_target_uses_last_amount_only :
  let r := send (demo_wallet false one_coin true true true)
             [("bc1qalice", 1000); ("bc1qbob", 2000)] true None in
  let conservative_fee := 100 * 8 + 50 * 3 in
  r.2 !! 0%nat = Some (SelectUtxos 0 (2000 + conservative_fee))
  ∧ SelectUtxos 0 (1000 + 2000 + conservative_fee) ∉ r.2.
Proof.
  cbv zeta. split.
  - vm_compute. reflexivity.
  - not_in_trace.
Qed.

(** C4, as stated, fails: sweeping a single utxo of value 100 with a fee
    estimate of 150 gives the residual -50; the call builds the transaction
    with the output value -50, pushes it and returns its txid. *)
Lemma negative_sweep_output_is_built_and_pushed :
  let r := send (demo_wallet false dust_coin true true true)
             [("bc1qalice", 0)] true None in
  sum (input_values dust_coin) - (100 * 1 + 50 * 1) = -50
  ∧ MakeShuffledTx [("ab", 1)]
      [{| out_value := -50; out_address := "bc1qalice" |}] 2 800000 ∈ r.2
  ∧ PushTx "raw" ∈ r.2
  ∧ r.1 = RetTxid "cd".
Proof.
  cbv zeta. repeat split.
  - in_trace.
  - in_trace.
Qed.

(** A sweep request that passed the sanity checks has the single target of
    amount 0. *)
Lemma sweep_request_total env mixdepth daa cca :
  asserts_hold env mixdepth daa cca = true →
  existsb (λ tgt : string * Z, tgt.2 =? 0) daa = true →
  sum daa.*2 = 0.
Proof.
  unfold asserts_hold. intros Ha Hex.
  apply andb_prop in Ha as [_ Hall].
  apply existsb_exists in Hex as (tgt & Hin & Hz).
  rewrite forallb_forall in Hall. pose proof (Hall _ Hin) as Ht.
  unfold target_asserts in Ht. rewrite Hz in Ht.
  apply andb_prop in Ht as [Ht _]. apply andb_prop in Ht as [_ Ht].
  apply andb_prop in Ht as [_ Hlen]. apply Nat.eqb_eq in Hlen.
  destruct daa as [|x [|y rest]]; try discriminate.
  destruct Hin as [->|[]]. simpl. rewrite sum_cons, sum_nil.
  apply Z.eqb_eq in Hz. lia.
Qed.

(** C4, amended: [direct_send] has no check of the residual
    [sum(inputs) - fee - sum(requested amounts)].  When it is negative the
    plan is still made, its last output (the change output of a payment, the
    sole output of a sweep) carries the negative value, and the plan is
    handed to [make_shuffled_tx]. *)
Theorem negative_residual_reaches_builder
    env mixdepth daa answeryes accept_callback info_callback error_callback
    return_transaction with_final_psbt optin_rbf cca change_label l t lt t' :
  plan_request env mixdepth daa answeryes cca = (Next l, t) →
  locktime env mixdepth (utxos l) = (Next lt, t') →
  let residual := sum (input_values (utxos l)) - fee_est l - sum daa.*2 in
  residual < 0 →
  (∃ o, last (outs l) = Some o ∧ out_value o = residual ∧ out_value o < 0)
  ∧ MakeShuffledTx (keys (utxos l)) (outs l) 2 lt ∈
      (direct_send env mixdepth daa answeryes accept_callback info_callback
         error_callback return_transaction with_final_psbt optin_rbf cca
         change_label).2.
Proof.
  intros Hp Hl residual Hneg. split.
  - apply plan_request_Next in Hp as (vars & t1 & Hs & Hpl & ->).
    apply sanity_checks_Next in Hs as (_ & Ha & _ & Hsw & _ & Htot & _).
    unfold plan in Hpl. destruct (is_sweep vars) eqn:Hv.
    + apply plan_sweep_Next in Hpl as (tgt & u & o0 & _ & _ & _ & _ & _ & ->).
      eexists. split; [reflexivity|]. simpl in *.
      assert (sum daa.*2 = 0) as Hz by (by eapply sweep_request_total).
      subst residual. simpl in Hneg. split; lia.
    + apply plan_payment_Next in Hpl
        as (tgt & fo & cv & ca & _ & _ & _ & _ & _ & Hti & Hcv & _ & _ & _ & Houts & _).
      exists {| out_value := cv; out_address := ca |}.
      rewrite Houts, last_snoc. split; [done|]. simpl.
      subst residual. rewrite Hti, Htot in Hcv. split; lia.
  - by eapply direct_send_makes_tx.
Qed.

Lemma negative_residual_reaches_builder_witness :
  let env := demo_wallet false dust_coin true true true in
  let l := {| destination := "bc1qalice"; amount := 0; utxos := dust_coin;
              fee_est := 150; total_inputs_val := 100;
              outs := [{| out_value := -50; out_address := "bc1qalice" |}];
              changeval := None; change_addr := None |} in
  (∃ o, last (outs l) = Some o ∧ out_value o = -50 ∧ out_value o < 0)
  ∧ MakeShuffledTx (keys (utxos l)) (outs l) 2 800000 ∈
      (send env [("bc1qalice", 0)] true None).2.
Proof.
  apply (negative_residual_reaches_builder
           (demo_wallet false dust_coin true true true) 0 [("bc1qalice", 0)]
           true None None None false false true None None
           {| destination := "bc1qalice"; amount := 0; utxos := dust_coin;
              fee_est := 150; total_inputs_val := 100;
              outs := [{| out_value := -50; out_address := "bc1qalice" |}];
              changeval := None; change_addr := None |}
           [GetUtxosByMixdepth] 800000 []).
  - vm_compute. reflexivity.
  - vm_compute. reflexivity.
  - vm_compute. reflexivity.
Defined.

(** ** Rejections *)

(** C5: a request with a burn destination is refused when the wallet is not
    a fidelity bond wallet, or the mixdepth is not the fidelity bond
    mixdepth, or [answeryes] is set, or the amount of the burn target is not
    0.  The call then made no call at all besides logging errors, so no
    input was retrieved or selected, and it did not succeed; when the
    sanity assertions of the request hold, it returns [None] after logging
    the one error message of the violated burn check. *)
Theorem burn_refused_before_selection
    env mixdepth daa answeryes accept_callback info_callback error_callback
    return_transaction with_final_psbt optin_rbf cca change_label tgt :
  tgt ∈ daa →
  is_burn_destination env tgt.1 = true →
  (wallet_is_FidelityBondMixin env = false
   ∨ mixdepth ≠ FIDELITY_BOND_MIXDEPTH env
   ∨ answeryes = true
   ∨ tgt.2 ≠ 0) →
  let r := direct_send env mixdepth daa answeryes accept_callback info_callback
             error_callback return_transaction with_final_psbt optin_rbf cca
             change_label in
  Forall (λ e, is_log_error e = true ∧ is_input_selection e = false) r.2
  ∧ (r.1 = RetNone ∨ r.1 = Raised AssertionError)
  ∧ (asserts_hold env mixdepth daa cca = true →
     r.1 = RetNone ∧ ∃ msg, r.2 = [LogError msg]).
Proof.
  intros Hin Hb Hviol r.
  assert (burn_permitted env mixdepth answeryes tgt.2 = false) as Hp.
  { unfold burn_permitted.
    destruct Hviol as [->|[Hm|[->|Ha]]]; [done| | |].
    - apply Z.eqb_neq in Hm. rewrite Hm. by rewrite andb_false_r.
    - by rewrite andb_false_r.
    - apply Z.eqb_neq in Ha. rewrite Ha. by rewrite andb_false_r. }
  destruct (sanity_checks env mixdepth daa answeryes cca) as [[vars|o] t] eqn:Hs.
  { apply sanity_checks_Next in Hs as (_ & _ & Hburn & _).
    rewrite (Hburn _ Hin Hb) in Hp. discriminate. }
  assert (r = (o, t)) as Hr.
  { apply direct_send_rejected. unfold plan_request.
    by rewrite (bind_of_Stop _ _ _ _ Hs). }
  rewrite Hr. cbn [fst snd].
  pose proof (sanity_checks_Stop _ _ _ _ _ _ _ Hs) as Hcases.
  split; [|split].
  - destruct Hcases as [[_ ->]|[_ (msg & ? & -> & _)]]; by repeat constructor.
  - destruct Hcases as [[-> _]|[-> _]]; auto.
  - intros Hasserts.
    destruct (sanity_checks_burn_refused _ _ _ _ _ _ Hasserts Hin Hb Hp)
      as [msg Hm].
    rewrite Hs in Hm. injection Hm as -> ->. eauto.
Qed.

Lemma burn_refused_before_selection_witness :
  let r := send (demo_wallet true bond_coins true true true) [("BURN", 0)]
             true None in
  Forall (λ e, is_log_error e = true ∧ is_input_selection e = false) r.2
  ∧ (r.1 = RetNone ∨ r.1 = Raised AssertionError)
  ∧ (asserts_hold (demo_wallet true bond_coins true true true) 0
       [("BURN", 0)] None = true →
     r.1 = RetNone ∧ ∃ msg, r.2 = [LogError msg]).
Proof.
  apply (burn_refused_before_selection
           (demo_wallet true bond_coins true true true) 0 [("BURN", 0)] true
           None None None false false true None None ("BURN", 0)).
  - apply list_elem_of_here.
  - vm_compute. reflexivity.
  - right. right. left. reflexivity.
Defined.

(** C8, as stated, fails: a request with an amount 0 among two targets is
    not answered by a returned value; the assertion of lines 58-59 fails and
    the exception reaches the caller. *)
Lemma zero_amount_among_several_raises :
  send (demo_wallet false one_coin true true true)
    [("bc1qalice", 0); ("bc1qbob", 5)] true None
  = (Raised AssertionError, []).
Proof. vm_compute. reflexivity. Qed.

(** C8, amended: a request that has a target of amount 0 and more than one
    target is rejected in the sanity checks, before any input is retrieved
    or selected: the call raises [AssertionError], having made no call at
    all; or, if a burn destination of the request was refused first, it
    returns [None] after logging that refusal.  Without burn destinations it
    always raises. *)
Theorem zero_amount_among_several_rejected
    env mixdepth daa answeryes accept_callback info_callback error_callback
    return_transaction with_final_psbt optin_rbf cca change_label tgt :
  tgt ∈ daa →
  tgt.2 = 0 →
  (1 < length daa)%nat →
  let r := direct_send env mixdepth daa answeryes accept_callback info_callback
             error_callback return_transaction with_final_psbt optin_rbf cca
             change_label in
  (r = (Raised AssertionError, [])
   ∨ (r.1 = RetNone ∧
      ∃ msg b, r.2 = [LogError msg] ∧ b ∈ daa ∧ is_burn_destination env b.1 = true))
  ∧ (Forall (λ b : string * Z, is_burn_destination env b.1 = false) daa →
     r = (Raised AssertionError, [])).
Proof.
  intros Hin Hz Hlen r.
  destruct (sanity_checks env mixdepth daa answeryes cca) as [[vars|o] t] eqn:Hs.
  { apply sanity_checks_Next in Hs as (_ & Ha & _).
    unfold asserts_hold in Ha. apply andb_prop in Ha as [_ Hall].
    rewrite forallb_forall in Hall.
    apply list_elem_of_In, Hall in Hin. unfold target_asserts in Hin.
    rewrite Hz in Hin. simpl in Hin.
    apply andb_prop in Hin as [Hin _]. apply andb_prop in Hin as [_ Hin].
    apply andb_prop in Hin as [_ Hone]. apply Nat.eqb_eq in Hone. lia. }
  assert (r = (o, t)) as Hr.
  { apply direct_send_rejected. unfold plan_request.
    by rewrite (bind_of_Stop _ _ _ _ Hs). }
  rewrite Hr. cbn [fst snd].
  apply sanity_checks_Stop in Hs as [[-> ->]|[-> (msg & b & -> & Hb & Hburn)]].
  - split; [by left|done].
  - split; [right; split; [done|]; by exists msg, b|].
    intros Hnone. rewrite Forall_forall in Hnone.
    apply Hnone in Hb. congruence.
Qed.

Lemma zero_amount_among_several_rejected_witness :
  let r := send (demo_wallet false one_coin true true true)
             [("bc1qalice", 0); ("bc1qbob", 5)] true None in
  (r = (Raised AssertionError, [])
   ∨ (r.1 = RetNone ∧
      ∃ msg b, r.2 = [LogError msg] ∧ b ∈ [("bc1qalice", 0); ("bc1qbob", 5)] ∧
               is_burn_destination (demo_wallet false one_coin true true true) b.1
               = true))
  ∧ (Forall (λ b : string * Z,
               is_burn_destination (demo_wallet false one_coin true true true) b.1
               = false) [("bc1qalice", 0); ("bc1qbob", 5)] →
     r = (Raised AssertionError, [])).
Proof.
  apply (zero_amount_among_several_rejected
           (demo_wallet false one_coin true true true) 0
           [("bc1qalice", 0); ("bc1qbob", 5)] true None None None false false
           true None None ("bc1qalice", 0)).
  - apply list_elem_of_here.
  - reflexivity.
  - simpl. lia.
Defined.

(** C9: the failure paths do not return one value.  A sweep of an empty
    mixdepth and a failed signing return [None]; a declined confirmation, a
    failed broadcast and a failed PSBT signing return [False]. *)
Theorem failures_return_none_or_false :
  (send (demo_wallet false ∅ true true true) [("bc1qalice", 0)] true None).1
    = RetNone
  ∧ (send (demo_wallet false one_coin false true true) [("bc1qalice", 10)]
       true None).1 = RetNone
  ∧ (send (demo_wallet false one_coin true false true) [("bc1qalice", 10)]
       false None).1 = RetFalse
  ∧ (send (demo_wallet false one_coin true true false) [("bc1qalice", 10)]
       true None).1 = RetFalse
  ∧ (direct_send (demo_wallet false one_coin false true true) 0
       [("bc1qalice", 10)] true None None None false true true None None).1
    = RetFalse
  ∧ RetNone ≠ RetFalse.
Proof. repeat split; try (vm_compute; reflexivity). discriminate. Qed.

(** ** Locktime *)

(** C6: once the plan is made (and every time-locked path has its last
    component), the call builds the transaction with a locktime [lt] such
    that: if no selected input is time-locked, [lt] is the value of
    [compute_tx_locktime]; if the mixdepth is the fidelity bond mixdepth of
    a fidelity bond wallet and some selected input is time-locked, [lt] is
    the maximum of that value and [m + 1], for [m] the greatest unlock time
    of the time-locked inputs, hence greater than every unlock time. *)
Theorem locktime_rule
    env mixdepth daa answeryes accept_callback info_callback error_callback
    return_transaction with_final_psbt optin_rbf cca change_label l t :
  plan_request env mixdepth daa answeryes cca = (Next l, t) →
  timelocked_paths_ok env (utxos l) = true →
  let trace :=
    (direct_send env mixdepth daa answeryes accept_callback info_callback
       error_callback return_transaction with_final_psbt optin_rbf cca
       change_label).2 in
  ∃ lt,
    MakeShuffledTx (keys (utxos l)) (outs l) 2 lt ∈ trace
    ∧ (∀ ins os version lt', MakeShuffledTx ins os version lt' ∈ trace → lt' = lt)
    ∧ (timelocked_inputs env (utxos l) = [] → lt = compute_tx_locktime env)
    ∧ (mixdepth = FIDELITY_BOND_MIXDEPTH env →
       wallet_is_FidelityBondMixin env = true →
       timelocked_inputs env (utxos l) ≠ [] →
       (∃ item m,
          item ∈ timelocked_inputs env (utxos l)
          ∧ unlock_time env item = Some m
          ∧ (∀ item' u, item' ∈ timelocked_inputs env (utxos l) →
               unlock_time env item' = Some u → u ≤ m)
          ∧ lt = Z.max (compute_tx_locktime env) (m + 1))
       ∧ (∀ item u, item ∈ timelocked_inputs env (utxos l) →
            unlock_time env item = Some u → u < lt)).
Proof.
  intros Hp Hpaths trace.
  destruct (locktime_total env mixdepth (utxos l) Hpaths) as [lt Hl].
  exists lt. split; [|split].
  - by eapply direct_send_makes_tx.
  - intros ins os version lt' Hin. subst trace.
    apply direct_send_make_tx_inv in Hin as (l' & t' & Hp' & Hl' & _).
    rewrite Hp in Hp'. injection Hp' as <- _. congruence.
  - by apply locktime_Next in Hl.
Qed.

Lemma locktime_rule_witness :
  let env := demo_wallet true bond_coins true true true in
  let l := {| destination := "bc1qalice"; amount := 0; utxos := bond_coins;
              fee_est := 250; total_inputs_val := 105000;
              outs := [{| out_value := 104750; out_address := "bc1qalice" |}];
              changeval := None; change_addr := None |} in
  let trace := (send env [("bc1qalice", 0)] true None).2 in
  ∃ lt,
    MakeShuffledTx (keys (utxos l)) (outs l) 2 lt ∈ trace
    ∧ (∀ ins os version lt', MakeShuffledTx ins os version lt' ∈ trace → lt' = lt)
    ∧ (timelocked_inputs env (utxos l) = [] → lt = compute_tx_locktime env)
    ∧ (0 = FIDELITY_BOND_MIXDEPTH env →
       wallet_is_FidelityBondMixin env = true →
       timelocked_inputs env (utxos l) ≠ [] →
       (∃ item m,
          item ∈ timelocked_inputs env (utxos l)
          ∧ unlock_time env item = Some m
          ∧ (∀ item' u, item' ∈ timelocked_inputs env (utxos l) →
               unlock_time env item' = Some u → u ≤ m)
          ∧ lt = Z.max (compute_tx_locktime env) (m + 1))
       ∧ (∀ item u, item ∈ timelocked_inputs env (utxos l) →
            unlock_time env item = Some u → u < lt)).
Proof.
  apply (locktime_rule (demo_wallet true bond_coins true true true) 0
           [("bc1qalice", 0)] true None None None false false true None None
           {| destination := "bc1qalice"; amount := 0; utxos := bond_coins;
              fee_est := 250; total_inputs_val := 105000;
              outs := [{| out_value := 104750; out_address := "bc1qalice" |}];
              changeval := None; change_addr := None |}
           [GetUtxosByMixdepth]).
  - vm_compute. reflexivity.
  - vm_compute. reflexivity.
Defined.

(** The locktime of the scenario with one time-locked bond: the unlock time
    plus one, a timestamp above the height 800000. *)
Example bond_sweep_locktime :
  (send (demo_wallet true bond_coins true true true) [("bc1qalice", 0)] true
     None).2 !! 2%nat
  = Some (MakeShuffledTx [("ab", 0); ("cd", 1)]
            [{| out_value := 104750; out_address := "bc1qalice" |}] 2 1700000001).
Proof. vm_compute. reflexivity. Qed.

(** ** Confirmation, labelling and broadcast *)

Lemma bind_elem {A B} (e : event) (m : M A) (f : A → M B) :
  e ∈ (bind m f).2 → e ∈ m.2 ∨ ∃ a t, m = (Next a, t) ∧ e ∈ (f a).2.
Proof.
  unfold bind. destruct m as [[a|o] t]; simpl; [|by left].
  destruct (f a) as [r t'] eqn:Hf. simpl.
  intros [?|?]%elem_of_app; [by left|right]. exists a, t. by rewrite Hf.
Qed.

Lemma bind_elem_l {A B} (e : event) (m : M A) (f : A → M B) :
  e ∈ m.2 → e ∈ (bind m f).2.
Proof.
  destruct (bind_trace_prefix m f) as [rest ->]. intros ?.
  apply elem_of_app. by left.
Qed.

Lemma bind_elem_r {A B} (e : event) (m : M A) (f : A → M B) a t :
  m = (Next a, t) → e ∈ (f a).2 → e ∈ (bind m f).2.
Proof.
  intros -> ?. unfold bind. destruct (f a) as [r t']. simpl in *.
  apply elem_of_app. by right.
Qed.

Section confirmation.
Variable env : Env.
Variable mixdepth : Z.
Variable daa : list (string * Z).
Variable answeryes : bool.
Variable accept_callback : option accept_fn.
Variables info_callback error_callback : option (string → unit).
Variables return_transaction with_final_psbt optin_rbf : bool.
Variables cca change_label : option string.

Local Abbreviation run :=
  (direct_send env mixdepth daa answeryes accept_callback info_callback
     error_callback return_transaction with_final_psbt optin_rbf cca change_label).

Local Abbreviation fin l a :=
  (finalize env answeryes accept_callback info_callback error_callback
     return_transaction with_final_psbt cca change_label l a).

(** How the confirmation step can let the call go on. *)
Lemma confirm_Next t l amt u tc :
  confirm env answeryes accept_callback cca t l amt = (Next u, tc) →
  Forall (λ e, is_push e = false) tc
  ∧ (answeryes = true
     ∨ (accept_callback = None ∧
        cli_prompt_user_yesno env "Would you like to push to the network?" = true)
     ∨ (∃ cb txt dest fee,
          accept_callback = Some cb
          ∧ AcceptCallback txt dest amt fee cca ∈ tc
          ∧ cb txt dest amt fee cca = true)).
Proof.
  unfold confirm. destruct answeryes; simpl.
  { intros [= _ <-]. split; [constructor|by left]. }
  destruct accept_callback as [cb|].
  - destruct (cb _ _ _ _ _) eqn:Hcb; simpl; [|discriminate].
    intros [= _ <-]. split; [by repeat constructor|].
    right; right. exists cb. do 3 eexists. split; [done|].
    split; [apply list_elem_of_here|exact Hcb].
  - destruct (cli_prompt_user_yesno env _) eqn:Hyes; simpl; [|discriminate].
    intros [= _ <-]. split; [by repeat constructor|]. right; left. by split.
Qed.

Lemma confirm_no_push t l amt :
  Forall (λ e, is_push e = false)
         (confirm env answeryes accept_callback cca t l amt).2.
Proof. unfold confirm. trace_solve. Qed.

Local Ltac not_pushed H :=
  exfalso;
  match type of H with
  | _ ∈ ?t =>
      let Hall := fresh in
      assert (Forall (λ e, is_push e = false) t) as Hall
        by (try apply confirm_no_push; try apply finalize_psbt_no_push;
            trace_solve);
      rewrite Forall_forall in Hall; by apply Hall in H
  end.

(** A pushed transaction was signed in place and confirmed. *)
Lemma push_in_finalize raw l a :
  PushTx raw ∈ (fin l a).2 →
  with_final_psbt = false
  ∧ (answeryes = true
     ∨ (accept_callback = None ∧
        cli_prompt_user_yesno env "Would you like to push to the network?" = true)
     ∨ (∃ cb txt dest amt fee,
          accept_callback = Some cb
          ∧ AcceptCallback txt dest amt fee cca ∈ (fin l a).2
          ∧ cb txt dest amt fee cca = true)).
Proof.
  unfold finalize. destruct with_final_psbt; intros Hin; [not_pushed Hin|].
  split; [done|]. revert Hin. unfold finalize_tx.
  intros [Hin|(? & ? & [= <- <-] & Hin)]%bind_elem; [not_pushed Hin|].
  cbv zeta in *. destruct (negb _); [not_pushed Hin|].
  apply bind_elem in Hin as [Hin|(? & ? & [= <- <-] & Hin)]; [not_pushed Hin|].
  apply bind_elem in Hin as [Hin|(? & ? & [= <- <-] & Hin)]; [not_pushed Hin|].
  apply bind_elem in Hin as [Hin|(? & ? & [= <- <-] & Hin)]; [not_pushed Hin|].
  apply bind_elem in Hin as [Hin|(u & tc & Hc & Hin)]; [not_pushed Hin|].
  destruct (confirm_Next _ _ _ _ _ Hc)
    as [_ [?|[?|(cb & txt & dest & fee & Hcb & Hev & Hyes)]]]; auto.
  right; right. exists cb, txt, dest. do 2 eexists.
  split; [done|]. split; [|exact Hyes].
  do 4 (eapply bind_elem_r; [reflexivity|]).
  apply bind_elem_l. by rewrite Hc.
Qed.

Lemma push_needs_confirmation raw :
  PushTx raw ∈ run.2 →
  with_final_psbt = false
  ∧ (answeryes = true
     ∨ (accept_callback = None ∧
        cli_prompt_user_yesno env "Would you like to push to the network?" = true)
     ∨ (∃ cb txt dest amt fee,
          accept_callback = Some cb
          ∧ AcceptCallback txt dest amt fee cca ∈ run.2
          ∧ cb txt dest amt fee cca = true)).
Proof.
  rewrite direct_send_eq, finish_trace. intros Hin.
  apply bind_elem in Hin as [Hin|(l & t & Hp & Hin)].
  { exfalso. pose proof (plan_request_trace env mixdepth daa cca answeryes) as Hall.
    rewrite Forall_forall in Hall. by apply Hall in Hin. }
  apply bind_elem in Hin as [Hin|(lt & t' & Hl & Hin)].
  { rewrite locktime_silent in Hin. by apply elem_of_nil in Hin. }
  apply bind_elem in Hin as [Hin|(a & ta & Ha & Hin)].
  { exfalso. destruct (assemble_trace env optin_rbf l lt) as (pre & Heq & Hlog).
    rewrite Heq in Hin. apply elem_of_app in Hin as [Hin|Hin].
    - rewrite Forall_forall in Hlog. by apply Hlog in Hin as [? ?].
    - by apply list_elem_of_singleton in Hin. }
  apply push_in_finalize in Hin
    as [Hf [?|[?|(cb & txt & dest & amt & fee & Hcb & Hev & Hyes)]]]; auto.
  split; [done|]. right; right. exists cb, txt, dest, amt, fee.
  split; [done|]. split; [|done].
  eapply bind_elem_r; [exact Hp|].
  eapply bind_elem_r; [exact Hl|].
  eapply bind_elem_r; [exact Ha|]. done.
Qed.
End confirmation.

(** C7: when the confirmation is declined (the user is asked, and the
    prompt is answered no or the accept callback returns [False] on the call
    made to it), and on the [with_final_psbt] path whether the PSBT signing
    succeeds or fails, the trace of the call holds no [pushtx]. *)
Theorem no_broadcast_when_declined_or_partial
    env mixdepth daa answeryes accept_callback info_callback error_callback
    return_transaction with_final_psbt optin_rbf cca change_label :
  let trace :=
    (direct_send env mixdepth daa answeryes accept_callback info_callback
       error_callback return_transaction with_final_psbt optin_rbf cca
       change_label).2 in
  with_final_psbt = true ∨ (answeryes = false ∧ declined env accept_callback trace) →
  Forall (λ e, is_push e = false) trace.
Proof.
  intros trace Hcase. apply Forall_forall. intros e Hin.
  destruct e; try reflexivity. exfalso.
  apply push_needs_confirmation in Hin as [Hf Hconf].
  destruct Hcase as [Hp|[Hno Hd]]; [congruence|].
  unfold declined in Hd.
  destruct Hconf as [?|[[Hnone Hyes]|(cb & txt & dest & amt & fee & Hcb & Hev & Hyes)]].
  - congruence.
  - rewrite Hnone in Hd. congruence.
  - rewrite Hcb in Hd. apply Hd in Hev. congruence.
Qed.

Lemma no_broadcast_when_declined_or_partial_witness :
  Forall (λ e, is_push e = false)
    (direct_send (demo_wallet false one_coin true true true) 0
       [("bc1qalice", 10)] false (Some (λ _ _ amt _ _, amt <? 10)) None None
       false false true None None).2.
Proof.
  apply (no_broadcast_when_declined_or_partial
           (demo_wallet false one_coin true true true) 0 [("bc1qalice", 10)]
           false (Some (λ _ _ amt _ _, amt <? 10)) None None false false true
           None None).
  right. split; [reflexivity|].
  intros txt dest amt fee change Hin. vm_compute in Hin.
  repeat (apply elem_of_cons in Hin as [Hin|Hin]; [try discriminate Hin|]).
  - by injection Hin as -> -> -> -> ->.
  - by apply elem_of_nil in Hin.
Defined.

(** The label call ignores what [set_address_label] answers. *)
Lemma label_change_swallows env change_label l addr lbl :
  change_label = Some lbl → lbl ≠ EmptyString → change_addr l = Some addr →
  label_change env change_label l = (Next tt, [SetAddressLabel addr lbl]).
Proof.
  intros -> Hne Ha. unfold label_change, truthy. rewrite Ha.
  destruct (String.eqb_spec lbl EmptyString); [done|]. simpl.
  by destruct (set_address_label env addr lbl).
Qed.

(** In payment mode [change_addr] is bound, so a signed and confirmed
    transaction with a change label gives the label call, then the push,
    then the report; a failed push returns [False] and nothing undoes the
    label. *)
Lemma label_precedes_push env answeryes accept_callback info_callback
    error_callback return_transaction cca change_label t inscripts l addr lbl tc :
  (sign_tx env t inscripts).1.1 = true →
  confirm env answeryes accept_callback cca (sign_tx env t inscripts).2 l
    (if negb (amount l =? 0) then amount l else total_inputs_val l - fee_est l)
    = (Next tt, tc) →
  change_label = Some lbl → lbl ≠ EmptyString → change_addr l = Some addr →
  let raw := tx_serialize env (sign_tx env t inscripts).2 in
  ∃ pre o report,
    finalize_tx env answeryes accept_callback info_callback error_callback
      return_transaction cca change_label t inscripts l
    = (Stop o, pre ++ [SetAddressLabel addr lbl; PushTx raw; report])
    ∧ Forall (λ e, is_push e = false ∧ is_label e = false) pre
    ∧ (pushtx env raw = false → o = RetFalse).
Proof.
  intros Hs Hc Hl Hne Ha raw. unfold finalize_tx. cbv zeta.
  rewrite Hs, Hc, (label_change_swallows env change_label l addr lbl Hl Hne Ha).
  unfold broadcast. fold raw. cbn [negb bind emit ret return_ app fst snd].
  destruct (confirm_Next _ _ _ _ _ _ _ _ _ Hc) as [Hnp _].
  assert (Forall (λ e, is_label e = false) tc) as Hnl.
  { assert (Forall (λ e, is_label e = false)
              (confirm env answeryes accept_callback cca
                 (sign_tx env t inscripts).2 l
                 (if negb (amount l =? 0) then amount l
                  else total_inputs_val l - fee_est l)).2) as H
      by (unfold confirm; trace_solve).
    by rewrite Hc in H. }
  destruct (pushtx env raw);
    cbn [negb bind emit ret return_ app fst snd];
    eexists (_ :: _ :: _ :: _ :: tc), _, _.
  all: split; [by rewrite <- !app_comm_cons|].
  all: split; [|done].
  all: repeat (apply Forall_cons; split; [done|]).
  all: by apply Forall_and.
Qed.

(** A payment with a change label whose push fails: the label call comes
    before the push, its [UnknownAddressForLabel] answer is ignored, and the
    call returns [False] with the label call made. *)
Example label_kept_when_push_fails :
  let r := send (demo_wallet false one_coin true true false) [("bc1qalice", 7)]
             true (Some "savings") in
  r.1 = RetFalse
  ∧ drop 9 r.2 = [SetAddressLabel "bc1qchange" "savings"; PushTx "raw";
                  LogError "Transaction broadcast failed!"].
Proof. split; vm_compute; reflexivity. Qed.

(** C10: a confirmed sweep with a change label makes neither the label call
    nor the push.  [change_addr] is assigned in the payment branch only
    (lines 142-143), so reading it at line 217 raises [UnboundLocalError],
    which is not the exception the [try] catches. *)
Theorem sweep_with_change_label_raises :
  let r := send (demo_wallet false one_coin true true true) [("bc1qalice", 0)]
             true (Some "savings") in
  r.1 = Raised UnboundLocalError
  ∧ Forall (λ e, is_label e = false ∧ is_push e = false) r.2.
Proof. split; [vm_compute; reflexivity|]. vm_compute. by repeat constructor. Qed.
(** * Further properties of [direct_send] *)

(** ** The stages as explicit runs *)

Lemma finish_bind_Next {A} (m : M A) (f : A → M outcome) a t :
  m = (Next a, t) →
  finish (bind m f) = ((finish (f a)).1, t ++ (finish (f a)).2).
Proof. intros ->. unfold bind. by destruct (f a) as [[o|o] t']. Qed.

Lemma finish_bind_Stop {A} (m : M A) (f : A → M outcome) o t :
  m = (Stop o, t) → finish (bind m f) = (o, t).
Proof. by intros ->. Qed.

Section stages.
Variable env : Env.
Variable answeryes : bool.
Variable accept_callback : option accept_fn.
Variables info_callback error_callback : option (string → unit).
Variables return_transaction with_final_psbt optin_rbf : bool.
Variables cca change_label : option string.

(** The five ways of the confirmation step. *)
Lemma confirm_cases t l amt :
  let c := confirm env answeryes accept_callback cca t l amt in
  let question := "Would you like to push to the network?" in
  let shown := AcceptCallback (human_readable_transaction env t) (destination l)
                 amt (fee_est l) cca in
  (answeryes = true ∧ c = (Next tt, []))
  ∨ (answeryes = false ∧ accept_callback = None
     ∧ cli_prompt_user_yesno env question = true
     ∧ c = (Next tt, [CliPromptUserYesNo question]))
  ∨ (answeryes = false ∧ accept_callback = None
     ∧ cli_prompt_user_yesno env question = false
     ∧ c = (Stop RetFalse,
            [CliPromptUserYesNo question;
             LogInfo "You chose not to broadcast the transaction, quitting."]))
  ∨ (∃ cb, answeryes = false ∧ accept_callback = Some cb
       ∧ cb (human_readable_transaction env t) (destination l) amt (fee_est l) cca
         = true
       ∧ c = (Next tt, [shown]))
  ∨ (∃ cb, answeryes = false ∧ accept_callback = Some cb
       ∧ cb (human_readable_transaction env t) (destination l) amt (fee_est l) cca
         = false
       ∧ c = (Stop RetFalse, [shown])).
Proof.
  cbv zeta. unfold confirm. destruct answeryes; simpl; [by left|].
  destruct accept_callback as [cb|].
  - destruct (cb _ _ _ _ _) eqn:Hcb; simpl.
    + right; right; right; left. by exists cb.
    + right; right; right; right. by exists cb.
  - destruct (cli_prompt_user_yesno env _) eqn:Hyes; simpl.
    + right; left. done.
    + right; right; left. done.
Qed.

(** The three ways of the label step. *)
Lemma label_change_cases l :
  (truthy change_label = false ∧ label_change env change_label l = (Next tt, []))
  ∨ (∃ lbl addr, change_label = Some lbl ∧ lbl ≠ EmptyString
       ∧ change_addr l = Some addr
       ∧ label_change env change_label l = (Next tt, [SetAddressLabel addr lbl]))
  ∨ (truthy change_label = true ∧ change_addr l = None
     ∧ label_change env change_label l = (Stop (Raised UnboundLocalError), [])).
Proof.
  unfold label_change. destruct change_label as [lbl|]; [|by left].
  destruct (truthy (Some lbl)) eqn:Ht; [|by left].
  assert (lbl ≠ EmptyString) as Hne.
  { intros ->. discriminate Ht. }
  destruct (change_addr l) as [addr|]; simpl.
  - right; left. exists lbl, addr. repeat split; auto.
    by destruct (set_address_label env addr lbl).
  - right; right. done.
Qed.

(** The two ways of the broadcast. *)
Lemma broadcast_cases t :
  let raw := tx_serialize env t in
  let txid := bintohex env (String.rev (GetTxid env t)) in
  (pushtx env raw = true
   ∧ broadcast env info_callback error_callback return_transaction t
     = (Stop (if return_transaction then RetTx t else RetTxid txid),
        [PushTx raw;
         report info_callback LogInfo InfoCallback ("Transaction sent: " +:+ txid)]))
  ∨ (pushtx env raw = false
     ∧ broadcast env info_callback error_callback return_transaction t
       = (Stop RetFalse,
          [PushTx raw;
           report error_callback LogError ErrorCallback
             "Transaction broadcast failed!"])).
Proof.
  cbv zeta. unfold broadcast, report.
  destruct (pushtx env _); simpl.
  - left. split; [done|]. by destruct return_transaction, info_callback.
  - right. split; [done|]. by destruct error_callback.
Qed.

(** The PSBT path as one explicit run. *)
Lemma finalize_psbt_run t spent_outs :
  let new_psbt := create_psbt_from_tx env t spent_outs in
  let raw := psbt_serialize env new_psbt in
  let signed := sign_psbt env raw in
  finalize_psbt env t spent_outs =
    if truthy signed.2 then
      (Stop RetFalse,
       [CreatePsbtFromTx t spent_outs; SignPsbt raw;
        LogError ("Failed to sign PSBT, quitting. Error message: " +:+
                  default EmptyString signed.2)])
    else
      (Stop (RetPsbt (psbt_deserialize env signed.1)),
       [CreatePsbtFromTx t spent_outs; SignPsbt raw;
        PrintLine "Completed PSBT created: ";
        PrintLine (human_readable_psbt env (psbt_deserialize env signed.1))]).
Proof. cbv zeta. unfold finalize_psbt. by destruct (truthy _). Qed.
End stages.

Section runs.
Variable env : Env.
Variable mixdepth : Z.
Variable daa : list (string * Z).
Variable answeryes : bool.
Variable accept_callback : option accept_fn.
Variables info_callback error_callback : option (string → unit).
Variables return_transaction with_final_psbt optin_rbf : bool.
Variables cca change_label : option string.

Local Abbreviation run :=
  (direct_send env mixdepth daa answeryes accept_callback info_callback
     error_callback return_transaction with_final_psbt optin_rbf cca change_label).

Local Abbreviation fin l a :=
  (finalize env answeryes accept_callback info_callback error_callback
     return_transaction with_final_psbt cca change_label l a).

(** The in-place signing path as one explicit run. *)
Lemma finalize_tx_run t ins l :
  let s := sign_tx env t ins in
  let amt := if negb (amount l =? 0) then amount l
             else total_inputs_val l - fee_est l in
  ∃ info,
    finalize_tx env answeryes accept_callback info_callback error_callback
      return_transaction cca change_label t ins l =
    if s.1.1 then
      let pre := [SignTx t ins;
                  LogInfo ("Got signed transaction:" +:+ newline);
                  LogInfo (human_readable_transaction env s.2);
                  LogInfo info] in
      match confirm env answeryes accept_callback cca s.2 l amt with
      | (Stop o, tc) => (Stop o, pre ++ tc)
      | (Next _, tc) =>
          match label_change env change_label l with
          | (Stop o, tl) => (Stop o, pre ++ tc ++ tl)
          | (Next _, tl) =>
              let b := broadcast env info_callback error_callback
                         return_transaction s.2 in
              (b.1, pre ++ tc ++ tl ++ b.2)
          end
      end
    else
      (Stop RetNone,
       [SignTx t ins;
        LogError ("Failed to sign transaction, quitting. Error msg: " +:+ s.1.2)]).
Proof.
  cbv zeta. unfold finalize_tx. eexists.
  destruct (sign_tx env t ins).1.1; cbn [negb bind emit return_ app]; [|done].
  destruct (confirm _ _ _ _ _ _ _) as [[u|o] tc];
    cbn [bind emit return_ ret app fst snd]; [|reflexivity].
  destruct (label_change _ _ _) as [[u'|o] tl];
    cbn [bind emit return_ ret app fst snd]; [|reflexivity].
  destruct (broadcast _ _ _ _ _) as [r tb]. reflexivity.
Qed.

(** The stage at which a call ends. *)
Lemma direct_send_cases :
  (∃ o t, plan_request env mixdepth daa answeryes cca = (Stop o, t) ∧ run = (o, t))
  ∨ (∃ l t o,
       plan_request env mixdepth daa answeryes cca = (Next l, t)
       ∧ locktime env mixdepth (utxos l) = (Stop o, [])
       ∧ run = (o, t))
  ∨ (∃ l t lt o ta,
       plan_request env mixdepth daa answeryes cca = (Next l, t)
       ∧ locktime env mixdepth (utxos l) = (Next lt, [])
       ∧ assemble env optin_rbf l lt = (Stop o, ta)
       ∧ run = (o, t ++ ta))
  ∨ (∃ l t lt a ta,
       plan_request env mixdepth daa answeryes cca = (Next l, t)
       ∧ locktime env mixdepth (utxos l) = (Next lt, [])
       ∧ assemble env optin_rbf l lt = (Next a, ta)
       ∧ run = ((finish (fin l a)).1, t ++ ta ++ (fin l a).2)).
Proof.
  rewrite direct_send_eq.
  destruct (plan_request env mixdepth daa answeryes cca) as [[l|o] t] eqn:Hp.
  2:{ left. exists o, t. by rewrite (finish_bind_Stop _ _ _ _ eq_refl). }
  right. rewrite (finish_bind_Next _ _ _ _ eq_refl).
  pose proof (locktime_silent env mixdepth (utxos l)) as Hsil.
  destruct (locktime env mixdepth (utxos l)) as [[lt|o] t'] eqn:Hl;
    simpl in Hsil; subst t'.
  2:{ left. exists l, t, o. rewrite (finish_bind_Stop _ _ _ _ eq_refl).
      by rewrite app_nil_r. }
  right. rewrite (finish_bind_Next _ _ _ _ eq_refl). cbn [fst snd app].
  destruct (assemble env optin_rbf l lt) as [[a|o] ta] eqn:Ha.
  - right. exists l, t, lt, a, ta.
    rewrite (finish_bind_Next _ _ _ _ eq_refl). cbn [fst snd].
    by rewrite finish_trace.
  - left. exists l, t, lt, o, ta.
    by rewrite (finish_bind_Stop _ _ _ _ eq_refl).
Qed.

(** After passed sanity checks the planning stops only in a sweep: on a
    mixdepth missing from the wallet's dictionary, or on an empty one. *)
Lemma plan_Stop vars o t :
  sanity_checks env mixdepth daa answeryes cca = (Next vars, []) →
  plan env mixdepth daa cca vars = (Stop o, t) →
  is_sweep vars = true
  ∧ ((get_utxos_by_mixdepth env !! mixdepth = None
      ∧ o = Raised KeyError ∧ t = [GetUtxosByMixdepth])
     ∨ (get_utxos_by_mixdepth env !! mixdepth = Some ∅
        ∧ o = RetNone
        ∧ t = [GetUtxosByMixdepth;
               LogError ("There are no available utxos in mixdepth " +:+
                         pretty mixdepth +:+ ", quitting.")])).
Proof.
  intros Hs. apply sanity_checks_Next in Hs as (_ & Ha & _ & _ & Hot & _ & Htgt).
  unfold asserts_hold in Ha. repeat (apply andb_prop in Ha as [Ha ?]).
  destruct daa as [|tgt rest] eqn:Hd; [discriminate|].
  unfold plan. destruct (is_sweep vars).
  - unfold plan_sweep. rewrite Hot. intros Hp. split; [done|].
    destruct (get_utxos_by_mixdepth env !! mixdepth) as [u|].
    + cbn [bind ret emit app fmap list_fmap] in Hp.
      destruct (decide (u = ∅)) as [->|]; [|discriminate].
      injection Hp as <- <-. by right.
    + injection Hp as <- <-. by left.
  - unfold plan_payment. rewrite Hot, Htgt.
    destruct (last (tgt :: rest)) as [x|] eqn:Hlast;
      [|by apply last_None in Hlast].
    cbn [bind ret emit app fmap list_fmap]. by destruct cca.
Qed.

Lemma locktime_Stop (u : gmap outpoint utxo) o t :
  locktime env mixdepth u = (Stop o, t) → o = Raised IndexError.
Proof.
  unfold locktime. destruct (_ && _); [|discriminate].
  generalize (compute_tx_locktime env) as acc. revert t.
  induction (map_to_list u) as [|x items IH]; intros t acc; simpl; [discriminate|].
  destruct (raise_locktime_cases env acc x)
    as [[_ Hr]|[(_ & _ & Hr)|(m & _ & _ & Hr)]].
  - rewrite (bind_of_Next _ _ _ _ Hr).
    destruct (for_each _ _ _) as [r t'] eqn:Hf. simpl. intros [= -> <-]. eauto.
  - rewrite (bind_of_Stop _ _ _ _ Hr). by intros [= <- _].
  - rewrite (bind_of_Next _ _ _ _ Hr).
    destruct (for_each _ _ _) as [r t'] eqn:Hf. simpl. intros [= -> <-]. eauto.
Qed.
End runs.

(** ** The construction of the transaction *)

Section construction.
Variable utxos : gmap outpoint utxo.

Local Abbreviation collect vins k acc :=
  (for_each (collect_input utxos) (zip (seq k (length vins)) vins) acc).

Lemma collect_input_cases acc (k : nat) txinp :
  (utxos !! spent_outpoint txinp = None
   ∧ collect_input utxos acc (k, txinp) = (Stop (Raised KeyError), []))
  ∨ (∃ va, utxos !! spent_outpoint txinp = Some va
       ∧ collect_input utxos acc (k, txinp)
         = (Next (<[k := (script va, value va)]> acc.1, acc.2 ++ [spent_out va]),
            [])).
Proof.
  unfold collect_input, spent_outpoint. simpl.
  destruct (utxos !! _) as [va|]; [right; by exists va|by left].
Qed.

(** The loop of lines 174-178 fills position [i] of [inscripts] and of
    [spent_outs] with the script and value of the utxo that input [i]
    spends. *)
Lemma collect_inputs_Next vins k acc acc' t :
  collect vins k acc = (Next acc', t) →
  t = []
  ∧ length acc'.2 = (length acc.2 + length vins)%nat
  ∧ (∀ i, (i < k)%nat → acc'.1 !! i = acc.1 !! i)
  ∧ (∀ j, (j < length acc.2)%nat → acc'.2 !! j = acc.2 !! j)
  ∧ (∀ j txinp, vins !! j = Some txinp →
       ∃ va, utxos !! spent_outpoint txinp = Some va
         ∧ acc'.1 !! (k + j)%nat = Some (script va, value va)
         ∧ acc'.2 !! (length acc.2 + j)%nat = Some (spent_out va)).
Proof.
  revert k acc t. induction vins as [|x vins IH]; intros k acc t; simpl.
  - intros [= <- <-]. repeat split; auto; try lia. intros j ? Hj. done.
  - intros H. apply bind_Next in H as (acc1 & t1 & t2 & Hx & Hrest & ->).
    destruct (collect_input_cases acc k x) as [[_ Hs]|(va & Hva & Hn)];
      rewrite Hx in *; [discriminate|]. injection Hn as -> ->.
    apply IH in Hrest as (-> & Hlen & Hlow & Hkeep & Hall).
    cbn [fst snd] in *. rewrite length_app in *. simpl in *.
    repeat split; auto.
    + lia.
    + intros i Hi. rewrite Hlow by lia. by rewrite lookup_insert_ne by lia.
    + intros j Hj. rewrite Hkeep by lia. by rewrite lookup_app_l by lia.
    + intros [|j] txinp Hj; simpl in Hj.
      * injection Hj as <-. exists va. split; [done|].
        rewrite !Nat.add_0_r. split.
        -- rewrite Hlow by lia. by rewrite lookup_insert_eq.
        -- rewrite Hkeep by lia.
           by rewrite lookup_app_r, Nat.sub_diag by lia.
      * destruct (Hall j txinp Hj) as (va' & Hva' & Hi & Ho).
        exists va'. split; [done|].
        replace (k + S j)%nat with (S k + j)%nat by lia.
        replace (length acc.2 + S j)%nat with (length acc.2 + 1 + j)%nat by lia.
        done.
Qed.

Lemma collect_inputs_Stop vins k acc o t :
  collect vins k acc = (Stop o, t) →
  o = Raised KeyError ∧ t = []
  ∧ ∃ txinp, txinp ∈ vins ∧ utxos !! spent_outpoint txinp = None.
Proof.
  revert k acc t. induction vins as [|x vins IH]; intros k acc t; simpl.
  - discriminate.
  - destruct (collect_input_cases acc k x) as [[Hnone Hs]|(va & Hva & Hn)].
    + rewrite (bind_of_Stop _ _ _ _ Hs). intros [= <- <-].
      repeat split; auto. exists x. split; [apply list_elem_of_here|done].
    + rewrite (bind_of_Next _ _ _ _ Hn).
      destruct (for_each _ _ _) as [r t'] eqn:Hr. simpl. intros [= -> <-].
      apply IH in Hr as (-> & -> & txinp & Hin & Hnone).
      repeat split; auto. exists txinp. split; [by apply list_elem_of_further|done].
Qed.

Lemma collect_inputs_missing vins k acc txinp :
  txinp ∈ vins → utxos !! spent_outpoint txinp = None →
  collect vins k acc = (Stop (Raised KeyError), []).
Proof.
  revert k acc. induction vins as [|x vins IH]; intros k acc Hin Hnone.
  - by apply elem_of_nil in Hin.
  - simpl. destruct (collect_input_cases acc k x) as [[_ Hs]|(va & Hva & Hn)].
    + by rewrite (bind_of_Stop _ _ _ _ Hs).
    + rewrite (bind_of_Next _ _ _ _ Hn).
      apply elem_of_cons in Hin as [->|Hin]; [congruence|].
      by rewrite (IH _ _ Hin Hnone).
Qed.
End construction.

Section assembling.
Variable env : Env.
Variable optin_rbf : bool.

(** The construction as one explicit run. *)
Lemma assemble_run l lt :
  let built := MakeShuffledTx (keys (utxos l)) (outs l) 2 lt in
  let tx1 := with_sequences optin_rbf
               (make_shuffled_tx env (keys (utxos l)) (outs l) 2 lt) in
  ∃ pre,
    Forall (λ e, ∃ msg, e = LogInfo msg) pre
    ∧ assemble env optin_rbf l lt =
        match for_each (collect_input (utxos l))
                (zip (seq 0 (length (vin tx1))) (vin tx1)) (∅, []) with
        | (Next acc, _) => (Next (tx1, acc.1, acc.2), pre ++ [built])
        | (Stop o, _) => (Stop o, pre ++ [built])
        end.
Proof.
  cbv zeta. unfold assemble, with_sequences, keys.
  set (tx1 := if optin_rbf then _ else _).
  assert ((for_each (collect_input (utxos l))
             (zip (seq 0 (length (vin tx1))) (vin tx1)) (∅, [])).2 = []) as Hloop.
  { apply silent_nil. unfold collect_input. trace_solve. }
  destruct (for_each _ _ _) as [[acc|o] t] eqn:Hfe; simpl in Hloop; subst t;
    destruct (changeval l) as [cv|]; cbn [bind emit ret app];
    rewrite ?Hfe; cbn [bind emit ret app];
    first [ eexists [_; _]; split; [|reflexivity]
          | eexists [_]; split; [|reflexivity] ];
    repeat constructor; by eexists.
Qed.

(** What [optin_rbf] changes in the transaction, and what it leaves. *)
Lemma with_sequences_spec (t : tx) :
  vout (with_sequences optin_rbf t) = vout t
  ∧ nVersion (with_sequences optin_rbf t) = nVersion t
  ∧ nLockTime (with_sequences optin_rbf t) = nLockTime t
  ∧ spent_outpoint <$> vin (with_sequences optin_rbf t) = spent_outpoint <$> vin t
  ∧ (if optin_rbf
     then Forall (λ inp, nSequence inp = 4294967293) (vin (with_sequences optin_rbf t))
     else with_sequences optin_rbf t = t).
Proof.
  unfold with_sequences. destruct optin_rbf; simpl; [|done].
  repeat split.
  - by rewrite <- list_fmap_compose.
  - apply Forall_fmap, Forall_true. done.
Qed.
End assembling.

(** ** The ways a call ends after the construction *)

Section endings.
Variable env : Env.
Variable mixdepth : Z.
Variable daa : list (string * Z).
Variable answeryes : bool.
Variable accept_callback : option accept_fn.
Variables info_callback error_callback : option (string → unit).
Variables return_transaction with_final_psbt optin_rbf : bool.
Variables cca change_label : option string.

Local Abbreviation run :=
  (direct_send env mixdepth daa answeryes accept_callback info_callback
     error_callback return_transaction with_final_psbt optin_rbf cca change_label).

Local Abbreviation fin l a :=
  (finalize env answeryes accept_callback info_callback error_callback
     return_transaction with_final_psbt cca change_label l a).

(** The signing stage ends in one of seven ways; in each the outcome and
    the trace are explicit. *)
Lemma finalize_cases l (a : tx * gmap nat (string * Z) * list CMutableTxOut) :
  let t := a.1.1 in
  let s := sign_tx env t a.1.2 in
  let amt := if negb (amount l =? 0) then amount l
             else total_inputs_val l - fee_est l in
  let raw_psbt := psbt_serialize env (create_psbt_from_tx env t a.2) in
  let p := sign_psbt env raw_psbt in
  let raw := tx_serialize env s.2 in
  let txid := bintohex env (String.rev (GetTxid env s.2)) in
  (with_final_psbt = true ∧ truthy p.2 = true
   ∧ ∃ msg, fin l a = (Stop RetFalse,
                       [CreatePsbtFromTx t a.2; SignPsbt raw_psbt; LogError msg]))
  ∨ (with_final_psbt = true ∧ truthy p.2 = false
     ∧ ∃ m1 m2, fin l a = (Stop (RetPsbt (psbt_deserialize env p.1)),
                           [CreatePsbtFromTx t a.2; SignPsbt raw_psbt;
                            PrintLine m1; PrintLine m2]))
  ∨ (with_final_psbt = false ∧ s.1.1 = false
     ∧ ∃ msg, fin l a = (Stop RetNone, [SignTx t a.1.2; LogError msg]))
  ∨ (with_final_psbt = false ∧ s.1.1 = true
     ∧ ∃ m1 m2 m3 tc,
         let pre := [SignTx t a.1.2; LogInfo m1; LogInfo m2; LogInfo m3] in
         (confirm env answeryes accept_callback cca s.2 l amt = (Stop RetFalse, tc)
          ∧ fin l a = (Stop RetFalse, pre ++ tc))
         ∨ (confirm env answeryes accept_callback cca s.2 l amt = (Next tt, tc)
            ∧ truthy change_label = true ∧ change_addr l = None
            ∧ fin l a = (Stop (Raised UnboundLocalError), pre ++ tc))
         ∨ (∃ tl,
              confirm env answeryes accept_callback cca s.2 l amt = (Next tt, tc)
              ∧ label_change env change_label l = (Next tt, tl)
              ∧ ((pushtx env raw = true
                  ∧ fin l a =
                    (Stop (if return_transaction then RetTx s.2 else RetTxid txid),
                     pre ++ tc ++ tl ++
                     [PushTx raw;
                      report info_callback LogInfo InfoCallback
                        ("Transaction sent: " +:+ txid)]))
                 ∨ (pushtx env raw = false
                    ∧ fin l a =
                      (Stop RetFalse,
                       pre ++ tc ++ tl ++
                       [PushTx raw;
                        report error_callback LogError ErrorCallback
                          "Transaction broadcast failed!"]))))).
Proof.
  cbv zeta. unfold finalize. destruct with_final_psbt.
  - rewrite finalize_psbt_run. cbv zeta.
    destruct (truthy _) eqn:Herr; [left|right; left]; eauto 6.
  - right; right.
    destruct (finalize_tx_run env answeryes accept_callback info_callback
                error_callback return_transaction cca change_label
                a.1.1 a.1.2 l) as [info ->]. cbv zeta.
    destruct (sign_tx env a.1.1 a.1.2).1.1 eqn:Hs; [right|left; eauto].
    split; [done|]. split; [done|]. do 3 eexists.
    destruct (confirm_cases env answeryes accept_callback cca
                (sign_tx env a.1.1 a.1.2).2 l
                (if negb (amount l =? 0) then amount l
                 else total_inputs_val l - fee_est l))
      as [[_ Hc]|[(_ & _ & _ & Hc)|[(_ & _ & _ & Hc)|[(cb & _ & _ & _ & Hc)|
          (cb & _ & _ & _ & Hc)]]]];
      cbv zeta in Hc; rewrite Hc; eexists.
    3, 5: by left.
    all: right.
    all: destruct (label_change_cases env change_label l)
           as [[_ Hl]|[(lbl & addr & _ & _ & _ & Hl)|(Ht & Hnone & Hl)]];
           rewrite Hl; [right|right|by left].
    all: eexists; split; [reflexivity|]; split; [reflexivity|].
    all: destruct (broadcast_cases env info_callback error_callback
                     return_transaction (sign_tx env a.1.1 a.1.2).2)
           as [[Hp Hb]|[Hp Hb]]; cbv zeta in Hb; rewrite Hb;
           [left|right]; by split.
Qed.

Lemma confirm_trace_kind t l amt :
  Forall (λ e, is_confirmation e = true ∨ ∃ msg, e = LogInfo msg)
         (confirm env answeryes accept_callback cca t l amt).2.
Proof.
  unfold confirm.
  repeat first [trace_step | apply Forall_singleton; eauto].
Qed.

Lemma label_change_trace_kind l :
  Forall (λ e, is_label e = true) (label_change env change_label l).2.
Proof. unfold label_change. trace_solve. Qed.

Lemma assemble_Next l lt a ta :
  assemble env optin_rbf l lt = (Next a, ta) →
  a.1.1 = with_sequences optin_rbf
            (make_shuffled_tx env (keys (utxos l)) (outs l) 2 lt)
  ∧ for_each (collect_input (utxos l))
      (zip (seq 0 (length (vin a.1.1))) (vin a.1.1)) (∅, []) = (Next (a.1.2, a.2), [])
  ∧ ∃ pre, ta = pre ++ [MakeShuffledTx (keys (utxos l)) (outs l) 2 lt]
           ∧ Forall (λ e, ∃ msg, e = LogInfo msg) pre.
Proof.
  destruct (assemble_run env optin_rbf l lt) as (pre & Hlog & ->). cbv zeta.
  destruct (for_each _ _ _) as [[acc|o] t] eqn:Hf; [|discriminate].
  intros [= <- <-]. cbn [fst snd].
  pose proof (collect_inputs_Next _ _ _ _ _ _ Hf) as [-> _].
  split; [done|]. split; [by destruct acc|]. by exists pre.
Qed.

Lemma assemble_Stop l lt o ta :
  assemble env optin_rbf l lt = (Stop o, ta) →
  o = Raised KeyError
  ∧ (∃ txinp,
       txinp ∈ vin (make_shuffled_tx env (keys (utxos l)) (outs l) 2 lt)
       ∧ utxos l !! spent_outpoint txinp = None)
  ∧ ∃ pre, ta = pre ++ [MakeShuffledTx (keys (utxos l)) (outs l) 2 lt]
           ∧ Forall (λ e, ∃ msg, e = LogInfo msg) pre.
Proof.
  destruct (assemble_run env optin_rbf l lt) as (pre & Hlog & ->). cbv zeta.
  destruct (for_each _ _ _) as [[acc|o'] t] eqn:Hf; [discriminate|].
  intros [= <- <-].
  apply collect_inputs_Stop in Hf as (-> & _ & txinp & Hin & Hnone).
  split; [done|]. split; [|by exists pre].
  destruct (with_sequences_spec optin_rbf
              (make_shuffled_tx env (keys (utxos l)) (outs l) 2 lt))
    as (_ & _ & _ & Hsame & _).
  apply list_elem_of_lookup in Hin as [i Hi].
  assert ((spent_outpoint <$> vin (make_shuffled_tx env (keys (utxos l)) (outs l)
                                     2 lt)) !! i = Some (spent_outpoint txinp))
    as Hi' by (by rewrite <- Hsame, list_lookup_fmap, Hi).
  rewrite list_lookup_fmap in Hi'.
  destruct (vin (make_shuffled_tx _ _ _ _ _) !! i) as [x|] eqn:Hx; [|done].
  apply (inj Some) in Hi'. exists x. split; [by eapply list_elem_of_lookup_2|].
  by rewrite Hi'.
Qed.

(** An event that is neither of the planning nor of the construction was
    emitted by the signing stage of a call that got that far. *)
Lemma late_event e :
  e ∈ run.2 →
  is_plan_event e = false → is_make_tx e = false → (∀ msg, e ≠ LogInfo msg) →
  ∃ l t lt a ta,
    plan_request env mixdepth daa answeryes cca = (Next l, t)
    ∧ locktime env mixdepth (utxos l) = (Next lt, [])
    ∧ assemble env optin_rbf l lt = (Next a, ta)
    ∧ run = ((finish (fin l a)).1, t ++ ta ++ (fin l a).2)
    ∧ e ∈ (fin l a).2.
Proof.
  intros Hin Hnp Hnm Hnl.
  assert (∀ t', Forall (λ e, is_plan_event e = true) t' → e ∉ t') as Hplan.
  { intros t' Hall Hin'. rewrite Forall_forall in Hall.
    apply Hall in Hin'. congruence. }
  assert (∀ l lt pre,
            Forall (λ e, ∃ msg, e = LogInfo msg) pre →
            e ∉ pre ++ [MakeShuffledTx (keys (utxos l)) (outs l) 2 lt]) as Hasm.
  { intros l lt pre Hall [Hin'|Hin']%elem_of_app.
    - rewrite Forall_forall in Hall. apply Hall in Hin' as [msg ->].
      by apply (Hnl msg).
    - apply list_elem_of_singleton in Hin'. by subst e. }
  pose proof (plan_request_trace env mixdepth daa cca answeryes) as Htp.
  destruct (direct_send_cases env mixdepth daa answeryes accept_callback
              info_callback error_callback return_transaction with_final_psbt
              optin_rbf cca change_label)
    as [(o & t & Hp & Hr)|[(l & t & o & Hp & Hl & Hr)|
        [(l & t & lt & o & ta & Hp & Hl & Ha & Hr)|
         (l & t & lt & a & ta & Hp & Hl & Ha & Hr)]]];
    rewrite Hp in Htp; cbn [snd] in Htp.
  - rewrite Hr in Hin. by apply Hplan in Hin.
  - rewrite Hr in Hin. by apply Hplan in Hin.
  - rewrite Hr in Hin. cbn [snd] in Hin.
    apply elem_of_app in Hin as [Hin|Hin]; [by apply Hplan in Hin|].
    apply assemble_Stop in Ha as (_ & _ & pre & -> & Hlog).
    by apply Hasm in Hin.
  - exists l, t, lt, a, ta. repeat split; auto.
    rewrite Hr in Hin. cbn [snd] in Hin.
    apply elem_of_app in Hin as [Hin|Hin]; [by apply Hplan in Hin|].
    apply elem_of_app in Hin as [Hin|Hin]; [|done].
    apply assemble_Next in Ha as (_ & _ & pre & -> & Hlog).
    by apply Hasm in Hin.
Qed.
End endings.

(** ** Requests that never touch the inputs *)

Section requests.
Variable env : Env.
Variable mixdepth : Z.
Variable daa : list (string * Z).
Variable answeryes : bool.
Variable accept_callback : option accept_fn.
Variables info_callback error_callback : option (string → unit).
Variables return_transaction with_final_psbt optin_rbf : bool.
Variables cca change_label : option string.

Local Abbreviation run :=
  (direct_send env mixdepth daa answeryes accept_callback info_callback
     error_callback return_transaction with_final_psbt optin_rbf cca change_label).

Lemma sanity_Next_accepted vars t :
  sanity_checks env mixdepth daa answeryes cca = (Next vars, t) →
  request_accepted env mixdepth daa answeryes cca = true.
Proof.
  intros Hs. apply sanity_checks_Next in Hs as (_ & Ha & Hburn & _).
  unfold request_accepted. rewrite Ha. simpl.
  apply forallb_forall. intros tgt Hin%list_elem_of_In.
  destruct (is_burn_destination env tgt.1) eqn:Hb; auto.
Qed.

(** After passed sanity checks the planning retrieves or selects inputs. *)
Lemma plan_touches_inputs vars :
  sanity_checks env mixdepth daa answeryes cca = (Next vars, []) →
  ∃ e, e ∈ (plan env mixdepth daa cca vars).2 ∧ is_input_selection e = true.
Proof.
  intros Hs. apply sanity_checks_Next in Hs as (_ & Ha & _ & _ & Hot & _ & Htgt).
  unfold asserts_hold in Ha. repeat (apply andb_prop in Ha as [Ha ?]).
  destruct daa as [|tgt rest] eqn:Hd; [discriminate|].
  unfold plan. destruct (is_sweep vars).
  - exists GetUtxosByMixdepth. split; [|done]. unfold plan_sweep.
    eapply bind_elem_r; [reflexivity|]. apply bind_elem_l, list_elem_of_here.
  - unfold plan_payment. rewrite Hot, Htgt.
    destruct (last (tgt :: rest)) as [x|] eqn:Hlast;
      [|by apply last_None in Hlast].
    eexists (SelectUtxos _ _). split; [|done].
    eapply bind_elem_r; [reflexivity|]. eapply bind_elem_r; [reflexivity|].
    apply bind_elem_l, list_elem_of_here.
Qed.

(** X1: an empty request, a negative mixdepth, a wallet that is not a
    [BaseWallet] and an invalid custom change address each end the call by
    [AssertionError] before any call is made, the loop over the targets
    included. *)
Theorem failed_precondition_raises :
  (daa = [] ∨ mixdepth < 0 ∨ wallet_is_BaseWallet env = false
   ∨ ∃ a, cca = Some a ∧ validate_address env a = false) →
  run = (Raised AssertionError, []).
Proof.
  intros Hpre. apply direct_send_rejected. unfold plan_request.
  apply bind_of_Stop. unfold sanity_checks.
  destruct daa as [|tgt rest]; [done|]. simpl.
  destruct Hpre as [?|[Hm|[Hw|(a & -> & Hv)]]]; [done| | |].
  - destruct cca as [a|]; [destruct (validate_address env a); [|done]|];
      simpl; apply Z.leb_gt in Hm; by rewrite Hm.
  - destruct cca as [a|]; [destruct (validate_address env a); [|done]|];
      simpl; destruct (0 <=? mixdepth); try done; simpl; by rewrite Hw.
  - by rewrite Hv.
Qed.

(** X2: inputs are retrieved or selected exactly for the requests that
    pass the sanity checks: all assertions true and every burn destination
    permitted. *)
Theorem inputs_touched_iff_accepted :
  (∃ e, e ∈ run.2 ∧ is_input_selection e = true)
  ↔ request_accepted env mixdepth daa answeryes cca = true.
Proof.
  split.
  - intros (e & Hin & Hsel).
    destruct (sanity_checks env mixdepth daa answeryes cca) as [[vars|o] t] eqn:Hs.
    { by eapply sanity_Next_accepted. }
    exfalso.
    rewrite (direct_send_rejected env mixdepth daa answeryes accept_callback
               info_callback error_callback return_transaction with_final_psbt
               optin_rbf cca change_label o t) in Hin.
    2:{ unfold plan_request. by rewrite (bind_of_Stop _ _ _ _ Hs). }
    pose proof (sanity_checks_trace env mixdepth daa answeryes cca) as Hall.
    rewrite Hs in Hall. rewrite Forall_forall in Hall.
    apply Hall in Hin. by destruct e.
  - intros Hacc. destruct (sanity_checks_pass _ _ _ _ _ Hacc) as [vars Hs].
    destruct (plan_touches_inputs vars Hs) as (e & Hin & Hsel).
    exists e. split; [|done].
    rewrite direct_send_eq, finish_trace. apply bind_elem_l.
    unfold plan_request. by eapply bind_elem_r.
Qed.

(** X3: a sweep of a mixdepth without utxos returns [None] after one
    retrieval and one logged error; nothing is built, signed or pushed. *)
Theorem sweep_of_empty_mixdepth tgt :
  request_accepted env mixdepth daa answeryes cca = true →
  tgt ∈ daa → tgt.2 = 0 →
  get_utxos_by_mixdepth env !! mixdepth = Some ∅ →
  run = (RetNone,
         [GetUtxosByMixdepth;
          LogError ("There are no available utxos in mixdepth " +:+
                    pretty mixdepth +:+ ", quitting.")]).
Proof.
  intros Hacc Hin Hz Hu. apply direct_send_rejected. unfold plan_request.
  destruct (sanity_checks_pass _ _ _ _ _ Hacc) as [vars Hs].
  rewrite (bind_of_Next _ _ _ _ Hs).
  apply sanity_checks_Next in Hs as (_ & _ & _ & Hsw & Hot & _ & _).
  assert (is_sweep vars = true) as Hsweep.
  { rewrite Hsw. apply existsb_exists. exists tgt.
    split; [by apply list_elem_of_In|]. by apply Z.eqb_eq. }
  unfold plan, plan_sweep. rewrite Hsweep, Hu.
  destruct daa as [|x rest]; [by apply elem_of_nil in Hin|].
  cbn [bind ret emit app fst snd]. by destruct (decide (∅ = ∅)).
Qed.

(** X4: a sweep of a mixdepth that the dictionary of
    [get_utxos_by_mixdepth] does not hold ends by [KeyError], right after
    the retrieval. *)
Theorem sweep_of_missing_mixdepth tgt :
  request_accepted env mixdepth daa answeryes cca = true →
  tgt ∈ daa → tgt.2 = 0 →
  get_utxos_by_mixdepth env !! mixdepth = None →
  run = (Raised KeyError, [GetUtxosByMixdepth]).
Proof.
  intros Hacc Hin Hz Hu. apply direct_send_rejected. unfold plan_request.
  destruct (sanity_checks_pass _ _ _ _ _ Hacc) as [vars Hs].
  rewrite (bind_of_Next _ _ _ _ Hs).
  apply sanity_checks_Next in Hs as (_ & _ & _ & Hsw & Hot & _ & _).
  assert (is_sweep vars = true) as Hsweep.
  { rewrite Hsw. apply existsb_exists. exists tgt.
    split; [by apply list_elem_of_In|]. by apply Z.eqb_eq. }
  unfold plan, plan_sweep. rewrite Hsweep, Hu.
  destruct daa as [|x rest]; [by apply elem_of_nil in Hin|]. done.
Qed.
End requests.

Lemma failed_precondition_raises_witness :
  send (demo_wallet false one_coin true true true) [] true None
  = (Raised AssertionError, []).
Proof.
  apply (failed_precondition_raises (demo_wallet false one_coin true true true)
           0 [] true None None None false false true None None).
  left. reflexivity.
Defined.

Lemma sweep_of_empty_mixdepth_witness :
  send (demo_wallet false ∅ true true true) [("bc1qalice", 0)] true None
  = (RetNone,
     [GetUtxosByMixdepth;
      LogError "There are no available utxos in mixdepth 0, quitting."]).
Proof.
  apply (sweep_of_empty_mixdepth (demo_wallet false ∅ true true true) 0
           [("bc1qalice", 0)] true None None None false false true None None
           ("bc1qalice", 0)).
  - vm_compute. reflexivity.
  - apply list_elem_of_here.
  - reflexivity.
  - vm_compute. reflexivity.
Defined.

Lemma sweep_of_missing_mixdepth_witness :
  direct_send (demo_wallet false one_coin true true true) 3 [("bc1qalice", 0)]
    true None None None false false true None None
  = (Raised KeyError, [GetUtxosByMixdepth]).
Proof.
  apply (sweep_of_missing_mixdepth (demo_wallet false one_coin true true true) 3
           [("bc1qalice", 0)] true None None None false false true None None
           ("bc1qalice", 0)).
  - vm_compute. reflexivity.
  - apply list_elem_of_here.
  - reflexivity.
  - vm_compute. reflexivity.
Defined.

(** ** The payment plan *)

Section payment.
Variable env : Env.
Variable mixdepth : Z.
Variable daa : list (string * Z).
Variable answeryes : bool.
Variable accept_callback : option accept_fn.
Variables info_callback error_callback : option (string → unit).
Variables return_transaction with_final_psbt optin_rbf : bool.
Variables cca change_label : option string.

Local Abbreviation run :=
  (direct_send env mixdepth daa answeryes accept_callback info_callback
     error_callback return_transaction with_final_psbt optin_rbf cca change_label).

(** The payment branch, with the list of output types it gives to the fee
    estimate and the calls it makes. *)
Lemma plan_payment_full vars txtype l t :
  plan_payment env mixdepth daa cca vars txtype = (Next l, t) →
  ∃ tgt o os change_type,
    let fo := (if is_none o then Some change_type :: os else o :: os)
              ++ [Some change_type] in
    let n_outs := Z.of_nat (length daa) + 1 in
    let initial := estimate_tx_fee env 8 n_outs (TxType txtype) (OutTypes fo) in
    target vars = Some tgt
    ∧ outtypes vars = o :: os
    ∧ (cca = None → change_type = txtype)
    ∧ (∀ a, cca = Some a → a = EmptyString ∨ get_outtype env a = None →
         change_type = txtype)
    ∧ (∀ a ty, cca = Some a → a ≠ EmptyString → get_outtype env a = Some ty →
         change_type = ty)
    ∧ amount l = tgt.2
    ∧ utxos l = select_utxos env mixdepth (tgt.2 + initial)
    ∧ fee_est l =
        (if Z.of_nat (size (utxos l)) <? 8 then
           estimate_tx_fee env (Z.of_nat (size (utxos l))) n_outs
             (TxTypes (get_utxo_scripts env (utxos l))) (OutTypes fo)
         else initial)
    ∧ t = SelectUtxos mixdepth (tgt.2 + initial)
          :: (if is_none cca then [GetInternalAddr mixdepth] else []).
Proof.
  unfold plan_payment. destruct (target vars) as [tgt|]; [|discriminate].
  destruct (outtypes vars) as [|o os]; [discriminate|].
  cbn [bind ret emit app]. intros H.
  exists tgt, o, os,
    (match cca with
     | Some a =>
         if truthy cca then
           match get_outtype env a with
           | None => txtype
           | Some ty => ty
           end
         else txtype
     | None => txtype
     end).
  destruct cca as [a|]; cbn [bind ret emit app] in H; injection H as <- <-;
    cbn [amount utxos fee_est is_none];
    (split; [reflexivity|]); (split; [reflexivity|]).
  - split; [done|]. split; [|split; [|done]].
    + intros ? [= <-] [->|Hn]; [done|]. rewrite Hn. by destruct (truthy _).
    + intros ? ty [= <-] Hne Hty. rewrite Hty. unfold truthy.
      by destruct (String.eqb_spec a EmptyString).
  - done.
Qed.

Lemma payment_not_sweep vars :
  Forall (λ tgt : string * Z, tgt.2 ≠ 0) daa →
  sanity_checks env mixdepth daa answeryes cca = (Next vars, []) →
  is_sweep vars = false.
Proof.
  intros Hpay Hs. apply sanity_checks_Next in Hs as (_ & _ & _ & Hsw & _).
  rewrite Hsw. apply not_true_is_false. intros Hex.
  apply existsb_exists in Hex as (tgt & Hin & Hz).
  rewrite Forall_forall in Hpay. apply list_elem_of_In, Hpay in Hin.
  by apply Z.eqb_eq in Hz.
Qed.

(** X5: in payment mode the fee is the estimate for the inputs actually
    selected, their number and script types, when fewer than 8 were
    selected; with 8 or more it stays the estimate for 8 inputs of the
    wallet's type, the one the selection was made with.  Both estimates are
    for one output more than requested and the same output types. *)
Theorem payment_fee_is_reestimated_below_eight l t :
  Forall (λ tgt : string * Z, tgt.2 ≠ 0) daa →
  plan_request env mixdepth daa answeryes cca = (Next l, t) →
  ∃ fo,
    let n_outs := Z.of_nat (length daa) + 1 in
    let selected := Z.of_nat (size (utxos l)) in
    let conservative :=
      estimate_tx_fee env 8 n_outs (TxType (get_txtype env)) (OutTypes fo) in
    utxos l = select_utxos env mixdepth (amount l + conservative)
    ∧ (selected < 8 →
       fee_est l = estimate_tx_fee env selected n_outs
                     (TxTypes (get_utxo_scripts env (utxos l))) (OutTypes fo))
    ∧ (8 ≤ selected → fee_est l = conservative).
Proof.
  intros Hpay Hp.
  apply plan_request_Next in Hp as (vars & t1 & Hs & Hpl & ->).
  pose proof (payment_not_sweep vars Hpay Hs) as Hns.
  unfold plan in Hpl. rewrite Hns in Hpl.
  apply plan_payment_full in Hpl
    as (tgt & o & os & ct & _ & _ & _ & _ & _ & Ham & Hu & Hfee & _).
  eexists. cbv zeta. rewrite Ham. split; [exact Hu|].
  rewrite Hfee. split; intros Hn.
  - apply Z.ltb_lt in Hn. by rewrite Hn.
  - apply Z.ltb_ge in Hn. by rewrite Hn.
Qed.

(** X6: the output types of the fee estimates of a payment.  There is one
    per requested output, in order, and a last one for the change.  The
    change type is the recognized type of the custom change address, else
    the wallet's type.  Of the requested outputs only the first has an
    unrecognized type replaced by the change type; the others are passed as
    [get_outtype] gives them, unrecognized ones as [None]. *)
Theorem payment_fee_output_types l t :
  Forall (λ tgt : string * Z, tgt.2 ≠ 0) daa →
  plan_request env mixdepth daa answeryes cca = (Next l, t) →
  ∃ fo change_type,
    utxos l = select_utxos env mixdepth
                (amount l + estimate_tx_fee env 8 (Z.of_nat (length daa) + 1)
                              (TxType (get_txtype env)) (OutTypes fo))
    ∧ length fo = S (length daa)
    ∧ fo !! length daa = Some (Some change_type)
    ∧ (∀ d, daa.*1 !! 0%nat = Some d →
         fo !! 0%nat = Some (Some (default change_type (get_outtype env d))))
    ∧ (∀ i d, daa.*1 !! S i = Some d → fo !! S i = Some (get_outtype env d))
    ∧ (cca = None → change_type = get_txtype env)
    ∧ (∀ a, cca = Some a → a = EmptyString ∨ get_outtype env a = None →
         change_type = get_txtype env)
    ∧ (∀ a ty, cca = Some a → a ≠ EmptyString → get_outtype env a = Some ty →
         change_type = ty).
Proof.
  intros Hpay Hp.
  apply plan_request_Next in Hp as (vars & t1 & Hs & Hpl & ->).
  pose proof (payment_not_sweep vars Hpay Hs) as Hns.
  unfold plan in Hpl. rewrite Hns in Hpl.
  apply plan_payment_full in Hpl
    as (tgt & o & os & ct & _ & Hot & Hc1 & Hc2 & Hc3 & Ham & Hu & _ & _).
  apply sanity_checks_Next in Hs as (_ & _ & _ & _ & Hot' & _ & _).
  rewrite Hot in Hot'.
  destruct daa as [|[d0 a0] rest] eqn:Hd; [discriminate|].
  simpl in Hot'. injection Hot' as -> ->.
  eexists _, ct. rewrite Ham. split; [exact Hu|].
  assert (length ((if is_none (get_outtype env d0)
                   then Some ct :: (get_outtype env <$> rest.*1)
                   else get_outtype env d0 :: (get_outtype env <$> rest.*1))
                  ++ [Some ct]) = S (S (length rest))) as Hlen.
  { destruct (is_none _); rewrite length_app; simpl;
      rewrite !length_fmap; lia. }
  split; [exact Hlen|]. repeat split; auto.
  - destruct (is_none _); simpl;
      rewrite lookup_app_r by (rewrite !length_fmap; lia);
      rewrite !length_fmap, Nat.sub_diag; done.
  - intros d [= <-]. by destruct (get_outtype env d0).
  - intros i d Hi. simpl in Hi.
    pose proof (lookup_lt_Some _ _ _ Hi) as Hlt. rewrite length_fmap in Hlt.
    destruct (is_none _); simpl;
      rewrite lookup_app_l by (rewrite !length_fmap; lia);
      by rewrite list_lookup_fmap, Hi.
Qed.

(** X7: planning an accepted payment cannot fail.  It makes one selection
    call, asks the wallet for an internal address only when no custom
    change address is given, and puts the change last in the outputs, at
    the custom address or else at the internal one. *)
Theorem payment_plan_calls :
  request_accepted env mixdepth daa answeryes cca = true →
  Forall (λ tgt : string * Z, tgt.2 ≠ 0) daa →
  ∃ l minimum cv,
    let change := from_option id (get_internal_addr env mixdepth) cca in
    plan_request env mixdepth daa answeryes cca =
      (Next l, SelectUtxos mixdepth minimum
               :: (if is_none cca then [GetInternalAddr mixdepth] else []))
    ∧ utxos l = select_utxos env mixdepth minimum
    ∧ outs l = requested_outs daa ++ [{| out_value := cv; out_address := change |}]
    ∧ change_addr l = Some change.
Proof.
  intros Hacc Hpay. destruct (sanity_checks_pass _ _ _ _ _ Hacc) as [vars Hs].
  pose proof (payment_not_sweep vars Hpay Hs) as Hns.
  unfold plan_request. rewrite (bind_of_Next _ _ _ _ Hs). cbn [app].
  destruct (plan env mixdepth daa cca vars) as [[l|o] t] eqn:Hpl.
  2:{ apply (plan_Stop env mixdepth daa answeryes cca vars o t Hs) in Hpl
        as [Hsw _]. congruence. }
  unfold plan in Hpl. rewrite Hns in Hpl.
  destruct (plan_payment_full _ _ _ _ Hpl)
    as (tgt & o & os & ct & _ & _ & _ & _ & _ & _ & Hu & _ & Ht).
  destruct (plan_payment_Next _ _ _ _ _ _ _ _ Hpl)
    as (tgt' & fo & cv & ca & _ & _ & _ & _ & _ & _ & _ & _ & Hca & -> & Houts & _).
  cbv zeta in *. eexists l, _, cv. cbn [fst snd].
  split; [by rewrite Ht|]. split; [exact Hu|]. by split.
Qed.
End payment.

Lemma payment_fee_is_reestimated_below_eight_witness :
  ∃ fo,
    let env := demo_wallet false one_coin true true true in
    let n_outs := Z.of_nat (length [("bc1qalice", 50000)]) + 1 in
    let selected := Z.of_nat (size (utxos demo_payment_plan)) in
    let conservative :=
      estimate_tx_fee env 8 n_outs (TxType (get_txtype env)) (OutTypes fo) in
    utxos demo_payment_plan
      = select_utxos env 0 (amount demo_payment_plan + conservative)
    ∧ (selected < 8 →
       fee_est demo_payment_plan
       = estimate_tx_fee env selected n_outs
           (TxTypes (get_utxo_scripts env (utxos demo_payment_plan)))
           (OutTypes fo))
    ∧ (8 ≤ selected → fee_est demo_payment_plan = conservative).
Proof.
  apply (payment_fee_is_reestimated_below_eight
           (demo_wallet false one_coin true true true) 0 [("bc1qalice", 50000)]
           false None demo_payment_plan [SelectUtxos 0 50900; GetInternalAddr 0]).
  - repeat constructor. simpl. lia.
  - vm_compute. reflexivity.
Defined.

Lemma payment_fee_output_types_witness :
  ∃ fo change_type,
    let env := demo_wallet false one_coin true true true in
    let daa := [("bc1unknown", 50000); ("bc1other", 7)] in
    utxos demo_payment_plan
      = select_utxos env 0
          (7 + estimate_tx_fee env 8 (Z.of_nat (length daa) + 1)
                 (TxType (get_txtype env)) (OutTypes fo))
    ∧ length fo = S (length daa)
    ∧ fo !! length daa = Some (Some change_type)
    ∧ (∀ d, daa.*1 !! 0%nat = Some d →
         fo !! 0%nat = Some (Some (default change_type (get_outtype env d))))
    ∧ (∀ i d, daa.*1 !! S i = Some d → fo !! S i = Some (get_outtype env d))
    ∧ (@None string = None → change_type = get_txtype env)
    ∧ (∀ a, @None string = Some a → a = EmptyString ∨ get_outtype env a = None →
         change_type = get_txtype env)
    ∧ (∀ a ty, @None string = Some a → a ≠ EmptyString → get_outtype env a = Some ty →
         change_type = ty).
Proof.
  apply (payment_fee_output_types
           (demo_wallet false one_coin true true true) 0
           [("bc1unknown", 50000); ("bc1other", 7)] false None
           {| destination := "bc1other"; amount := 7; utxos := one_coin;
              fee_est := 250; total_inputs_val := 100000;
              outs := [{| out_value := 50000; out_address := "bc1unknown" |};
                       {| out_value := 7; out_address := "bc1other" |};
                       {| out_value := 49743; out_address := "bc1qchange" |}];
              changeval := Some 49743; change_addr := Some "bc1qchange" |}
           [SelectUtxos 0 957; GetInternalAddr 0]).
  - repeat constructor; simpl; lia.
  - vm_compute. reflexivity.
Defined.

Lemma payment_plan_calls_witness :
  ∃ l minimum cv,
    let env := demo_wallet false one_coin true true true in
    let change := from_option id (get_internal_addr env 0) (Some "bc1qmine") in
    plan_request env 0 [("bc1qalice", 50000)] false (Some "bc1qmine") =
      (Next l, SelectUtxos 0 minimum
               :: (if is_none (Some "bc1qmine") then [GetInternalAddr 0] else []))
    ∧ utxos l = select_utxos env 0 minimum
    ∧ outs l = requested_outs [("bc1qalice", 50000)]
               ++ [{| out_value := cv; out_address := change |}]
    ∧ change_addr l = Some change.
Proof.
  apply (payment_plan_calls (demo_wallet false one_coin true true true) 0
           [("bc1qalice", 50000)] false (Some "bc1qmine")).
  - vm_compute. reflexivity.
  - repeat constructor. simpl. lia.
Defined.

(** ** Signing, confirmation and broadcast *)

(** Splits a membership in an explicit trace into its positions. *)
Ltac split_in H :=
  repeat first
    [ apply elem_of_app in H as [H|H]
    | apply elem_of_cons in H as [H|H]
    | (apply elem_of_nil in H; destruct H) ].

Section signing.
Variable env : Env.
Variable mixdepth : Z.
Variable daa : list (string * Z).
Variable answeryes : bool.
Variable accept_callback : option accept_fn.
Variables info_callback error_callback : option (string → unit).
Variables return_transaction with_final_psbt optin_rbf : bool.
Variables cca change_label : option string.

Local Abbreviation run :=
  (direct_send env mixdepth daa answeryes accept_callback info_callback
     error_callback return_transaction with_final_psbt optin_rbf cca change_label).

Local Abbreviation fin l a :=
  (finalize env answeryes accept_callback info_callback error_callback
     return_transaction with_final_psbt cca change_label l a).

Local Abbreviation cases l a :=
  (finalize_cases env answeryes accept_callback info_callback error_callback
     return_transaction with_final_psbt cca change_label l a).

Local Abbreviation late e :=
  (late_event env mixdepth daa answeryes accept_callback info_callback
     error_callback return_transaction with_final_psbt optin_rbf cca
     change_label e).

Lemma confirm_kind t l amt r tc e :
  confirm env answeryes accept_callback cca t l amt = (r, tc) →
  e ∈ tc → is_confirmation e = true ∨ ∃ msg, e = LogInfo msg.
Proof.
  intros Hc Hin.
  pose proof (confirm_trace_kind env answeryes accept_callback cca t l amt) as H.
  rewrite Hc in H. rewrite Forall_forall in H. by apply H.
Qed.

Lemma label_kind l r tl e :
  label_change env change_label l = (r, tl) → e ∈ tl → is_label e = true.
Proof.
  intros Hl Hin. pose proof (label_change_trace_kind env change_label l) as H.
  rewrite Hl in H. rewrite Forall_forall in H. by apply H.
Qed.

(** X8: only a transaction that [sign_tx] signed is pushed: every pushed
    serialization is that of the transaction as [sign_tx] left it, and
    [sign_tx] reported success. *)
Theorem pushed_transaction_is_the_signed_one raw :
  PushTx raw ∈ run.2 →
  ∃ t ins,
    SignTx t ins ∈ run.2
    ∧ (sign_tx env t ins).1.1 = true
    ∧ raw = tx_serialize env (sign_tx env t ins).2.
Proof.
  intros Hin.
  apply (late _) in Hin as (l & t & lt & a & ta & _ & _ & _ & Hr & Hin); try done.
  assert (SignTx a.1.1 a.1.2 ∈ (fin l a).2 → SignTx a.1.1 a.1.2 ∈ run.2) as Hsub.
  { intros ?. rewrite Hr. cbn [snd]. rewrite !elem_of_app. auto. }
  destruct (cases l a)
    as [(_ & _ & msg & Hf)|[(_ & _ & m1 & m2 & Hf)|[(_ & _ & msg & Hf)|
        (_ & Hs & m1 & m2 & m3 & tc & Hrest)]]]; cbv zeta in *.
  1-3: rewrite Hf in Hin; cbn [snd] in Hin; split_in Hin; discriminate.
  destruct Hrest as [[Hc Hf]|[(Hc & _ & _ & Hf)|(tl & Hc & Hl & Hpush)]].
  - rewrite Hf in Hin. cbn [snd] in Hin. split_in Hin; try discriminate.
    by destruct (confirm_kind _ _ _ _ _ _ Hc Hin) as [?|[? ?]].
  - rewrite Hf in Hin. cbn [snd] in Hin. split_in Hin; try discriminate.
    by destruct (confirm_kind _ _ _ _ _ _ Hc Hin) as [?|[? ?]].
  - exists a.1.1, a.1.2.
    destruct Hpush as [[Hp Hf]|[Hp Hf]]; rewrite Hf in Hin, Hsub;
      cbn [snd] in Hin, Hsub.
    all: split; [apply Hsub, list_elem_of_here|]; split; [done|].
    all: split_in Hin; try discriminate;
      try (by destruct (confirm_kind _ _ _ _ _ _ Hc Hin) as [?|[? ?]]);
      try (by apply (label_kind _ _ _ _ Hl) in Hin);
      try (by injection Hin);
      try (by destruct info_callback);
      try (by destruct error_callback).
Qed.

(** The transaction and the data that the signing stage hands on are those
    of the construction. *)
Lemma signing_event_args l a :
  (∀ t ins, SignTx t ins ∈ (fin l a).2 → t = a.1.1 ∧ ins = a.1.2)
  ∧ (∀ t so, CreatePsbtFromTx t so ∈ (fin l a).2 → t = a.1.1 ∧ so = a.2).
Proof.
  destruct (cases l a)
    as [(_ & _ & msg & Hf)|[(_ & _ & m1 & m2 & Hf)|[(_ & _ & msg & Hf)|
        (_ & Hs & m1 & m2 & m3 & tc & Hrest)]]]; cbv zeta in *.
  1-3: rewrite Hf; cbn [snd]; split; intros ? ? Hin; split_in Hin;
    try discriminate; by injection Hin as -> ->.
  destruct Hrest as [[Hc Hf]|[(Hc & _ & _ & Hf)|(tl & Hc & Hl & Hpush)]].
  3: destruct Hpush as [[Hp Hf]|[Hp Hf]].
  all: rewrite Hf; cbn [snd]; split; intros ? ? Hin; split_in Hin;
    try discriminate;
    try (by injection Hin as -> ->);
    try (by destruct (confirm_kind _ _ _ _ _ _ Hc Hin) as [?|[? ?]]);
    try (by apply (label_kind _ _ _ _ Hl) in Hin);
    try (by destruct info_callback);
    try (by destruct error_callback).
Qed.

(** X9: the transaction handed to [sign_tx] or to [create_psbt_from_tx] is
    the one [make_shuffled_tx] returned for the plan, with the same
    outputs, version, locktime and spent outpoints; with [optin_rbf] every
    input has the sequence number 0xfffffffd, without it nothing is
    changed. *)
Theorem signer_gets_the_built_transaction t :
  (∃ ins, SignTx t ins ∈ run.2) ∨ (∃ so, CreatePsbtFromTx t so ∈ run.2) →
  ∃ l lt,
    let built := make_shuffled_tx env (keys (utxos l)) (outs l) 2 lt in
    MakeShuffledTx (keys (utxos l)) (outs l) 2 lt ∈ run.2
    ∧ vout t = vout built
    ∧ nVersion t = nVersion built
    ∧ nLockTime t = nLockTime built
    ∧ spent_outpoint <$> vin t = spent_outpoint <$> vin built
    ∧ (if optin_rbf
       then Forall (λ inp, nSequence inp = 0xffffffff - 2) (vin t)
       else t = built).
Proof.
  intros Hev.
  assert (∃ l p lt a ta,
            plan_request env mixdepth daa answeryes cca = (Next l, p)
            ∧ locktime env mixdepth (utxos l) = (Next lt, [])
            ∧ assemble env optin_rbf l lt = (Next a, ta)
            ∧ t = a.1.1) as (l & p & lt & a & ta & Hp & Hl & Ha & ->).
  { destruct Hev as [[ins Hin]|[so Hin]];
      apply (late _) in Hin as (l & p & lt & a & ta & Hp & Hl & Ha & _ & Hin);
      try done; exists l, p, lt, a, ta; repeat split; auto;
      by apply signing_event_args in Hin as [-> _]. }
  exists l, lt. cbv zeta. split; [by eapply direct_send_makes_tx|].
  apply assemble_Next in Ha as (-> & _).
  apply with_sequences_spec.
Qed.

(** X10: [sign_tx] gets, for every input of the transaction, the script
    and the value of the utxo that the input spends, at the index of the
    input. *)
Theorem sign_tx_gets_the_spent_utxos t ins :
  SignTx t ins ∈ run.2 →
  ∃ l p,
    plan_request env mixdepth daa answeryes cca = (Next l, p)
    ∧ ∀ i txinp, vin t !! i = Some txinp →
        ∃ va, utxos l !! spent_outpoint txinp = Some va
              ∧ ins !! i = Some (script va, value va).
Proof.
  intros Hin.
  apply (late _) in Hin as (l & p & lt & a & ta & Hp & Hl & Ha & _ & Hin);
    try done.
  apply signing_event_args in Hin as [-> ->].
  exists l, p. split; [done|]. intros i txinp Hi.
  apply assemble_Next in Ha as (_ & Hloop & _).
  apply collect_inputs_Next in Hloop as (_ & _ & _ & _ & Hall).
  destruct (Hall i txinp Hi) as (va & Hva & Hins & _). by exists va.
Qed.

(** X11: [create_psbt_from_tx] gets one spent output per input of the
    transaction, in the order of the inputs, each with the value and the
    script of the utxo that the input spends. *)
Theorem psbt_gets_the_spent_outputs t so :
  CreatePsbtFromTx t so ∈ run.2 →
  ∃ l p,
    plan_request env mixdepth daa answeryes cca = (Next l, p)
    ∧ length so = length (vin t)
    ∧ ∀ i txinp, vin t !! i = Some txinp →
        ∃ va, utxos l !! spent_outpoint txinp = Some va
              ∧ so !! i = Some (spent_out va).
Proof.
  intros Hin.
  apply (late _) in Hin as (l & p & lt & a & ta & Hp & Hl & Ha & _ & Hin);
    try done.
  apply signing_event_args in Hin as [-> ->].
  exists l, p. split; [done|].
  apply assemble_Next in Ha as (_ & Hloop & _).
  apply collect_inputs_Next in Hloop as (_ & Hlen & _ & _ & Hall).
  split; [exact Hlen|]. intros i txinp Hi.
  destruct (Hall i txinp Hi) as (va & Hva & _ & Hso). by exists va.
Qed.

(** X12: when [make_shuffled_tx] returns an input whose outpoint is not
    among the planned utxos, the lookup of line 176 raises [KeyError]:
    nothing is signed and nothing is pushed. *)
Theorem unknown_input_raises_key_error l p lt txinp :
  plan_request env mixdepth daa answeryes cca = (Next l, p) →
  locktime env mixdepth (utxos l) = (Next lt, []) →
  txinp ∈ vin (make_shuffled_tx env (keys (utxos l)) (outs l) 2 lt) →
  utxos l !! spent_outpoint txinp = None →
  run.1 = Raised KeyError
  ∧ Forall (λ e, is_signing e = false ∧ is_push e = false) run.2.
Proof.
  intros Hp Hl Hin Hnone.
  destruct (assemble_run env optin_rbf l lt) as (pre & Hlog & Ha). cbv zeta in Ha.
  destruct (with_sequences_spec optin_rbf
              (make_shuffled_tx env (keys (utxos l)) (outs l) 2 lt))
    as (_ & _ & _ & Hsame & _).
  apply list_elem_of_lookup in Hin as [i Hi].
  assert ((spent_outpoint <$> vin (with_sequences optin_rbf
             (make_shuffled_tx env (keys (utxos l)) (outs l) 2 lt))) !! i
          = Some (spent_outpoint txinp)) as Hi'
    by (by rewrite Hsame, list_lookup_fmap, Hi).
  rewrite list_lookup_fmap in Hi'.
  destruct (vin (with_sequences _ _) !! i) as [x|] eqn:Hx; [|done].
  apply (inj Some) in Hi'.
  rewrite (collect_inputs_missing (utxos l) _ 0 (∅, []) x) in Ha.
  2:{ by eapply list_elem_of_lookup_2. }
  2:{ by rewrite Hi'. }
  rewrite direct_send_eq, (finish_bind_Next _ _ _ _ Hp),
    (finish_bind_Next _ _ _ _ Hl), (finish_bind_Stop _ _ _ _ Ha).
  cbn [fst snd app]. split; [done|].
  pose proof (plan_request_trace env mixdepth daa cca answeryes) as Hplan.
  rewrite Hp in Hplan. cbn [snd] in Hplan.
  apply Forall_app. split.
  - eapply Forall_impl; [exact Hplan|]. by intros [].
  - apply Forall_app. split; [|by repeat constructor].
    eapply Forall_impl; [exact Hlog|]. by intros ? [? ->].
Qed.
End signing.

(** ** What the caller is told *)

Lemma last_snoc2 {A} (l : list A) (x y : A) : last (l ++ [x; y]) = Some y.
Proof. change [x; y] with ([x] ++ [y]). by rewrite app_assoc, last_snoc. Qed.

Section outcomes.
Variable env : Env.
Variable mixdepth : Z.
Variable daa : list (string * Z).
Variable answeryes : bool.
Variable accept_callback : option accept_fn.
Variables info_callback error_callback : option (string → unit).
Variables return_transaction with_final_psbt optin_rbf : bool.
Variables cca change_label : option string.

Local Abbreviation run :=
  (direct_send env mixdepth daa answeryes accept_callback info_callback
     error_callback return_transaction with_final_psbt optin_rbf cca change_label).

Local Abbreviation fin l a :=
  (finalize env answeryes accept_callback info_callback error_callback
     return_transaction with_final_psbt cca change_label l a).

Local Abbreviation cases l a :=
  (finalize_cases env answeryes accept_callback info_callback error_callback
     return_transaction with_final_psbt cca change_label l a).

Local Abbreviation late e :=
  (late_event env mixdepth daa answeryes accept_callback info_callback
     error_callback return_transaction with_final_psbt optin_rbf cca
     change_label e).

Local Abbreviation stages :=
  (direct_send_cases env mixdepth daa answeryes accept_callback info_callback
     error_callback return_transaction with_final_psbt optin_rbf cca change_label).

Lemma plan_request_Stop_failure o t :
  plan_request env mixdepth daa answeryes cca = (Stop o, t) → is_failure o = true.
Proof.
  unfold plan_request. intros [Hs|(vars & t1 & t2 & Hs & Hpl & _)]%bind_Stop.
  - by apply sanity_checks_Stop in Hs as [[-> _]|[-> _]].
  - pose proof (sanity_checks_Next _ _ _ _ _ _ _ Hs) as [-> _].
    by apply (plan_Stop env mixdepth daa answeryes cca vars o t2 Hs) in Hpl
      as [_ [(_ & -> & _)|(_ & -> & _)]].
Qed.

(** A request accepted as a sweep has one target. *)
Lemma sweep_single :
  asserts_hold env mixdepth daa cca = true →
  existsb (λ tgt : string * Z, tgt.2 =? 0) daa = true →
  ∃ d, daa = [(d, 0)].
Proof.
  unfold asserts_hold. intros Ha Hex.
  apply andb_prop in Ha as [_ Hall].
  apply existsb_exists in Hex as (tgt & Hin & Hz).
  rewrite forallb_forall in Hall. pose proof (Hall _ Hin) as Ht.
  unfold target_asserts in Ht. rewrite Hz in Ht.
  apply andb_prop in Ht as [Ht _]. apply andb_prop in Ht as [_ Ht].
  apply andb_prop in Ht as [_ Hlen]. apply Nat.eqb_eq in Hlen.
  destruct daa as [|x [|y rest]]; try discriminate.
  destruct Hin as [->|[]]. apply Z.eqb_eq in Hz.
  destruct tgt as [d z]. simpl in Hz. subst z. by exists d.
Qed.

(** The destination and the amount that the later stages report are those
    of the last target; only a payment has a change address. *)
Lemma plan_request_target l p :
  plan_request env mixdepth daa answeryes cca = (Next l, p) →
  last daa = Some (destination l, amount l)
  ∧ (∀ addr, change_addr l = Some addr →
       Forall (λ tgt : string * Z, tgt.2 ≠ 0) daa
       ∧ addr = from_option id (get_internal_addr env mixdepth) cca)
  ∧ (amount l = 0 →
     outs l = [{| out_value := total_inputs_val l - fee_est l;
                  out_address := destination l |}])
  ∧ total_inputs_val l = sum (input_values (utxos l)).
Proof.
  intros Hp. apply plan_request_Next in Hp as (vars & t1 & Hs & Hpl & ->).
  apply sanity_checks_Next in Hs as (_ & Ha & _ & Hsw & _ & _ & Htgt).
  unfold plan in Hpl. destruct (is_sweep vars) eqn:Hv.
  - symmetry in Hsw. destruct (sweep_single Ha Hsw) as [d Hd].
    apply plan_sweep_Next in Hpl as (tgt & u & o0 & Hhd & _ & _ & _ & _ & ->).
    rewrite Hd in Hhd |- *. injection Hhd as <-. simpl. repeat split; done.
  - apply plan_payment_Next in Hpl
      as (tgt & fo & cv & ca & Ht & Hdest & Ham & _ & _ & Hti & _ & _ & Hca & -> & _).
    rewrite Hdest, Ham, <- Htgt, Ht. split; [by destruct tgt|].
    split; [|split; [|exact Hti]].
    + intros addr Haddr. rewrite Hca in Haddr. injection Haddr as <-.
      split; [|done]. apply Forall_forall. intros x Hin Hz.
      assert (existsb (λ tgt : string * Z, tgt.2 =? 0) daa = true) as Hex.
      { apply existsb_exists. exists x. split; [by apply list_elem_of_In|].
        by apply Z.eqb_eq. }
      congruence.
    + intros Hz. exfalso.
      assert (existsb (λ tgt : string * Z, tgt.2 =? 0) daa = true) as Hex.
      { apply existsb_exists. exists tgt. split.
        - apply list_elem_of_In. eapply last_Some_elem_of. by rewrite <- Htgt.
        - by apply Z.eqb_eq. }
      congruence.
Qed.

(** X13: a result other than [None], [False] or an exception means one of
    two things.  With [with_final_psbt] it is the PSBT as [sign_psbt]
    returned it, deserialized, and [sign_psbt] gave no error.  Otherwise
    the signed transaction was pushed and [pushtx] answered true; the result
    is the transaction if [return_transaction], else its txid, and the last
    event is the report of that txid, through [info_callback] if given. *)
Theorem success_means_pushed_or_psbt :
  is_failure run.1 = false →
  (with_final_psbt = true
   ∧ ∃ t so,
       let signed := sign_psbt env (psbt_serialize env (create_psbt_from_tx env t so)) in
       CreatePsbtFromTx t so ∈ run.2
       ∧ truthy signed.2 = false
       ∧ run.1 = RetPsbt (psbt_deserialize env signed.1))
  ∨ (with_final_psbt = false
     ∧ ∃ t ins,
         let signed := (sign_tx env t ins).2 in
         let txid := bintohex env (String.rev (GetTxid env signed)) in
         SignTx t ins ∈ run.2
         ∧ PushTx (tx_serialize env signed) ∈ run.2
         ∧ pushtx env (tx_serialize env signed) = true
         ∧ run.1 = (if return_transaction then RetTx signed else RetTxid txid)
         ∧ last run.2 = Some (report info_callback LogInfo InfoCallback
                                ("Transaction sent: " +:+ txid))).
Proof.
  intros Hok.
  destruct stages
    as [(o & t & Hp & Hr)|[(l & t & o & Hp & Hl & Hr)|
        [(l & t & lt & o & ta & Hp & Hl & Ha & Hr)|
         (l & t & lt & a & ta & Hp & Hl & Ha & Hr)]]];
    rewrite Hr in Hok |- *; cbn [fst snd] in *.
  - apply plan_request_Stop_failure in Hp. congruence.
  - apply locktime_Stop in Hl. by subst o.
  - apply assemble_Stop in Ha as [-> _]. done.
  - destruct (cases l a)
      as [(_ & _ & msg & Hf)|[(Hw & Herr & m1 & m2 & Hf)|[(_ & _ & msg & Hf)|
          (Hw & Hs & m1 & m2 & m3 & tc & Hrest)]]]; cbv zeta in *.
    1, 3: by rewrite Hf in Hok.
    + left. split; [done|]. exists a.1.1, a.2. rewrite Hf. cbn [fst snd finish].
      split; [|done]. rewrite !elem_of_app. right; right. apply list_elem_of_here.
    + destruct Hrest as [[Hc Hf]|[(Hc & _ & _ & Hf)|(tl & Hc & Hl' & Hpush)]].
      1, 2: by rewrite Hf in Hok.
      destruct Hpush as [[Hpu Hf]|[Hpu Hf]]; [|by rewrite Hf in Hok].
      right. split; [done|]. exists a.1.1, a.1.2. rewrite Hf. cbn [fst snd finish].
      split; [rewrite !elem_of_app; right; right; left; apply list_elem_of_here|].
      split.
      { rewrite !elem_of_app. do 5 right. apply list_elem_of_here. }
      split; [done|]. split; [done|].
      by rewrite !(assoc_L (++)), last_snoc2.
Qed.

Local Ltac fin_cases H :=
  destruct H
    as [(Hw & Herr & msg & Hf)|[(Hw & Herr & m1 & m2 & Hf)|[(Hw & Hs & msg & Hf)|
        (Hw & Hs & m1 & m2 & m3 & tc &
         [[Hc Hf]|[(Hc & Htr & Hca & Hf)|(tl & Hc & Hl' & [[Hpu Hf]|[Hpu Hf]])]])]]];
  cbv zeta in *.

(** Finds the position of an event in the explicit trace of the signing
    stage; [Hc] and [Hl] are the equations of the confirmation and of the
    label step. *)
Local Ltac locate Hin :=
  cbn [snd] in Hin; split_in Hin; try discriminate;
  try match goal with
      | Hc : confirm _ _ _ _ _ _ _ = (_, ?tc), H : _ ∈ ?tc |- _ =>
          by destruct (confirm_kind _ _ _ _ _ _ _ _ _ _ Hc H) as [?|[? ?]]
      end;
  try match goal with
      | Hl : label_change _ _ _ = (_, ?tl), H : _ ∈ ?tl |- _ =>
          by apply (label_kind _ _ _ _ _ _ Hl) in H
      end;
  try (by destruct info_callback);
  try (by destruct error_callback).

(** X14: when [pushtx] answers false, the call returns [False] and its last
    event is the report of the failed broadcast, through [error_callback]
    if given, else through [log.error]. *)
Theorem failed_push_is_reported raw :
  PushTx raw ∈ run.2 →
  pushtx env raw = false →
  run.1 = RetFalse
  ∧ last run.2 = Some (report error_callback LogError ErrorCallback
                         "Transaction broadcast failed!").
Proof.
  intros Hin Hfail.
  apply (late _) in Hin as (l & t & lt & a & ta & _ & _ & _ & -> & Hin);
    try done.
  cbn [fst snd]. fin_cases (cases l a); rewrite Hf in Hin |- *;
    cbn [fst snd finish]; locate Hin.
  - injection Hin as ->. congruence.
  - split; [done|]. by rewrite !(assoc_L (++)), last_snoc2.
Qed.

(** X15: once the PSBT is created the result depends on [sign_psbt] only:
    [False] when it reports an error, else the PSBT it returned,
    deserialized. *)
Theorem psbt_result t so :
  CreatePsbtFromTx t so ∈ run.2 →
  let signed := sign_psbt env (psbt_serialize env (create_psbt_from_tx env t so)) in
  with_final_psbt = true
  ∧ SignPsbt (psbt_serialize env (create_psbt_from_tx env t so)) ∈ run.2
  ∧ run.1 = (if truthy signed.2 then RetFalse
             else RetPsbt (psbt_deserialize env signed.1)).
Proof.
  intros Hin.
  apply (late _) in Hin as (l & p & lt & a & ta & _ & _ & _ & -> & Hin);
    try done.
  cbn [fst snd]. fin_cases (cases l a); rewrite Hf in Hin |- *;
    cbn [fst snd finish]; locate Hin.
  all: injection Hin as -> ->; rewrite Herr; split; [done|]; split; [|done].
  all: rewrite !elem_of_app; right; right;
    apply list_elem_of_further, list_elem_of_here.
Qed.

(** X16: the accept callback is shown the fee of the plan, the custom
    change address as given, and the destination of the last target with
    its amount; for a sweep (amount 0) the amount shown is the value of the
    sole output, the sum of the inputs minus the fee.  Earlier targets of a
    payment are not shown. *)
Theorem accept_callback_is_shown_the_last_target txt dest amt fee change :
  AcceptCallback txt dest amt fee change ∈ run.2 →
  answeryes = false ∧ change = cca
  ∧ ∃ l p,
      plan_request env mixdepth daa answeryes cca = (Next l, p)
      ∧ last daa = Some (dest, amount l)
      ∧ fee = fee_est l
      ∧ amt = (if amount l =? 0 then sum (input_values (utxos l)) - fee_est l
               else amount l).
Proof.
  intros Hin.
  apply (late _) in Hin as (l & p & lt & a & ta & Hp & _ & _ & _ & Hin);
    try done.
  destruct (plan_request_target l p Hp) as (Hlast & _ & _ & Hti).
  assert (answeryes = false ∧ change = cca ∧ dest = destination l
          ∧ fee = fee_est l
          ∧ amt = (if negb (amount l =? 0) then amount l
                   else total_inputs_val l - fee_est l))
    as (Hno & Hch & -> & Hfee & Hamt).
  { fin_cases (cases l a); rewrite Hf in Hin; cbn [snd] in Hin; split_in Hin;
      try discriminate;
      try (by apply (label_kind _ _ _ _ _ _ Hl') in Hin);
      try (by destruct info_callback);
      try (by destruct error_callback).
    all: destruct (confirm_cases env answeryes accept_callback cca
                     (sign_tx env a.1.1 a.1.2).2 l
                     (if negb (amount l =? 0) then amount l
                      else total_inputs_val l - fee_est l))
           as [[_ Hc']|[(_ & _ & _ & Hc')|[(_ & _ & _ & Hc')|
               [(cb & Hno & _ & _ & Hc')|(cb & Hno & _ & _ & Hc')]]]];
      cbv zeta in Hc'; rewrite Hc in Hc'; simplify_eq;
      split_in Hin; try discriminate; by injection Hin as -> -> -> -> ->. }
  split; [done|]. split; [done|]. exists l, p. repeat split; auto.
  rewrite Hamt, Hti. by destruct (amount l =? 0).
Qed.

(** X17: confirmation is asked only without [answeryes], off the PSBT
    path, and after [sign_tx] succeeded; through the accept callback when
    one is given, else at the prompt. *)
Theorem confirmation_is_asked_after_signing e :
  e ∈ run.2 → is_confirmation e = true →
  answeryes = false ∧ with_final_psbt = false
  ∧ (∃ t ins, SignTx t ins ∈ run.2 ∧ (sign_tx env t ins).1.1 = true)
  ∧ match accept_callback with
    | None => e = CliPromptUserYesNo "Would you like to push to the network?"
    | Some _ => ∃ txt dest amt fee, e = AcceptCallback txt dest amt fee cca
    end.
Proof.
  intros Hin Hk.
  apply (late _) in Hin as (l & p & lt & a & ta & _ & _ & _ & Hr & Hin);
    try (by destruct e).
  assert (SignTx a.1.1 a.1.2 ∈ (fin l a).2 → SignTx a.1.1 a.1.2 ∈ run.2) as Hsub.
  { intros ?. rewrite Hr. cbn [snd]. rewrite !elem_of_app. auto. }
  fin_cases (cases l a); rewrite Hf in Hin, Hsub; cbn [snd] in Hin, Hsub;
    split_in Hin; try (by subst e);
    try (by apply (label_kind _ _ _ _ _ _ Hl') in Hin; destruct e);
    try (by destruct info_callback; subst e);
    try (by destruct error_callback; subst e).
  all: destruct (confirm_cases env answeryes accept_callback cca
                   (sign_tx env a.1.1 a.1.2).2 l
                   (if negb (amount l =? 0) then amount l
                    else total_inputs_val l - fee_est l))
         as [[_ Hc']|[(Hno & Hcb & _ & Hc')|[(Hno & Hcb & _ & Hc')|
             [(cb & Hno & Hcb & _ & Hc')|(cb & Hno & Hcb & _ & Hc')]]]];
    cbv zeta in Hc'; rewrite Hc in Hc'; simplify_eq;
    split_in Hin; try (by subst e).
  all: split; [done|]; split; [done|];
    (split; [exists a.1.1, a.1.2; split; [apply Hsub, list_elem_of_here|done]|]);
    try rewrite Hcb; subst e; eauto.
Qed.

(** X18: a label is set only for a non-empty [change_label] of a payment,
    on the change address of that payment (the custom one if given, else
    the internal one), and the push follows the label call. *)
Theorem label_goes_to_the_change_address addr lbl :
  SetAddressLabel addr lbl ∈ run.2 →
  change_label = Some lbl ∧ lbl ≠ EmptyString
  ∧ Forall (λ tgt : string * Z, tgt.2 ≠ 0) daa
  ∧ addr = from_option id (get_internal_addr env mixdepth) cca
  ∧ ∃ raw, PushTx raw ∈ run.2.
Proof.
  intros Hin.
  apply (late _) in Hin as (l & p & lt & a & ta & Hp & _ & _ & Hr & Hin);
    try done.
  destruct (plan_request_target l p Hp) as (_ & Hchange & _).
  assert (∀ raw, PushTx raw ∈ (fin l a).2 → PushTx raw ∈ run.2) as Hsub.
  { intros raw ?. rewrite Hr. cbn [snd]. rewrite !elem_of_app. auto. }
  fin_cases (cases l a); rewrite Hf in Hin, Hsub; cbn [snd] in Hin, Hsub;
    split_in Hin; try discriminate;
    try (by destruct (confirm_kind _ _ _ _ _ _ _ _ _ _ Hc Hin) as [?|[? ?]]);
    try (by destruct info_callback);
    try (by destruct error_callback).
  all: destruct (label_change_cases env change_label l)
         as [[_ Hl'']|[(lbl' & addr' & Hlbl & Hne & Haddr & Hl'')|(_ & _ & Hl'')]];
    rewrite Hl' in Hl''; simplify_eq;
    split_in Hin; injection Hin as -> ->.
  all: destruct (Hchange _ Haddr) as [Hpay ->]; repeat split; auto.
  all: eexists; apply Hsub; rewrite !elem_of_app; do 3 right;
    apply list_elem_of_here.
Qed.

(** X19: when [sign_tx] reports failure the call returns [None] with a
    logged error as its last event; no confirmation is asked, no label is
    set and nothing is pushed. *)
Theorem failed_signature_returns_none t ins :
  SignTx t ins ∈ run.2 →
  (sign_tx env t ins).1.1 = false →
  run.1 = RetNone
  ∧ (∃ msg, last run.2 = Some (LogError msg))
  ∧ Forall (λ e, is_confirmation e = false ∧ is_label e = false
                 ∧ is_push e = false) run.2.
Proof.
  intros Hin Hfail.
  apply (late _) in Hin as (l & p & lt & a & ta & Hp & _ & Ha & Hr & Hin);
    try done.
  pose proof (plan_request_trace env mixdepth daa cca answeryes) as Hplan.
  rewrite Hp in Hplan. cbn [snd] in Hplan.
  apply assemble_Next in Ha as (_ & _ & pre & -> & Hlog).
  rewrite Hr.
  fin_cases (cases l a); rewrite Hf in Hin |- *; cbn [fst snd finish];
    locate Hin; injection Hin as -> ->; try congruence.
  split; [done|]. split.
  - exists msg. by rewrite !(assoc_L (++)), last_snoc2.
  - repeat (apply Forall_app; split); try (by repeat constructor).
    + eapply Forall_impl; [exact Hplan|]. by intros [].
    + eapply Forall_impl; [exact Hlog|]. by intros ? [? ->].
Qed.

(** X20: on the PSBT path nobody is asked for confirmation, no label is
    set and [sign_tx] is not called. *)
Theorem psbt_path_asks_nothing :
  with_final_psbt = true →
  Forall (λ e, is_confirmation e = false ∧ is_label e = false
               ∧ ∀ t ins, e ≠ SignTx t ins) run.2.
Proof.
  intros Hpsbt. apply Forall_forall. intros e Hin.
  destruct (is_confirmation e || is_label e
            || match e with SignTx _ _ => true | _ => false end) eqn:Hk.
  2:{ destruct e; try discriminate; repeat split; done. }
  exfalso.
  apply (late _) in Hin as (l & p & lt & a & ta & _ & _ & _ & _ & Hin);
    try (by destruct e).
  fin_cases (cases l a); try congruence; rewrite Hf in Hin; cbn [snd] in Hin;
    split_in Hin; by subst e.
Qed.
End outcomes.

(** ** Locktime bounds and the number of calls *)

Lemma count_app p t1 t2 : count p (t1 ++ t2) = (count p t1 + count p t2)%nat.
Proof. unfold count. by rewrite filter_app, length_app. Qed.

Lemma count_zero p t : Forall (λ e, p e = false) t → count p t = 0%nat.
Proof.
  unfold count. induction 1 as [|e t He _ IH]; [done|].
  rewrite filter_cons. destruct (decide (p e = true)); [congruence|done].
Qed.

Section bounds.
Variable env : Env.
Variable mixdepth : Z.
Variable daa : list (string * Z).
Variable answeryes : bool.
Variable accept_callback : option accept_fn.
Variables info_callback error_callback : option (string → unit).
Variables return_transaction with_final_psbt optin_rbf : bool.
Variables cca change_label : option string.

Local Abbreviation run :=
  (direct_send env mixdepth daa answeryes accept_callback info_callback
     error_callback return_transaction with_final_psbt optin_rbf cca change_label).

Local Abbreviation fin l a :=
  (finalize env answeryes accept_callback info_callback error_callback
     return_transaction with_final_psbt cca change_label l a).

Lemma locktime_ge (u : gmap outpoint utxo) lt t :
  locktime env mixdepth u = (Next lt, t) →
  compute_tx_locktime env ≤ lt
  ∧ (mixdepth ≠ FIDELITY_BOND_MIXDEPTH env ∨ wallet_is_FidelityBondMixin env = false →
     lt = compute_tx_locktime env).
Proof.
  unfold locktime.
  destruct (mixdepth =? FIDELITY_BOND_MIXDEPTH env) eqn:Hm;
    destruct (wallet_is_FidelityBondMixin env) eqn:Hw; simpl;
    try (intros [= <- _]; split; [lia|done]).
  intros H. apply raise_locktimes_Next in H as [_ [[_ ->]|(? & m & _ & _ & _ & _ & ->)]].
  - split; [lia|done].
  - split; [lia|]. apply Z.eqb_eq in Hm. intros [?|?]; congruence.
Qed.

(** X21: the locktime of the built transaction is never below the value of
    [compute_tx_locktime], and it is that value whenever the mixdepth is
    not the fidelity bond mixdepth or the wallet is not a fidelity bond
    wallet, whatever the paths of the inputs; the version is always 2. *)
Theorem locktime_is_never_lowered ins os version lt :
  MakeShuffledTx ins os version lt ∈ run.2 →
  compute_tx_locktime env ≤ lt
  ∧ (mixdepth ≠ FIDELITY_BOND_MIXDEPTH env ∨ wallet_is_FidelityBondMixin env = false →
     lt = compute_tx_locktime env)
  ∧ version = 2.
Proof.
  intros Hin.
  apply direct_send_make_tx_inv in Hin as (l & t & _ & Hl & _ & _ & ->).
  apply locktime_ge in Hl as [? ?]. done.
Qed.

(** The traces of the checks and the planning. *)
Lemma plan_request_traces r t :
  plan_request env mixdepth daa answeryes cca = (r, t) →
  t = [] ∨ (∃ msg, t = [LogError msg]) ∨ t = [GetUtxosByMixdepth]
  ∨ (∃ msg, t = [GetUtxosByMixdepth; LogError msg])
  ∨ (∃ m, t = [SelectUtxos mixdepth m])
  ∨ (∃ m, t = [SelectUtxos mixdepth m; GetInternalAddr mixdepth]).
Proof.
  unfold plan_request.
  destruct (sanity_checks env mixdepth daa answeryes cca) as [[vars|o] t0] eqn:Hs.
  2:{ rewrite (bind_of_Stop _ _ _ _ eq_refl). intros [= _ <-].
      apply sanity_checks_Stop in Hs as [[_ ->]|[_ (msg & ? & -> & _)]]; eauto. }
  pose proof (sanity_checks_Next _ _ _ _ _ _ _ Hs) as [-> _].
  rewrite (bind_of_Next _ _ _ _ eq_refl). cbn [app].
  destruct (plan env mixdepth daa cca vars) as [[l|o] t1] eqn:Hpl;
    cbn [fst snd]; intros [= _ <-].
  - unfold plan in Hpl. destruct (is_sweep vars).
    + apply plan_sweep_Next in Hpl as (? & ? & ? & _ & _ & _ & _ & -> & _). auto.
    + apply plan_payment_full in Hpl
        as (? & ? & ? & ? & _ & _ & _ & _ & _ & _ & _ & _ & ->).
      destruct (is_none cca); eauto 10.
  - apply (plan_Stop env mixdepth daa answeryes cca vars o t1 Hs) in Hpl
      as [_ [(_ & _ & ->)|(_ & _ & ->)]]; eauto 10.
Qed.

Lemma fin_counts l a :
  (count is_confirmation (fin l a).2 ≤ 1)%nat
  ∧ (count is_label (fin l a).2 ≤ 1)%nat
  ∧ (count is_push (fin l a).2 ≤ 1)%nat
  ∧ (count is_signing (fin l a).2 ≤ 2)%nat.
Proof.
  destruct (finalize_cases env answeryes accept_callback info_callback
              error_callback return_transaction with_final_psbt cca
              change_label l a)
    as [(Hw & Herr & msg & Hf)|[(Hw & Herr & m1 & m2 & Hf)|[(Hw & Hs & msg & Hf)|
        (Hw & Hs & m1 & m2 & m3 & tc &
         [[Hc Hf]|[(Hc & Htr & Hca & Hf)|(tl & Hc & Hl' & [[Hpu Hf]|[Hpu Hf]])]])]]];
    cbv zeta in *; rewrite Hf; cbn [snd]; try (by vm_compute; lia).
  all: destruct (confirm_cases env answeryes accept_callback cca
                   (sign_tx env a.1.1 a.1.2).2 l
                   (if negb (amount l =? 0) then amount l
                    else total_inputs_val l - fee_est l))
         as [[_ Hc']|[(_ & _ & _ & Hc')|[(_ & _ & _ & Hc')|
             [(cb & _ & _ & _ & Hc')|(cb & _ & _ & _ & Hc')]]]];
    cbv zeta in Hc'; rewrite Hc in Hc'; simplify_eq;
    try (by vm_compute; lia).
  all: destruct (label_change_cases env change_label l)
         as [[_ Hl'']|[(lbl' & addr' & _ & _ & _ & Hl'')|(_ & _ & Hl'')]];
    rewrite Hl' in Hl''; simplify_eq;
    try destruct info_callback; try destruct error_callback;
    by vm_compute; lia.
Qed.

(** X22: one call retrieves or selects inputs at most once, asks the
    wallet for an internal address at most once, builds at most one
    transaction, asks for confirmation at most once, sets at most one label
    and pushes at most once. *)
Theorem calls_are_made_at_most_once :
  (count is_input_selection run.2 ≤ 1)%nat
  ∧ (count is_get_internal_addr run.2 ≤ 1)%nat
  ∧ (count is_make_tx run.2 ≤ 1)%nat
  ∧ (count is_confirmation run.2 ≤ 1)%nat
  ∧ (count is_label run.2 ≤ 1)%nat
  ∧ (count is_push run.2 ≤ 1)%nat.
Proof.
  assert (∀ r t, plan_request env mixdepth daa answeryes cca = (r, t) →
            (count is_input_selection t ≤ 1)%nat
            ∧ (count is_get_internal_addr t ≤ 1)%nat
            ∧ count is_make_tx t = 0%nat ∧ count is_confirmation t = 0%nat
            ∧ count is_label t = 0%nat ∧ count is_push t = 0%nat) as Hplan.
  { intros r t Hp.
    destruct (plan_request_traces _ _ Hp)
      as [->|[[? ->]|[->|[[? ->]|[[? ->]|[? ->]]]]]]; vm_compute; repeat split; lia. }
  assert (∀ l lt pre,
            Forall (λ e, ∃ msg, e = LogInfo msg) pre →
            let ta := pre ++ [MakeShuffledTx (keys (utxos l)) (outs l) 2 lt] in
            count is_input_selection ta = 0%nat
            ∧ count is_get_internal_addr ta = 0%nat
            ∧ count is_make_tx ta = 1%nat ∧ count is_confirmation ta = 0%nat
            ∧ count is_label ta = 0%nat ∧ count is_push ta = 0%nat) as Hasm.
  { intros l lt pre Hlog. cbv zeta. rewrite !count_app.
    rewrite !(count_zero _ pre) by (eapply Forall_impl; [exact Hlog|];
                                    by intros ? [? ->]).
    vm_compute. repeat split. }
  assert (∀ l a,
            count is_input_selection (fin l a).2 = 0%nat
            ∧ count is_get_internal_addr (fin l a).2 = 0%nat
            ∧ count is_make_tx (fin l a).2 = 0%nat) as Hfin.
  { intros l a.
    assert (Forall (λ e, is_input_selection e = false
                         ∧ is_get_internal_addr e = false
                         ∧ is_make_tx e = false) (fin l a).2) as Hall.
    { unfold finalize, finalize_psbt, finalize_tx, confirm, label_change,
        broadcast. trace_solve. }
    repeat split; apply count_zero; (eapply Forall_impl; [exact Hall|]);
      by intros ? (? & ? & ?). }
  destruct (direct_send_cases env mixdepth daa answeryes accept_callback
              info_callback error_callback return_transaction with_final_psbt
              optin_rbf cca change_label)
    as [(o & t & Hp & Hr)|[(l & t & o & Hp & Hl & Hr)|
        [(l & t & lt & o & ta & Hp & Hl & Ha & Hr)|
         (l & t & lt & a & ta & Hp & Hl & Ha & Hr)]]];
    rewrite Hr; cbn [snd];
    destruct (Hplan _ _ Hp) as (? & ? & ? & ? & ? & ?).
  - repeat split; lia.
  - repeat split; lia.
  - apply assemble_Stop in Ha as (_ & _ & pre & -> & Hlog).
    destruct (Hasm l lt pre Hlog) as (? & ? & ? & ? & ? & ?).
    rewrite !(count_app _ t). repeat split; lia.
  - apply assemble_Next in Ha as (_ & _ & pre & -> & Hlog).
    destruct (Hasm l lt pre Hlog) as (? & ? & ? & ? & ? & ?).
    destruct (Hfin l a) as (? & ? & ?).
    destruct (fin_counts l a) as (? & ? & ? & _).
    rewrite !(count_app _ t), !(count_app _ (pre ++ _)). repeat split; lia.
Qed.
End bounds.

(** ** The further properties on the scenarios *)

Lemma pushed_transaction_is_the_signed_one_witness :
  let env := demo_wallet false one_coin true true true in
  ∃ t ins,
    SignTx t ins ∈ (send env [("bc1qalice", 50000)] true None).2
    ∧ (sign_tx env t ins).1.1 = true
    ∧ "raw" = tx_serialize env (sign_tx env t ins).2.
Proof.
  apply (pushed_transaction_is_the_signed_one
           (demo_wallet false one_coin true true true) 0 [("bc1qalice", 50000)]
           true None None None false false true None None "raw").
  in_trace.
Defined.

Lemma signer_gets_the_built_transaction_witness :
  let env := demo_wallet false one_coin true true true in
  let trace := (send env [("bc1qalice", 50000)] true None).2 in
  ∃ l lt,
    let built := make_shuffled_tx env (keys (utxos l)) (outs l) 2 lt in
    MakeShuffledTx (keys (utxos l)) (outs l) 2 lt ∈ trace
    ∧ vout demo_payment_tx = vout built
    ∧ nVersion demo_payment_tx = nVersion built
    ∧ nLockTime demo_payment_tx = nLockTime built
    ∧ spent_outpoint <$> vin demo_payment_tx = spent_outpoint <$> vin built
    ∧ Forall (λ inp, nSequence inp = 0xffffffff - 2) (vin demo_payment_tx).
Proof.
  apply (signer_gets_the_built_transaction
           (demo_wallet false one_coin true true true) 0 [("bc1qalice", 50000)]
           true None None None false false true None None demo_payment_tx).
  left. exists {[ 0%nat := ("s1", 100000) ]}. in_trace.
Defined.

Lemma sign_tx_gets_the_spent_utxos_witness :
  let env := demo_wallet false one_coin true true true in
  ∃ l p,
    plan_request env 0 [("bc1qalice", 50000)] true None = (Next l, p)
    ∧ ∀ i txinp, vin demo_payment_tx !! i = Some txinp →
        ∃ va, utxos l !! spent_outpoint txinp = Some va
              ∧ ({[ 0%nat := ("s1", 100000) ]} : gmap nat (string * Z)) !! i
                = Some (script va, value va).
Proof.
  apply (sign_tx_gets_the_spent_utxos
           (demo_wallet false one_coin true true true) 0 [("bc1qalice", 50000)]
           true None None None false false true None None demo_payment_tx).
  in_trace.
Defined.

Lemma psbt_gets_the_spent_outputs_witness :
  let env := demo_wallet false one_coin true true true in
  let so := [{| nValue := 100000; scriptPubKey := "s1" |}] in
  ∃ l p,
    plan_request env 0 [("bc1qalice", 50000)] true None = (Next l, p)
    ∧ length so = length (vin demo_payment_tx)
    ∧ ∀ i txinp, vin demo_payment_tx !! i = Some txinp →
        ∃ va, utxos l !! spent_outpoint txinp = Some va
              ∧ so !! i = Some (spent_out va).
Proof.
  apply (psbt_gets_the_spent_outputs
           (demo_wallet false one_coin true true true) 0 [("bc1qalice", 50000)]
           true None None None false true true None None demo_payment_tx).
  in_trace.
Defined.

Lemma unknown_input_raises_key_error_witness :
  let env := with_make_shuffled_tx stray_tx
               (demo_wallet false one_coin true true true) in
  let r := send env [("bc1qalice", 50000)] true None in
  r.1 = Raised KeyError
  ∧ Forall (λ e, is_signing e = false ∧ is_push e = false) r.2.
Proof.
  apply (unknown_input_raises_key_error
           (with_make_shuffled_tx stray_tx
              (demo_wallet false one_coin true true true))
           0 [("bc1qalice", 50000)] true None None None false false true None
           None demo_payment_plan [SelectUtxos 0 50900; GetInternalAddr 0]
           800000
           {| prevout_hash := "ff"; prevout_n := 9; nSequence := 4294967295 |}).
  - vm_compute. reflexivity.
  - vm_compute. reflexivity.
  - in_trace.
  - vm_compute. reflexivity.
Defined.

Lemma success_means_pushed_or_psbt_witness :
  let env := demo_wallet false one_coin true true true in
  let r := send env [("bc1qalice", 50000)] true None in
  (false = true
   ∧ ∃ t so,
       let signed := sign_psbt env (psbt_serialize env (create_psbt_from_tx env t so)) in
       CreatePsbtFromTx t so ∈ r.2
       ∧ truthy signed.2 = false
       ∧ r.1 = RetPsbt (psbt_deserialize env signed.1))
  ∨ (false = false
     ∧ ∃ t ins,
         let signed := (sign_tx env t ins).2 in
         let txid := bintohex env (String.rev (GetTxid env signed)) in
         SignTx t ins ∈ r.2
         ∧ PushTx (tx_serialize env signed) ∈ r.2
         ∧ pushtx env (tx_serialize env signed) = true
         ∧ r.1 = (if false then RetTx signed else RetTxid txid)
         ∧ last r.2 = Some (report None LogInfo InfoCallback
                              ("Transaction sent: " +:+ txid))).
Proof.
  apply (success_means_pushed_or_psbt
           (demo_wallet false one_coin true true true) 0 [("bc1qalice", 50000)]
           true None None None false false true None None).
  vm_compute. reflexivity.
Defined.

Lemma failed_push_is_reported_witness :
  let r := send (demo_wallet false one_coin true true false)
             [("bc1qalice", 50000)] true None in
  r.1 = RetFalse
  ∧ last r.2 = Some (report None LogError ErrorCallback
                       "Transaction broadcast failed!").
Proof.
  apply (failed_push_is_reported
           (demo_wallet false one_coin true true false) 0 [("bc1qalice", 50000)]
           true None None None false false true None None "raw").
  - in_trace.
  - reflexivity.
Defined.

Lemma psbt_result_witness :
  let env := demo_wallet false one_coin false true true in
  let r := direct_send env 0 [("bc1qalice", 50000)] true None None None false
             true true None None in
  let so := [{| nValue := 100000; scriptPubKey := "s1" |}] in
  let signed :=
    sign_psbt env (psbt_serialize env (create_psbt_from_tx env demo_payment_tx so)) in
  true = true
  ∧ SignPsbt (psbt_serialize env (create_psbt_from_tx env demo_payment_tx so)) ∈ r.2
  ∧ r.1 = (if truthy signed.2 then RetFalse
           else RetPsbt (psbt_deserialize env signed.1)).
Proof.
  apply (psbt_result (demo_wallet false one_coin false true true) 0
           [("bc1qalice", 50000)] true None None None false true true None None
           demo_payment_tx [{| nValue := 100000; scriptPubKey := "s1" |}]).
  in_trace.
Defined.

Lemma accept_callback_is_shown_the_last_target_witness :
  let env := demo_wallet false one_coin true true true in
  let daa := [("bc1qalice", 1000); ("bc1qbob", 2000)] in
  false = false ∧ None = @None string
  ∧ ∃ l p,
      plan_request env 0 daa false None = (Next l, p)
      ∧ last daa = Some ("bc1qbob", amount l)
      ∧ 250 = fee_est l
      ∧ 2000 = (if amount l =? 0 then sum (input_values (utxos l)) - fee_est l
                else amount l).
Proof.
  apply (accept_callback_is_shown_the_last_target
           (demo_wallet false one_coin true true true) 0
           [("bc1qalice", 1000); ("bc1qbob", 2000)] false
           (Some (λ _ _ _ _ _, true)) None None false false true None None
           "tx" "bc1qbob" 2000 250 None).
  in_trace.
Defined.

Lemma confirmation_is_asked_after_signing_witness :
  let env := demo_wallet false one_coin true true true in
  let trace := (send env [("bc1qalice", 50000)] false None).2 in
  false = false ∧ false = false
  ∧ (∃ t ins, SignTx t ins ∈ trace ∧ (sign_tx env t ins).1.1 = true)
  ∧ CliPromptUserYesNo "Would you like to push to the network?"
    = CliPromptUserYesNo "Would you like to push to the network?".
Proof.
  apply (confirmation_is_asked_after_signing
           (demo_wallet false one_coin true true true) 0 [("bc1qalice", 50000)]
           false None None None false false true None None
           (CliPromptUserYesNo "Would you like to push to the network?")).
  - in_trace.
  - reflexivity.
Defined.

Lemma label_goes_to_the_change_address_witness :
  let env := demo_wallet false one_coin true true true in
  let daa := [("bc1qalice", 50000)] in
  Some "savings" = Some "savings" ∧ "savings" ≠ EmptyString
  ∧ Forall (λ tgt : string * Z, tgt.2 ≠ 0) daa
  ∧ "bc1qchange" = from_option id (get_internal_addr env 0) None
  ∧ ∃ raw, PushTx raw ∈ (send env daa true (Some "savings")).2.
Proof.
  apply (label_goes_to_the_change_address
           (demo_wallet false one_coin true true true) 0 [("bc1qalice", 50000)]
           true None None None false false true None (Some "savings")
           "bc1qchange" "savings").
  in_trace.
Defined.

Lemma failed_signature_returns_none_witness :
  let r := send (demo_wallet false one_coin false true true)
             [("bc1qalice", 50000)] true None in
  r.1 = RetNone
  ∧ (∃ msg, last r.2 = Some (LogError msg))
  ∧ Forall (λ e, is_confirmation e = false ∧ is_label e = false
                 ∧ is_push e = false) r.2.
Proof.
  apply (failed_signature_returns_none
           (demo_wallet false one_coin false true true) 0 [("bc1qalice", 50000)]
           true None None None false false true None None demo_payment_tx
           {[ 0%nat := ("s1", 100000) ]}).
  - in_trace.
  - reflexivity.
Defined.

Lemma psbt_path_asks_nothing_witness :
  Forall (λ e, is_confirmation e = false ∧ is_label e = false
               ∧ ∀ t ins, e ≠ SignTx t ins)
    (direct_send (demo_wallet false one_coin true true true) 0
       [("bc1qalice", 50000)] false None None None false true true None
       (Some "savings")).2.
Proof.
  apply (psbt_path_asks_nothing
           (demo_wallet false one_coin true true true) 0 [("bc1qalice", 50000)]
           false None None None false true true None (Some "savings")).
  reflexivity.
Defined.

Lemma locktime_is_never_lowered_witness :
  let env := demo_wallet false bond_coins true true true in
  compute_tx_locktime env ≤ 800000
  ∧ (0 ≠ FIDELITY_BOND_MIXDEPTH env ∨ wallet_is_FidelityBondMixin env = false →
     800000 = compute_tx_locktime env)
  ∧ 2 = 2.
Proof.
  apply (locktime_is_never_lowered
           (demo_wallet false bond_coins true true true) 0 [("bc1qalice", 0)]
           true None None None false false true None None
           [("ab", 0); ("cd", 1)]
           [{| out_value := 104750; out_address := "bc1qalice" |}]).
  in_trace.
Defined.
